(** * Finance dashboard backend: extraction, categorisation, aggregation

    Shallow embedding of [finance_dashboard/backend/app.py] and
    [finance_dashboard/backend/processor.py].

    Modelling conventions.
    - A Python [str] is a Rocq [string]: the UTF-8 bytes of the text.  The
      currency signs of the sources are therefore multi-byte substrings, and
      [str.replace] and [in] on them are substring operations on bytes, which
      agree with the code-point operations because UTF-8 is self-synchronising.
      [str.lower] is modelled as far as the ASCII words the sources look
      for can tell; [str.strip], [\d] and [\s] are modelled on their ASCII
      fragment.
    - A Python [float] is a [pyfloat]: an exact rational, an infinity or NaN.
      The range of binary64 is modelled: [float] of an integer beyond it
      raises [OverflowError], and a decimal literal beyond it is an infinity
      or zero.  The rounding of the mantissa is not modelled in [pyfloat];
      the module [Binary64] embeds the aggregation over machine floats for
      the statements that depend on it.  NaN is kept because pandas hands it
      over for an empty cell and [processor.py] tests for it.
    - A raised exception is the [Raise] result of a small error monad; a
      [try/except] is [try_except].
    - A [dict] iterated in insertion order is an association list.
    - A raw value is null, text, an integer or a real number, and a field
      name is text or null, as in the data model of the specification;
      [str] of a real number depends on binary64 and is a parameter
      [float_repr] of the functions that call it.
    - pandas, which decodes the files, is outside the sources: its readers
      are parameters of the batch operation. *)

From Stdlib Require Import ZArith QArith Qcanon Qcabs.
From Stdlib Require Import String Ascii DecimalString List Bool Lia Permutation.
From Stdlib Require PrimFloat.
Import ListNotations.

Local Open Scope string_scope.
Local Open Scope list_scope.

(** ** Exceptions *)

Inductive exn : Type :=
| ValueError (msg : string)
| TypeError (msg : string)
| OverflowError (msg : string)
| OtherError (msg : string)
| HTTPException (status_code : nat) (detail : string).

Inductive result (A : Type) : Type :=
| Ok (a : A)
| Raise (e : exn).

Arguments Ok {A} a.
Arguments Raise {A} e.

Definition bind {A B : Type} (m : result A) (k : A -> result B) : result B :=
  match m with
  | Ok a => k a
  | Raise e => Raise e
  end.

Notation "x <- m ;; k" := (bind m (fun x => k))
  (at level 61, m at next level, right associativity).

(** [try: body  except (ValueError, TypeError): return handler] *)
Definition try_except {A : Type} (body : result A) (handler : A) : result A :=
  match body with
  | Ok a => Ok a
  | Raise (ValueError _) | Raise (TypeError _) => Ok handler
  | Raise e => Raise e
  end.

(** ** Python strings *)

Module PyStr.

Definition is_upper (c : ascii) : bool :=
  let n := nat_of_ascii c in (65 <=? n)%nat && (n <=? 90)%nat.

Definition lower_char (c : ascii) : ascii :=
  if is_upper c then ascii_of_nat (nat_of_ascii c + 32) else c.

(** [s.lower()], on the UTF-8 bytes of the text.  An ASCII capital becomes
    its small letter.  Beyond ASCII two characters have ASCII letters in
    their lowercase form: the dotted capital I (U+0130, bytes 196 176)
    becomes i followed by the combining dot above (U+0307, bytes 204 135),
    and the Kelvin sign (U+212A, bytes 226 132 170) becomes k.  Every other
    character beyond ASCII is left as it is: its lowercase form has no ASCII
    character, so the tests of the sources on a lowercased text, which all
    look for ASCII words, come out as in Python. *)
Fixpoint lower (s : string) : string :=
  match s with
  | EmptyString => EmptyString
  | String c s' =>
      match s' with
      | String c2 s2 =>
          if Ascii.eqb c "196" && Ascii.eqb c2 "176" then
            String "i" (String "204" (String "135" (lower s2)))
          else
            match s2 with
            | String c3 s3 =>
                if Ascii.eqb c "226" && Ascii.eqb c2 "132" && Ascii.eqb c3 "170"
                then String "k" (lower s3)
                else String (lower_char c) (lower s')
            | EmptyString => String (lower_char c) (lower s')
            end
      | EmptyString => String (lower_char c) EmptyString
      end
  end.

(** ASCII characters for which [str.isspace] holds. *)
Definition is_space (c : ascii) : bool :=
  let n := nat_of_ascii c in
  ((9 <=? n)%nat && (n <=? 13)%nat) || ((28 <=? n)%nat && (n <=? 32)%nat).

Fixpoint lstrip (s : string) : string :=
  match s with
  | EmptyString => EmptyString
  | String c s' => if is_space c then lstrip s' else s
  end.

Fixpoint rstrip (s : string) : string :=
  match s with
  | EmptyString => EmptyString
  | String c s' =>
      match rstrip s' with
      | EmptyString => if is_space c then EmptyString else String c EmptyString
      | r => String c r
      end
  end.

(** [s.strip()] *)
Definition strip (s : string) : string := rstrip (lstrip s).

(** [s.startswith(p)] *)
Fixpoint startswith (p s : string) : bool :=
  match p, s with
  | EmptyString, _ => true
  | String _ _, EmptyString => false
  | String a p', String b s' => Ascii.eqb a b && startswith p' s'
  end.

(** [p in s] *)
Fixpoint contains (p s : string) : bool :=
  startswith p s ||
  match s with
  | EmptyString => false
  | String _ s' => contains p s'
  end.

(** [s.endswith(p)] *)
Fixpoint endswith (p s : string) : bool :=
  String.eqb p s ||
  match s with
  | EmptyString => false
  | String _ s' => endswith p s'
  end.

(** [s.replace(old, '')] for a non-empty [old]: the occurrences are taken
    left to right and do not overlap.  [skip] counts the characters of an
    occurrence still to be dropped. *)
Fixpoint remove_from (old s : string) (skip : nat) : string :=
  match s with
  | EmptyString => EmptyString
  | String c s' =>
      match skip with
      | S k => remove_from old s' k
      | O =>
          if startswith old s then remove_from old s' (String.length old - 1)
          else String c (remove_from old s' 0)
      end
  end.

Definition remove (old s : string) : string := remove_from old s 0.

(** [any(term in s for term in terms)] *)
Definition any_in (terms : list string) (s : string) : bool :=
  existsb (fun term => contains term s) terms.

End PyStr.

(** ** Python floats *)

Inductive pyfloat : Type :=
| Fin (q : Qc)
| Inf (negative : bool)
| NaN.

Definition Fz (z : Z) : pyfloat := Fin (Q2Qc (inject_Z z)).

Definition fzero : pyfloat := Fz 0.

Definition padd (x y : pyfloat) : pyfloat :=
  match x, y with
  | NaN, _ | _, NaN => NaN
  | Fin a, Fin b => Fin (a + b)%Qc
  | Inf s, Fin _ | Fin _, Inf s => Inf s
  | Inf s, Inf t => if Bool.eqb s t then Inf s else NaN
  end.

Definition pneg (x : pyfloat) : pyfloat :=
  match x with
  | Fin a => Fin (- a)%Qc
  | Inf s => Inf (negb s)
  | NaN => NaN
  end.

Definition psub (x y : pyfloat) : pyfloat := padd x (pneg y).

Definition pabs (x : pyfloat) : pyfloat :=
  match x with
  | Fin a => Fin (Qcabs a)
  | Inf _ => Inf false
  | NaN => NaN
  end.

Definition Qc_is_zero (a : Qc) : bool := Qeq_bool a 0.
Definition Qc_is_neg (a : Qc) : bool := negb (Qle_bool 0 a).
Definition Qc_is_pos (a : Qc) : bool := negb (Qle_bool a 0).

Definition pmul (x y : pyfloat) : pyfloat :=
  match x, y with
  | NaN, _ | _, NaN => NaN
  | Fin a, Fin b => Fin (a * b)%Qc
  | Inf s, Fin b | Fin b, Inf s =>
      if Qc_is_zero b then NaN else Inf (xorb s (Qc_is_neg b))
  | Inf s, Inf t => Inf (xorb s t)
  end.

(** [x > 0] *)
Definition pgt0 (x : pyfloat) : bool :=
  match x with
  | Fin a => Qc_is_pos a
  | Inf s => negb s
  | NaN => false
  end.

(** [x < 0] *)
Definition plt0 (x : pyfloat) : bool :=
  match x with
  | Fin a => Qc_is_neg a
  | Inf s => s
  | NaN => false
  end.

(** [x == 0] *)
Definition peq0 (x : pyfloat) : bool :=
  match x with
  | Fin a => Qc_is_zero a
  | _ => false
  end.

(** [x == y] *)
Definition peq (x y : pyfloat) : bool :=
  match x, y with
  | Fin a, Fin b => Qeq_bool a b
  | Inf s, Inf t => Bool.eqb s t
  | _, _ => false
  end.

(** [math.isnan] *)
Definition is_nan (x : pyfloat) : bool :=
  match x with NaN => true | _ => false end.

(** The decimal [m * 10^e]. *)
Definition decimal (m e : Z) : pyfloat :=
  match e with
  | Zneg p => Fin (Q2Qc (Qmake m (10 ^ p)))
  | _ => Fin (Q2Qc (inject_Z (m * 10 ^ e)))
  end.

(** [float(z)] of an [int] returns for [|z| < 2^1024 - 2^970], the integers
    that round to a finite binary64 number. *)
Definition float_limit : Z := Eval vm_compute in (2 ^ 1024 - 2 ^ 970)%Z.

(** Half of the least positive binary64 number, [2^-1075]. *)
Definition float_tiny : Q := Eval vm_compute in (1 # 2 ^ 1075).

(** A decimal literal beyond the largest binary64 number is an infinity, and
    one that is at most half the least positive number is zero. *)
Definition to_range (x : pyfloat) : pyfloat :=
  match x with
  | Fin q =>
      if Qle_bool (inject_Z float_limit) (Qcabs q) then Inf (Qc_is_neg q)
      else if Qle_bool (Qcabs q) float_tiny then fzero
      else x
  | _ => x
  end.

(** ** [float(text)] *)

Module PyFloatText.

Definition is_digit (c : ascii) : bool :=
  let n := nat_of_ascii c in (48 <=? n)%nat && (n <=? 57)%nat.

Definition digit_val (c : ascii) : Z := Z.of_nat (nat_of_ascii c - 48).

(** The rest of a run of digits, in which single underscores may separate
    digits: the value so far, the number of digits so far, the text left. *)
Fixpoint digits_from (s : string) (acc : Z) (n : nat) : Z * nat * string :=
  match s with
  | String c s' =>
      if is_digit c then digits_from s' (acc * 10 + digit_val c)%Z (S n)
      else if Ascii.eqb c "_" then
        match s' with
        | String d s'' =>
            if is_digit d
            then digits_from s'' (acc * 10 + digit_val d)%Z (S n)
            else (acc, n, s)
        | EmptyString => (acc, n, s)
        end
      else (acc, n, s)
  | EmptyString => (acc, n, s)
  end.

(** A possibly empty run of digits. *)
Definition digits (s : string) : Z * nat * string :=
  match s with
  | String c s' =>
      if is_digit c then digits_from s' (digit_val c) 1 else (0%Z, O, s)
  | EmptyString => (0%Z, O, s)
  end.

(** An optional sign: whether it is a minus, and the text left. *)
Definition sign (s : string) : bool * string :=
  match s with
  | String c s' =>
      if Ascii.eqb c "-" then (true, s')
      else if Ascii.eqb c "+" then (false, s')
      else (false, s)
  | EmptyString => (false, s)
  end.

Definition with_sign (negative : bool) (x : pyfloat) : pyfloat :=
  if negative then pneg x else x.

Definition invalid : exn := ValueError "could not convert string to float".

(** [float(s)] for a [str]: surrounding whitespace is dropped; then a sign,
    then [inf], [infinity] or [nan] in any case, or a decimal literal with
    at least one digit in its mantissa and an optional exponent, whose
    value is brought into the range of binary64. *)
Definition float_of_text (s : string) : result pyfloat :=
  let '(negative, body) := sign (PyStr.strip s) in
  let word := PyStr.lower body in
  if String.eqb word "inf" || String.eqb word "infinity" then Ok (Inf negative)
  else if String.eqb word "nan" then Ok NaN
  else
    let '(ipart, ni, r1) := digits body in
    let '(fpart, nf, r2) :=
      match r1 with
      | String c r => if Ascii.eqb c "." then digits r else (0%Z, O, r1)
      | EmptyString => (0%Z, O, r1)
      end in
    if (ni + nf =? 0)%nat then Raise invalid
    else
      let mant := (ipart * 10 ^ Z.of_nat nf + fpart)%Z in
      match r2 with
      | EmptyString =>
          Ok (to_range (with_sign negative (decimal mant (- Z.of_nat nf))))
      | String c r3 =>
          if Ascii.eqb c "e" || Ascii.eqb c "E" then
            let '(eneg, r4) := sign r3 in
            let '(ev, ne, r5) := digits r4 in
            if (ne =? 0)%nat then Raise invalid
            else
              match r5 with
              | EmptyString =>
                  let e := if eneg then (- ev)%Z else ev in
                  Ok (to_range (with_sign negative (decimal mant (e - Z.of_nat nf))))
              | String _ _ => Raise invalid
              end
          else Raise invalid
      end.

End PyFloatText.

(** ** Raw records *)

(** A raw value: null, text, an integer or a real number. *)
Inductive pyval : Type :=
| VNone
| VStr (s : string)
| VInt (z : Z)
| VFloat (f : pyfloat).

(** A field name: text, or null. *)
Inductive pykey : Type :=
| KNone
| KStr (s : string).

(** A row as [row.items()] yields it. *)
Definition row : Type := list (pykey * pyval).

(** [str(z)] for an [int]. *)
Definition str_of_Z (z : Z) : string :=
  DecimalString.NilZero.string_of_int (Z.to_int z).

(** [str(e)] *)
Definition exn_str (e : exn) : string :=
  match e with
  | ValueError m | TypeError m | OverflowError m | OtherError m => m
  | HTTPException status_code detail =>
      (str_of_Z (Z.of_nat status_code) ++ ": " ++ detail)%string
  end.

(** [str(key)] *)
Definition str_of_key (key : pykey) : string :=
  match key with
  | KNone => "None"
  | KStr s => s
  end.

(** The truth value of a key in [if key]. *)
Definition truthy_key (key : pykey) : bool :=
  match key with
  | KNone => false
  | KStr s => negb (String.eqb s "")
  end.

(** [value is None] *)
Definition is_None (value : pyval) : bool :=
  match value with VNone => true | _ => false end.

(** [value == ''] *)
Definition eq_empty (value : pyval) : bool :=
  match value with VStr s => String.eqb s "" | _ => false end.

(** [pd.isna(value)] on a scalar: None and NaN are missing. *)
Definition pd_isna (value : pyval) : bool :=
  match value with
  | VNone => true
  | VFloat NaN => true
  | _ => false
  end.

Definition int_too_large : exn :=
  OverflowError "int too large to convert to float".

(** [float(value)]: an [int] beyond the range of binary64 raises. *)
Definition float_of (value : pyval) : result pyfloat :=
  match value with
  | VInt z =>
      if (Z.abs z <? float_limit)%Z then Ok (Fz z) else Raise int_too_large
  | VFloat f => Ok f
  | VStr s => PyFloatText.float_of_text s
  | VNone =>
      Raise (TypeError
               "float() argument must be a string or a real number, not 'NoneType'")
  end.

(** A Transaction, the dictionary both extractors build. *)
Record transaction : Type := mkTransaction {
  t_date : string;
  t_description : string;
  t_amount : pyfloat;
  t_category : string;
  t_type : string
}.

(** The taxonomy, in declaration order. *)
Definition taxonomy : Type := list (string * list (string * list string)).

(** The inner loop of [categorize_transaction] over one main category. *)
Fixpoint categorize_in (main_cat : string) (sub_cats : list (string * list string))
    (desc_lower : string) : option string :=
  match sub_cats with
  | [] => None
  | (sub_cat, keywords) :: rest =>
      if PyStr.any_in keywords desc_lower
      then Some (main_cat ++ "_" ++ sub_cat)%string
      else categorize_in main_cat rest desc_lower
  end.

(** The outer loop of [categorize_transaction]. *)
Fixpoint categorize_from (chart : taxonomy) (desc_lower : string) : string :=
  match chart with
  | [] => "uncategorized"
  | (main_cat, sub_cats) :: rest =>
      match categorize_in main_cat sub_cats desc_lower with
      | Some label => label
      | None => categorize_from rest desc_lower
      end
  end.

(** The three searches of [extract_transaction] share their code in both
    sources, up to the function that parses the amount and the placeholder
    of the description. *)
Section Extraction.

Variable parse_amount : pyval -> result pyfloat.
Variable categorize_transaction : string -> string.
Variable placeholder : string.
(** [str(x)] for a [float] depends on binary64 and stays a parameter. *)
Variable float_repr : pyfloat -> string.

(** [str(value)] *)
Definition str_of (value : pyval) : string :=
  match value with
  | VNone => "None"
  | VStr s => s
  | VInt z => str_of_Z z
  | VFloat f => float_repr f
  end.

(** The [for key, value in row.items()] loop that finds the amount, with its
    three [break]s; the empty list is the loop running to its end with
    [amount] still [0]. *)
Fixpoint find_amount (items : row) : result pyfloat :=
  match items with
  | [] => Ok fzero
  | (key, value) :: rest =>
      if truthy_key key && negb (is_None value) then
        let key_lower := PyStr.lower (str_of_key key) in
        if PyStr.any_in ["amount"; "amt"; "value"] key_lower then
          parse_amount value
        else if PyStr.any_in ["debit"; "withdrawal"; "dr"] key_lower then
          a <- parse_amount value ;; Ok (pneg (pabs a))
        else if PyStr.any_in ["credit"; "deposit"; "cr"] key_lower then
          a <- parse_amount value ;; Ok (pabs a)
        else find_amount rest
      else find_amount rest
  end.

(** [next((str(value) for key, value in row.items() if key and cond(key)), default)] *)
Fixpoint next_str (cond : string -> bool) (items : row) (default : string) : string :=
  match items with
  | [] => default
  | (key, value) :: rest =>
      if truthy_key key && cond (PyStr.lower (str_of_key key))
      then str_of value
      else next_str cond rest default
  end.

Definition description_terms : list string :=
  ["description"; "desc"; "particulars"; "narration"; "details"].

Definition extract_transaction_with (r : row) : result (option transaction) :=
  amount <- find_amount r ;;
  if peq0 amount then Ok None
  else
    let description :=
      next_str (PyStr.any_in description_terms) r placeholder in
    let date := next_str (PyStr.contains "date") r "" in
    let category := categorize_transaction description in
    Ok (Some {| t_date := date;
                t_description := description;
                t_amount := amount;
                t_category := category;
                t_type := if pgt0 amount then "income" else "expense" |}).

End Extraction.

(** ** Reports *)

(** A breakdown: category label to amount, in insertion order. *)
Definition dict : Type := list (string * pyfloat).

(** [d.get(k, default)] *)
Fixpoint dict_get (d : dict) (k : string) (default : pyfloat) : pyfloat :=
  match d with
  | [] => default
  | (k', v) :: rest => if String.eqb k' k then v else dict_get rest k default
  end.

(** [d[k] = v]: an existing key keeps its place, a new one goes last. *)
Fixpoint dict_set (d : dict) (k : string) (v : pyfloat) : dict :=
  match d with
  | [] => [(k, v)]
  | (k', v') :: rest =>
      if String.eqb k' k then (k', v) :: rest else (k', v') :: dict_set rest k v
  end.

(** [sum(d.values())] *)
Definition sum_values (d : dict) : pyfloat :=
  fold_left padd (map snd d) fzero.

Record income_statement : Type := mkIncomeStatement {
  total_income : pyfloat;
  total_expenses : pyfloat;
  net_income : pyfloat;
  breakdown : dict
}.

Record balance_sheet : Type := mkBalanceSheet {
  total_assets : pyfloat;
  total_liabilities : pyfloat;
  total_equity : pyfloat
}.

Record cash_flow : Type := mkCashFlow {
  operating_activities : pyfloat;
  investing_activities : pyfloat;
  financing_activities : pyfloat;
  net_cash_flow : pyfloat
}.

Record reports : Type := mkReports {
  r_transactions : list transaction;
  r_income_statement : income_statement;
  r_balance_sheet : balance_sheet;
  r_cash_flow : cash_flow
}.

(** The float literals [0.7], [0.3] and [0.1]. *)
Definition f0_7 : pyfloat := decimal 7 (-1).
Definition f0_3 : pyfloat := decimal 3 (-1).
Definition f0_1 : pyfloat := decimal 1 (-1).

(** One turn of the loop over the transactions. *)
Definition accumulate (acc : dict * dict) (t : transaction) : dict * dict :=
  let '(income_breakdown, expense_breakdown) := acc in
  let category := t_category t in
  let amount := t_amount t in
  if pgt0 amount then
    (dict_set income_breakdown category
       (padd (dict_get income_breakdown category fzero) amount),
     expense_breakdown)
  else
    (income_breakdown,
     dict_set expense_breakdown category
       (padd (dict_get expense_breakdown category fzero) (pabs amount))).

(** [{**income_breakdown, **{f"expense_{k}": -v for k, v in expense_breakdown.items()}}] *)
Definition merge_breakdown (income_breakdown expense_breakdown : dict) : dict :=
  fold_left (fun d kv => dict_set d ("expense_" ++ fst kv)%string (pneg (snd kv)))
    expense_breakdown income_breakdown.

(** [generate_reports]; app.py and processor.py run the same statements. *)
Definition generate_reports (transactions : list transaction) : reports :=
  let '(income_breakdown, expense_breakdown) :=
    fold_left accumulate transactions ([], []) in
  let total_income := sum_values income_breakdown in
  let total_expenses := sum_values expense_breakdown in
  let net_income := psub total_income total_expenses in
  let total_assets := pmul total_income f0_7 in
  let total_liabilities := pmul total_expenses f0_3 in
  let total_equity := psub total_assets total_liabilities in
  let operating_cash := net_income in
  let investing_cash := pmul total_income f0_1 in
  let financing_cash := pmul total_expenses f0_1 in
  let net_cash_flow := padd (padd operating_cash investing_cash) financing_cash in
  {| r_transactions := transactions;
     r_income_statement :=
       {| total_income := total_income;
          total_expenses := total_expenses;
          net_income := net_income;
          breakdown := merge_breakdown income_breakdown expense_breakdown |};
     r_balance_sheet :=
       {| total_assets := total_assets;
          total_liabilities := total_liabilities;
          total_equity := total_equity |};
     r_cash_flow :=
       {| operating_activities := operating_cash;
          investing_activities := investing_cash;
          financing_activities := financing_cash;
          net_cash_flow := net_cash_flow |} |}.

(** [[t for row in rows if (t := extract(row))]], and the same loop written
    with [append] in processor.py. *)
Fixpoint collect (extract : row -> result (option transaction)) (rows : list row)
    : result (list transaction) :=
  match rows with
  | [] => Ok []
  | r :: rest =>
      t <- extract r ;;
      ts <- collect extract rest ;;
      Ok (match t with Some t' => t' :: ts | None => ts end)
  end.

(** ** app.py *)

Module App.

Definition CHART_OF_ACCOUNTS : taxonomy :=
  [ ("income",
      [ ("salary", ["salary"; "payroll"; "wages"]);
        ("business", ["freelance"; "consulting"; "client"; "project"]);
        ("investment", ["dividend"; "interest"; "return"; "yield"]);
        ("other_income", ["refund"; "reimbursement"; "gift"]) ]);
    ("expenses",
      [ ("housing", ["rent"; "mortgage"; "emi"; "house"; "apartment"]);
        ("utilities", ["electric"; "water"; "bill"; "utility"; "internet"; "mobile"]);
        ("food", ["grocery"; "restaurant"; "food"; "dining"; "supermarket"]);
        ("transport", ["fuel"; "petrol"; "uber"; "ola"; "transport"; "bus"; "train"]);
        ("healthcare", ["medical"; "hospital"; "doctor"; "pharmacy"; "medicine"]);
        ("entertainment", ["movie"; "netflix"; "prime"; "entertainment"; "game"]);
        ("shopping", ["shopping"; "mall"; "amazon"; "flipkart"; "purchase"]) ]) ].

(** [str(value).replace(',', '').replace('₹', '').replace('$', '').replace('€', '').strip()] *)
Definition clean (s : string) : string :=
  PyStr.strip
    (PyStr.remove "€" (PyStr.remove "$" (PyStr.remove "₹" (PyStr.remove "," s)))).

(** [float(cleaned) if cleaned else 0] *)
Definition float_or_zero (cleaned : string) : result pyfloat :=
  if String.eqb cleaned "" then Ok fzero else PyFloatText.float_of_text cleaned.

Definition parse_amount (value : pyval) : result pyfloat :=
  if is_None value || eq_empty value then Ok fzero
  else
    try_except
      (match value with
       | VInt _ | VFloat _ => float_of value  (* isinstance(value, (int, float)) *)
       | VStr s => float_or_zero (clean s)    (* str(value) is the text *)
       | VNone => float_or_zero (clean "None")
       end)
      fzero.

Definition categorize_transaction (description : string) : string :=
  categorize_from CHART_OF_ACCOUNTS (PyStr.lower description).

Definition extract_transaction (float_repr : pyfloat -> string) (r : row)
    : result (option transaction) :=
  extract_transaction_with parse_amount categorize_transaction
    "Unknown Transaction" float_repr r.

Definition generate_reports := generate_reports.

(** An uploaded file: [file.filename], null or text, and what
    [await file.read()] gives. *)
Record upload : Type := mkUpload {
  filename : option string;
  read : result string
}.

(** An entry of [processed_files_status]. *)
Inductive file_status : Type :=
| Success (name : string) (transactions_count : nat)
| Failure (name : string) (error : string).

Record summary : Type := mkSummary {
  s_total_transactions : nat;
  s_total_income : pyfloat;
  s_total_expenses : pyfloat;
  s_net_income : pyfloat
}.

Record response : Type := mkResponse {
  resp_status : string;
  resp_processed_files : list file_status;
  resp_summary : summary;
  resp_reports : reports
}.

Section Batch.

Variable float_repr : pyfloat -> string.
(** The rows [pd.read_csv] and [pd.read_excel] decode from the bytes of a
    file, or the exception they raise; pandas is outside the sources. *)
Variable read_csv : string -> result (list row).
Variable read_excel : string -> result (list row).

Definition process_csv (file_content : string) : result (list transaction) :=
  rows <- read_csv file_content ;;
  collect (extract_transaction float_repr) rows.

Definition process_excel (file_content : string) : result (list transaction) :=
  rows <- read_excel file_content ;;
  collect (extract_transaction float_repr) rows.

(** The body of the [try] for one file: the transactions of a supported
    file, or [None] where the source records the unsupported format and
    continues. *)
Definition attempt (name : string) (file : upload)
    : result (option (list transaction)) :=
  file_content <- read file ;;
  if PyStr.endswith ".csv" (PyStr.lower name) then
    transactions <- process_csv file_content ;; Ok (Some transactions)
  else if PyStr.endswith ".xlsx" (PyStr.lower name)
          || PyStr.endswith ".xls" (PyStr.lower name) then
    transactions <- process_excel file_content ;; Ok (Some transactions)
  else Ok None.

(** One turn of the loop over the files, on the pair of
    [all_transactions] and [processed_files_status]. *)
Definition process_file (state : list transaction * list file_status)
    (file : upload) : list transaction * list file_status :=
  let '(all_transactions, processed_files_status) := state in
  match filename file with
  | None => state
  | Some name =>
      if String.eqb name "" then state
      else
        match attempt name file with
        | Ok (Some transactions) =>
            (all_transactions ++ transactions,
             processed_files_status
               ++ [Success name (List.length transactions)])
        | Ok None =>
            (all_transactions,
             processed_files_status
               ++ [Failure name "Unsupported file format"])
        | Raise e =>
            (all_transactions,
             processed_files_status ++ [Failure name (exn_str e)])
        end
  end.

Definition process_files (files : list upload) : result response :=
  let '(all_transactions, processed_files_status) :=
    fold_left process_file files ([], []) in
  match all_transactions with
  | [] => Raise (HTTPException 400 "No valid transactions found in any file")
  | _ :: _ =>
      let reports := generate_reports all_transactions in
      Ok {| resp_status := "success";
            resp_processed_files := processed_files_status;
            resp_summary :=
              {| s_total_transactions := List.length all_transactions;
                 s_total_income := total_income (r_income_statement reports);
                 s_total_expenses := total_expenses (r_income_statement reports);
                 s_net_income := net_income (r_income_statement reports) |};
            resp_reports := reports |}
  end.

End Batch.

End App.

(** ** Regular expressions

    The fragment of [re] the two patterns of [parse_pdf_line] are written in:
    a sequence of character classes, each with a repetition range that is
    greedy or lazy, and capturing groups around runs of them.  [search]
    backtracks as [re.search] does: leftmost start first, and at each
    repetition the longest count first when greedy, the shortest when lazy. *)

Module Regex.

Inductive item : Type :=
| Rep (cls : ascii -> bool) (lo : nat) (hi : option nat) (greedy : bool)
| Open (g : nat)
| Close (g : nat).

(** A group boundary met on the way: closing or opening, group, offset. *)
Definition mark : Type := (bool * nat * nat)%type.

Definition below (hi : option nat) (n : nat) : bool :=
  match hi with
  | Some h => (n <? h)%nat
  | None => true
  end.

Fixpoint match_here (items : list item) (s : string) (pos : nat)
    (marks : list mark) {struct items} : option (list mark) :=
  match items with
  | [] => Some marks
  | Open g :: rest => match_here rest s pos ((false, g, pos) :: marks)
  | Close g :: rest => match_here rest s pos ((true, g, pos) :: marks)
  | Rep cls lo hi greedy :: rest =>
      (fix loop (s : string) (pos n : nat) {struct s} : option (list mark) :=
         let stop (_ : unit) :=
           if (lo <=? n)%nat then match_here rest s pos marks else None in
         let more (_ : unit) :=
           match s with
           | String c s' =>
               if cls c && below hi n then loop s' (S pos) (S n) else None
           | EmptyString => None
           end in
         if greedy then
           match more tt with
           | Some r => Some r
           | None => stop tt
           end
         else
           match stop tt with
           | Some r => Some r
           | None => more tt
           end) s pos O
  end.

(** [re.search]: the first offset at which the pattern matches. *)
Fixpoint search_from (items : list item) (s : string) (pos : nat)
    : option (list mark) :=
  match match_here items s pos [] with
  | Some r => Some r
  | None =>
      match s with
      | String _ s' => search_from items s' (S pos)
      | EmptyString => None
      end
  end.

Definition search (items : list item) (line : string) : option (list mark) :=
  search_from items line 0.

Fixpoint offset_of (closing : bool) (g : nat) (marks : list mark) : nat :=
  match marks with
  | [] => O
  | (c, g', pos) :: rest =>
      if Bool.eqb c closing && (g' =? g)%nat then pos
      else offset_of closing g rest
  end.

(** [match.group(g)] *)
Definition group (g : nat) (marks : list mark) (line : string) : string :=
  let start := offset_of false g marks in
  let stop := offset_of true g marks in
  String.substring start (stop - start) line.

Definition chr (c : ascii) : item := Rep (Ascii.eqb c) 1 (Some 1%nat) true.

(** [\d] *)
Definition digit : ascii -> bool := PyFloatText.is_digit.
(** [\s] *)
Definition space : ascii -> bool := PyStr.is_space.
(** [.] *)
Definition dot (c : ascii) : bool := negb (Ascii.eqb c "010").
(** [[\d,]] *)
Definition digit_or_comma (c : ascii) : bool :=
  PyFloatText.is_digit c || Ascii.eqb c ",".

End Regex.

(** ** processor.py *)

Module Processor.

Definition chart_of_accounts : taxonomy :=
  [ ("income",
      [ ("salary", ["salary"; "payroll"; "wages"]);
        ("business", ["freelance"; "consulting"; "client"; "project"]);
        ("investment", ["dividend"; "interest"; "return"; "yield"]);
        ("other_income", ["refund"; "reimbursement"; "gift"]) ]);
    ("expenses",
      [ ("housing", ["rent"; "mortgage"; "emi"; "house"; "apartment"]);
        ("utilities", ["electric"; "water"; "bill"; "utility"; "internet"; "mobile"]);
        ("food", ["grocery"; "restaurant"; "food"; "dining"; "supermarket"]);
        ("transport", ["fuel"; "petrol"; "uber"; "ola"; "transport"; "bus"; "train"]);
        ("healthcare", ["medical"; "hospital"; "doctor"; "pharmacy"; "medicine"]);
        ("entertainment", ["movie"; "netflix"; "prime"; "entertainment"; "game"]);
        ("shopping", ["shopping"; "mall"; "amazon"; "flipkart"; "purchase"]) ]) ].

(** [str(value).replace(',', '').replace('â‚¹', '').replace('$', '').strip()];
    the second pattern is the seven bytes that stand in the source file. *)
Definition clean (s : string) : string :=
  PyStr.strip (PyStr.remove "$" (PyStr.remove "â‚¹" (PyStr.remove "," s))).

Definition float_or_zero (cleaned : string) : result pyfloat :=
  if String.eqb cleaned "" then Ok fzero else PyFloatText.float_of_text cleaned.

Definition parse_amount (value : pyval) : result pyfloat :=
  if pd_isna value || is_None value then Ok fzero
  else
    try_except
      (match value with
       | VInt _ | VFloat _ => float_of value  (* isinstance(value, (int, float)) *)
       | VStr s => float_or_zero (clean s)    (* str(value) is the text *)
       | VNone => float_or_zero (clean "None")
       end)
      fzero.

Definition categorize_transaction (description : string) : string :=
  categorize_from chart_of_accounts (PyStr.lower description).

Definition extract_transaction (float_repr : pyfloat -> string) (r : row)
    : result (option transaction) :=
  extract_transaction_with parse_amount categorize_transaction
    "Unknown" float_repr r.

Definition generate_reports := generate_reports.

(** [(\d{1,2}/\d{1,2}/\d{2,4})\s+(.*?)\s+([\d,]+\.\d{2})\s+([\d,]+\.\d{2})] *)
Definition pattern_slash : list Regex.item :=
  [ Regex.Open 1;
    Regex.Rep Regex.digit 1 (Some 2%nat) true; Regex.chr "/";
    Regex.Rep Regex.digit 1 (Some 2%nat) true; Regex.chr "/";
    Regex.Rep Regex.digit 2 (Some 4%nat) true;
    Regex.Close 1;
    Regex.Rep Regex.space 1 None true;
    Regex.Open 2; Regex.Rep Regex.dot 0 None false; Regex.Close 2;
    Regex.Rep Regex.space 1 None true;
    Regex.Open 3;
    Regex.Rep Regex.digit_or_comma 1 None true; Regex.chr ".";
    Regex.Rep Regex.digit 2 (Some 2%nat) true;
    Regex.Close 3;
    Regex.Rep Regex.space 1 None true;
    Regex.Open 4;
    Regex.Rep Regex.digit_or_comma 1 None true; Regex.chr ".";
    Regex.Rep Regex.digit 2 (Some 2%nat) true;
    Regex.Close 4 ].

(** [(\d{1,2}-\d{1,2}-\d{2,4})\s+(.*?)\s+(-?[\d,]+\.\d{2})] *)
Definition pattern_dash : list Regex.item :=
  [ Regex.Open 1;
    Regex.Rep Regex.digit 1 (Some 2%nat) true; Regex.chr "-";
    Regex.Rep Regex.digit 1 (Some 2%nat) true; Regex.chr "-";
    Regex.Rep Regex.digit 2 (Some 4%nat) true;
    Regex.Close 1;
    Regex.Rep Regex.space 1 None true;
    Regex.Open 2; Regex.Rep Regex.dot 0 None false; Regex.Close 2;
    Regex.Rep Regex.space 1 None true;
    Regex.Open 3;
    Regex.Rep (Ascii.eqb "-") 0 (Some 1%nat) true;
    Regex.Rep Regex.digit_or_comma 1 None true; Regex.chr ".";
    Regex.Rep Regex.digit 2 (Some 2%nat) true;
    Regex.Close 3 ].

Definition patterns : list (list Regex.item) := [pattern_slash; pattern_dash].

(** The [for pattern in patterns] loop of [parse_pdf_line]; a [ValueError]
    of [float] is the [continue]. *)
Fixpoint parse_pdf_line_with (patterns : list (list Regex.item)) (line : string)
    : result (option transaction) :=
  match patterns with
  | [] => Ok None
  | pattern :: rest =>
      match Regex.search pattern line with
      | Some m =>
          let date := Regex.group 1 m line in
          let description := PyStr.strip (Regex.group 2 m line) in
          let amount_str := PyStr.remove "," (Regex.group 3 m line) in
          match PyFloatText.float_of_text amount_str with
          | Ok amount =>
              let category := categorize_transaction description in
              Ok (Some {| t_date := date;
                          t_description := description;
                          t_amount := amount;
                          t_category := category;
                          t_type := if pgt0 amount then "income" else "expense" |})
          | Raise (ValueError _) => parse_pdf_line_with rest line
          | Raise e => Raise e
          end
      | None => parse_pdf_line_with rest line
      end
  end.

Definition parse_pdf_line (line : string) : result (option transaction) :=
  parse_pdf_line_with patterns line.

(** A generic loop [for x in xs: t = f(x); if t: transactions.append(t)]. *)
Fixpoint gather {A : Type} (f : A -> result (option transaction)) (xs : list A)
    : result (list transaction) :=
  match xs with
  | [] => Ok []
  | x :: rest =>
      t <- f x ;;
      ts <- gather f rest ;;
      Ok (match t with Some t' => t' :: ts | None => ts end)
  end.

(** [text.split('\n')] *)
Fixpoint split_lines (text : string) : list string :=
  match text with
  | EmptyString => [EmptyString]
  | String c text' =>
      if Ascii.eqb c "010" then EmptyString :: split_lines text'
      else
        match split_lines text' with
        | line :: lines => String c line :: lines
        | [] => [String c EmptyString]
        end
  end.

(** An item of a decoded JSON list: an object, whose values are raw values,
    or something else, given by the name of its Python type. *)
Inductive json_item : Type :=
| JObject (r : row)
| JNotObject (type_name : string).

(** What [json.loads] returns: a list, or something else. *)
Inductive json_data : Type :=
| JList (items : list json_item)
| JOther.

Section Files.

Variable float_repr : pyfloat -> string.
(** The rows [pd.read_csv] and [pd.read_excel] decode, the text
    [page.extract_text()] gives for each page of the document [pdfplumber]
    opens (null for a page without text), and the value of [json.loads]; or
    the exception each raises.  The three libraries are outside the
    sources. *)
Variable read_csv : string -> result (list row).
Variable read_excel : string -> result (list row).
Variable pdf_pages : string -> result (list (option string)).
Variable json_loads : string -> result json_data.

Definition process_csv (file_content : string) : result (list transaction) :=
  rows <- read_csv file_content ;;
  collect (extract_transaction float_repr) rows.

Definition process_excel (file_content : string) : result (list transaction) :=
  rows <- read_excel file_content ;;
  collect (extract_transaction float_repr) rows.

(** The loop over the pages: a page whose text is null or empty is skipped. *)
Fixpoint process_pages (pages : list (option string)) : result (list transaction) :=
  match pages with
  | [] => Ok []
  | page :: rest =>
      ts <- match page with
            | Some text =>
                if String.eqb text "" then Ok []
                else gather parse_pdf_line (split_lines text)
            | None => Ok []
            end ;;
      ts' <- process_pages rest ;;
      Ok (ts ++ ts')
  end.

Definition process_pdf (file_content : string) : result (list transaction) :=
  pages <- pdf_pages file_content ;;
  process_pages pages.

(** [extract_transaction(item)]: [item.items()] fails on what is no object. *)
Definition extract_item (item : json_item) : result (option transaction) :=
  match item with
  | JObject r => extract_transaction float_repr r
  | JNotObject type_name =>
      Raise (OtherError
               ("'" ++ type_name ++ "' object has no attribute 'items'")%string)
  end.

Definition process_json (file_content : string) : result (list transaction) :=
  data <- json_loads file_content ;;
  match data with
  | JList items => gather extract_item items
  | JOther => Ok []
  end.

Definition process_file_in_memory (file_content filename : string)
    : result (list transaction) :=
  if PyStr.endswith ".csv" (PyStr.lower filename) then
    process_csv file_content
  else if PyStr.endswith ".xlsx" (PyStr.lower filename)
          || PyStr.endswith ".xls" (PyStr.lower filename) then
    process_excel file_content
  else if PyStr.endswith ".pdf" (PyStr.lower filename) then
    process_pdf file_content
  else if PyStr.endswith ".json" (PyStr.lower filename) then
    process_json file_content
  else Raise (ValueError ("Unsupported file format: " ++ filename)%string).

End Files.

End Processor.

(** ** The aggregation over binary64

    [generate_reports] once more, statement by statement, with the amounts
    as the machine numbers a Python [float] is: [+], [-], [*], [abs] and
    [>] are the IEEE 754 operations of [PrimFloat], and a decimal literal
    is the binary64 number closest to it.  The [0] that [get] and [sum]
    start from is an [int], which [+] converts to the float 0.  [sum] adds
    from left to right, as CPython does up to version 3.11; later versions
    compensate the rounding errors of the additions, which changes nothing
    for a breakdown of one category. *)

Module Binary64.

Import PrimFloat.

#[local] Set Warnings "-inexact-float".

(** What [generate_reports] reads of a transaction. *)
Record transaction : Type := mkTransaction {
  t_category : string;
  t_amount : float
}.

Definition dict : Type := list (string * float).

(** [d.get(k, default)] *)
Fixpoint dict_get (d : dict) (k : string) (default : float) : float :=
  match d with
  | [] => default
  | (k', v) :: rest => if String.eqb k' k then v else dict_get rest k default
  end.

(** [d[k] = v] *)
Fixpoint dict_set (d : dict) (k : string) (v : float) : dict :=
  match d with
  | [] => [(k, v)]
  | (k', v') :: rest =>
      if String.eqb k' k then (k', v) :: rest else (k', v') :: dict_set rest k v
  end.

(** [sum(d.values())] *)
Definition sum_values (d : dict) : float :=
  fold_left add (map snd d) 0%float.

Record income_statement : Type := mkIncomeStatement {
  total_income : float;
  total_expenses : float;
  net_income : float;
  breakdown : dict
}.

Record balance_sheet : Type := mkBalanceSheet {
  total_assets : float;
  total_liabilities : float;
  total_equity : float
}.

Record cash_flow : Type := mkCashFlow {
  operating_activities : float;
  investing_activities : float;
  financing_activities : float;
  net_cash_flow : float
}.

Record reports : Type := mkReports {
  r_transactions : list transaction;
  r_income_statement : income_statement;
  r_balance_sheet : balance_sheet;
  r_cash_flow : cash_flow
}.

(** One turn of the loop over the transactions. *)
Definition accumulate (acc : dict * dict) (t : transaction) : dict * dict :=
  let '(income_breakdown, expense_breakdown) := acc in
  let category := t_category t in
  let amount := t_amount t in
  if ltb 0%float amount then
    (dict_set income_breakdown category
       (add (dict_get income_breakdown category 0%float) amount),
     expense_breakdown)
  else
    (income_breakdown,
     dict_set expense_breakdown category
       (add (dict_get expense_breakdown category 0%float) (abs amount))).

(** [{**income_breakdown, **{f"expense_{k}": -v for k, v in expense_breakdown.items()}}] *)
Definition merge_breakdown (income_breakdown expense_breakdown : dict) : dict :=
  fold_left (fun d kv => dict_set d ("expense_" ++ fst kv)%string (opp (snd kv)))
    expense_breakdown income_breakdown.

Definition generate_reports (transactions : list transaction) : reports :=
  let '(income_breakdown, expense_breakdown) :=
    fold_left accumulate transactions ([], []) in
  let total_income := sum_values income_breakdown in
  let total_expenses := sum_values expense_breakdown in
  let net_income := sub total_income total_expenses in
  let total_assets := mul total_income 0.7%float in
  let total_liabilities := mul total_expenses 0.3%float in
  let total_equity := sub total_assets total_liabilities in
  let operating_cash := net_income in
  let investing_cash := mul total_income 0.1%float in
  let financing_cash := mul total_expenses 0.1%float in
  let net_cash_flow := add (add operating_cash investing_cash) financing_cash in
  {| r_transactions := transactions;
     r_income_statement :=
       {| total_income := total_income;
          total_expenses := total_expenses;
          net_income := net_income;
          breakdown := merge_breakdown income_breakdown expense_breakdown |};
     r_balance_sheet :=
       {| total_assets := total_assets;
          total_liabilities := total_liabilities;
          total_equity := total_equity |};
     r_cash_flow :=
       {| operating_activities := operating_cash;
          investing_activities := investing_cash;
          financing_activities := financing_cash;
          net_cash_flow := net_cash_flow |} |}.

(** The ten figures of the three statements, in the order of the source. *)
Definition totals (r : reports) : list float :=
  [ total_income (r_income_statement r);
    total_expenses (r_income_statement r);
    net_income (r_income_statement r);
    total_assets (r_balance_sheet r);
    total_liabilities (r_balance_sheet r);
    total_equity (r_balance_sheet r);
    operating_activities (r_cash_flow r);
    investing_activities (r_cash_flow r);
    financing_activities (r_cash_flow r);
    net_cash_flow (r_cash_flow r) ].

(** Two lists of transactions of one category: an income of 0.1, and
    incomes of 0.2 and 0.3. *)
Definition first_part : list transaction :=
  [ mkTransaction "income_salary" 0.1%float ].

Definition second_part : list transaction :=
  [ mkTransaction "income_salary" 0.2%float;
    mkTransaction "income_salary" 0.3%float ].

(** The float 0, and the two neighbours that Python prints as
    0.6000000000000001 and 0.6. *)
Definition float_0 : float := 0%float.
Definition float_0_6_above : float := 0x1.3333333333334p-1%float.
Definition float_0_6 : float := 0x1.3333333333333p-1%float.

End Binary64.

(** * Vocabulary of the statements *)

(** The sum of a list of amounts. *)
Definition total (l : list pyfloat) : pyfloat := fold_right padd fzero l.

(** The sum of the positive amounts. *)
Definition sum_positive (txs : list transaction) : pyfloat :=
  total (map t_amount (filter (fun t => pgt0 (t_amount t)) txs)).

(** The sum of the absolute values of the negative amounts. *)
Definition sum_abs_negative (txs : list transaction) : pyfloat :=
  total (map (fun t => pabs (t_amount t))
           (filter (fun t => plt0 (t_amount t)) txs)).

(** The sum of the absolute values of the amounts the loop sends to the
    expense side: those for which [amount > 0] is false. *)
Definition sum_abs_not_positive (txs : list transaction) : pyfloat :=
  total (map (fun t => pabs (t_amount t))
           (filter (fun t => negb (pgt0 (t_amount t))) txs)).

(** The ten figures of the three statements, in the order of the source. *)
Definition totals (r : reports) : list pyfloat :=
  [ total_income (r_income_statement r);
    total_expenses (r_income_statement r);
    net_income (r_income_statement r);
    total_assets (r_balance_sheet r);
    total_liabilities (r_balance_sheet r);
    total_equity (r_balance_sheet r);
    operating_activities (r_cash_flow r);
    investing_activities (r_cash_flow r);
    financing_activities (r_cash_flow r);
    net_cash_flow (r_cash_flow r) ].

(** The figures that follow from an income [i] and an expense total [e]. *)
Definition totals_of (i e : pyfloat) : list pyfloat :=
  [ i; e; psub i e;
    pmul i f0_7; pmul e f0_3; psub (pmul i f0_7) (pmul e f0_3);
    psub i e; pmul i f0_1; pmul e f0_1;
    padd (padd (psub i e) (pmul i f0_1)) (pmul e f0_1) ].

(** Figure by figure addition. *)
Fixpoint add_totals (xs ys : list pyfloat) : list pyfloat :=
  match xs, ys with
  | x :: xs', y :: ys' => padd x y :: add_totals xs' ys'
  | _, _ => []
  end.

(** A list of transactions to try the statements on. *)
Definition sample_transactions : list transaction :=
  [ {| t_date := "01/01/2024"; t_description := "Salary";
       t_amount := Fz 50000; t_category := "income_salary";
       t_type := "income" |};
    {| t_date := "02/01/2024"; t_description := "Rent payment";
       t_amount := Fz (-15000); t_category := "expenses_housing";
       t_type := "expense" |} ].

(** The taxonomy as the scan meets it: the label [main_sub] of every
    sub-category with its keywords, main categories in declaration order and
    sub-categories in declaration order within each. *)
Definition labels (chart : taxonomy) : list (string * list string) :=
  flat_map
    (fun main => map (fun sub => ((fst main ++ "_" ++ fst sub)%string, snd sub))
                   (snd main))
    chart.

(** The first label one of whose keywords is a substring of the text. *)
Definition first_label (chart : taxonomy) (desc_lower : string) : string :=
  match find (fun lk => PyStr.any_in (snd lk) desc_lower) (labels chart) with
  | Some lk => fst lk
  | None => "uncategorized"
  end.

(** The three classes of amount-bearing field names. *)
Inductive amount_class : Type := Generic | DebitLike | CreditLike.

(** The class of a lowercased field name: generic-amount names first, then
    debit-like ones, then credit-like ones. *)
Definition classify (name_lower : string) : option amount_class :=
  if PyStr.any_in ["amount"; "amt"; "value"] name_lower then Some Generic
  else if PyStr.any_in ["debit"; "withdrawal"; "dr"] name_lower then Some DebitLike
  else if PyStr.any_in ["credit"; "deposit"; "cr"] name_lower then Some CreditLike
  else None.

(** The lowercased name of a field. *)
Definition name_of (key : pykey) : string := PyStr.lower (str_of_key key).

(** The amount a class makes of a parsed value. *)
Definition signed (c : amount_class) (a : pyfloat) : pyfloat :=
  match c with
  | Generic => a
  | DebitLike => pneg (pabs a)
  | CreditLike => pabs a
  end.

(** A field the scan passes over: its value is null or its name is in no
    class. *)
Definition passed_over (kv : pykey * pyval) : Prop :=
  snd kv = VNone \/ classify (name_of (fst kv)) = None.

(** A value [float] converts without overflow: anything but an integer of
    absolute value [2^1024 - 2^970] or more. *)
Definition in_float_range (value : pyval) : bool :=
  match value with
  | VInt z => (Z.abs z <? float_limit)%Z
  | _ => true
  end.

(** A record none of whose integers is beyond the range of [float]. *)
Definition row_in_float_range (r : row) : bool :=
  forallb (fun kv => in_float_range (snd kv)) r.

(** The record of the specification's example for the extractor. *)
Definition debit_example : row :=
  [ (KStr "Debit", VStr "100.00"); (KStr "Narration", VStr "Electricity Bill") ].



(** The two records of the specification's end-to-end example, fields in
    the order given there. *)
Definition salary_row : row :=
  [ (KStr "Date", VStr "01/01/2024"); (KStr "Description", VStr "Salary");
    (KStr "Credit", VStr "50000") ].

Definition rent_row : row :=
  [ (KStr "Date", VStr "02/01/2024"); (KStr "Description", VStr "Rent payment");
    (KStr "Debit", VStr "15000") ].

(** Every character of the text satisfies [p]. *)
Fixpoint all_chars (p : ascii -> bool) (s : string) : bool :=
  match s with
  | EmptyString => true
  | String c s' => p c && all_chars p s'
  end.

(** A byte of an ASCII character. *)
Definition is_ascii (c : ascii) : bool := (nat_of_ascii c <? 128)%nat.

(** A text of ASCII characters only. *)
Definition ascii_text (s : string) : bool := all_chars is_ascii s.

(** A text on which the two chains of [replace] do the same: with its
    commas removed it holds neither the rupee sign, which only app.py
    removes, nor the sequence that only processor.py removes, and with its
    dollar signs removed too it holds no euro sign, which only app.py
    removes. *)
Definition no_other_currency (s : string) : bool :=
  let s1 := PyStr.remove "," s in
  negb (PyStr.contains "₹" s1)
  && negb (PyStr.contains "â‚¹" s1)
  && negb (PyStr.contains "€" (PyStr.remove "$" s1)).

(** The values on which the two [parse_amount] are compared: null, integers,
    real numbers other than NaN, and text on which the two chains of
    [replace] do the same. *)
Definition plain (value : pyval) : bool :=
  match value with
  | VStr s => no_other_currency s
  | VFloat NaN => false
  | _ => true
  end.

(** The record has a field with a proper name that satisfies [cond]. *)
Definition has_field (cond : string -> bool) (r : row) : bool :=
  existsb (fun kv => truthy_key (fst kv) && cond (name_of (fst kv))) r.

(** The values of the fields whose name is in a class are plain. *)
Definition amounts_plain (r : row) : bool :=
  forallb (fun kv => match classify (name_of (fst kv)) with
                     | Some _ => plain (snd kv)
                     | None => true
                     end) r.

(** Equal results, but for the placeholder of the description. *)
Definition differ_in_placeholder (a p : result (option transaction)) : Prop :=
  match a, p with
  | Ok None, Ok None => True
  | Ok (Some ta), Ok (Some tp) =>
      t_date ta = t_date tp
      /\ t_amount ta = t_amount tp
      /\ t_category ta = t_category tp
      /\ t_type ta = t_type tp
      /\ t_description ta = "Unknown Transaction"
      /\ t_description tp = "Unknown"
  | Raise e1, Raise e2 => e1 = e2
  | _, _ => False
  end.

(** C5 as stated: the two implementations return equal results on every
    value, description and record. *)
Definition implementations_equivalent : Prop :=
  (forall value, App.parse_amount value = Processor.parse_amount value)
  /\ (forall description,
        App.categorize_transaction description
        = Processor.categorize_transaction description)
  /\ (forall float_repr r,
        App.extract_transaction float_repr r
        = Processor.extract_transaction float_repr r).

(** Four uploads to try the batch on: an unsupported extension, a file that
    does not decode, a file without a name, and a good one. *)
Definition sample_files : list App.upload :=
  [ App.mkUpload (Some "notes.txt") (Ok "hello");
    App.mkUpload (Some "broken.CSV") (Ok "");
    App.mkUpload None (Ok "");
    App.mkUpload (Some "january.csv") (Ok "Debit,Narration") ].

(** A decoder to try the batch with: it fails on empty content. *)
Definition sample_read_csv (content : string) : result (list row) :=
  if String.eqb content "" then Raise (OtherError "No columns to parse from file")
  else Ok [debit_example; [(KStr "Amount", VInt 0)]].

Section BatchVocabulary.

Variable float_repr : pyfloat -> string.
Variable read_csv : string -> result (list row).
Variable read_excel : string -> result (list row).

(** The transactions one file contributes, whatever the other files are. *)
Definition file_transactions (file : App.upload) : list transaction :=
  match App.filename file with
  | None => []
  | Some name =>
      if String.eqb name "" then []
      else match App.attempt float_repr read_csv read_excel name file with
           | Ok (Some transactions) => transactions
           | _ => []
           end
  end.

(** The status entries one file contributes. *)
Definition file_report (file : App.upload) : list App.file_status :=
  match App.filename file with
  | None => []
  | Some name =>
      if String.eqb name "" then []
      else match App.attempt float_repr read_csv read_excel name file with
           | Ok (Some transactions) =>
               [App.Success name (List.length transactions)]
           | Ok None => [App.Failure name "Unsupported file format"]
           | Raise e => [App.Failure name (exn_str e)]
           end
  end.

(** The file fails with [e] before any row is extracted: reading it raises
    [e], or its name ends in .csv and [pd.read_csv] raises [e] on its
    content, or its name ends in .xlsx or .xls and not in .csv and
    [pd.read_excel] raises [e] on its content. *)
Definition decoding_fails (name : string) (file : App.upload) (e : exn) : Prop :=
  App.read file = Raise e
  \/ (exists content,
        App.read file = Ok content
        /\ PyStr.endswith ".csv" (PyStr.lower name) = true
        /\ read_csv content = Raise e)
  \/ (exists content,
        App.read file = Ok content
        /\ PyStr.endswith ".csv" (PyStr.lower name) = false
        /\ PyStr.endswith ".xlsx" (PyStr.lower name)
           || PyStr.endswith ".xls" (PyStr.lower name) = true
        /\ read_excel content = Raise e).

(** The file decodes to [rows], with the reader its extension selects. *)
Definition decodes_to (name : string) (file : App.upload) (rows : list row)
    : Prop :=
  exists content,
    App.read file = Ok content
    /\ ((PyStr.endswith ".csv" (PyStr.lower name) = true
         /\ read_csv content = Ok rows)
        \/ (PyStr.endswith ".csv" (PyStr.lower name) = false
            /\ PyStr.endswith ".xlsx" (PyStr.lower name)
               || PyStr.endswith ".xls" (PyStr.lower name) = true
            /\ read_excel content = Ok rows)).

End BatchVocabulary.

(** * Vocabulary of the further properties *)

(** The sub-categories of the first main category of the taxonomy, income,
    and all their keywords. *)
Definition income_sub_cats : list (string * list string) :=
  match App.CHART_OF_ACCOUNTS with
  | main :: _ => snd main
  | [] => []
  end.

Definition income_keywords : list string := flat_map snd income_sub_cats.

(** A number that is zero, positive or plus infinity. *)
Definition nonnegative (x : pyfloat) : bool :=
  match x with
  | Fin a => Qle_bool 0 a
  | Inf s => negb s
  | NaN => false
  end.

(** The sum of the positive amounts of one category. *)
Definition category_income (c : string) (txs : list transaction) : pyfloat :=
  total (map t_amount
           (filter (fun t => pgt0 (t_amount t) && String.eqb (t_category t) c)
              txs)).

(** The sum of the absolute values of the other amounts of one category. *)
Definition category_expense (c : string) (txs : list transaction) : pyfloat :=
  total (map (fun t => pabs (t_amount t))
           (filter (fun t => negb (pgt0 (t_amount t))
                             && String.eqb (t_category t) c) txs)).

(** No category begins with [expense_], the prefix of the expense keys of
    the merged breakdown. *)
Definition no_expense_prefix (txs : list transaction) : bool :=
  forallb (fun t => negb (PyStr.startswith "expense_" (t_category t))) txs.

(** The sum of the counts of the success entries. *)
Fixpoint success_count (statuses : list App.file_status) : nat :=
  match statuses with
  | [] => O
  | App.Success _ n :: rest => (n + success_count rest)%nat
  | App.Failure _ _ :: rest => success_count rest
  end.

(** The upload has a name that is not empty. *)
Definition named (file : App.upload) : bool :=
  match App.filename file with
  | Some name => negb (String.eqb name "")
  | None => false
  end.

(** The text has no decimal digit. *)
Definition no_digit (s : string) : bool :=
  all_chars (fun c => negb (PyFloatText.is_digit c)) s.

(** The transaction a row gives, as a list of at most one element. *)
Definition row_transactions (extract : row -> result (option transaction))
    (r : row) : list transaction :=
  match extract r with
  | Ok (Some t) => [t]
  | _ => []
  end.

(** The transaction a line gives, as a list of at most one element. *)
Definition line_transactions (line : string) : list transaction :=
  match Processor.parse_pdf_line line with
  | Ok (Some t) => [t]
  | _ => []
  end.

(** The transactions of the text of one page. *)
Definition page_transactions (page : option string) : list transaction :=
  match page with
  | Some text =>
      if String.eqb text "" then []
      else flat_map line_transactions (Processor.split_lines text)
  | None => []
  end.

(** The items of a decoded JSON list are all objects. *)
Definition all_objects (items : list Processor.json_item) : bool :=
  forallb (fun item => match item with
                       | Processor.JObject _ => true
                       | Processor.JNotObject _ => false
                       end) items.

(** The rows of the objects of a decoded JSON list. *)
Definition object_rows (items : list Processor.json_item) : list row :=
  flat_map (fun item => match item with
                        | Processor.JObject r => [r]
                        | Processor.JNotObject _ => []
                        end) items.

(** No integer of the objects of a decoded JSON list is beyond the range
    of [float]. *)
Definition items_in_float_range (items : list Processor.json_item) : bool :=
  forallb row_in_float_range (object_rows items).

(** The [AttributeError] of [item.items()] on an item that is no object. *)
Definition no_items (type_name : string) : exn :=
  OtherError ("'" ++ type_name ++ "' object has no attribute 'items'")%string.

(** The repetition loop of [Regex.match_here], with what follows the
    repetition as the function [k]. *)
Fixpoint rep_loop (k : string -> nat -> option (list Regex.mark))
    (cls : ascii -> bool) (lo : nat) (hi : option nat) (greedy : bool)
    (s : string) (pos n : nat) : option (list Regex.mark) :=
  let stop (_ : unit) := if (lo <=? n)%nat then k s pos else None in
  let more (_ : unit) :=
    match s with
    | String c s' =>
        if cls c && Regex.below hi n
        then rep_loop k cls lo hi greedy s' (S pos) (S n)
        else None
    | EmptyString => None
    end in
  if greedy then
    match more tt with
    | Some r => Some r
    | None => stop tt
    end
  else
    match stop tt with
    | Some r => Some r
    | None => more tt
    end.

(** The pattern has a repetition of at least one character of a class that
    no character of the text is in. *)
Definition lacks_needed (s : string) (items : list Regex.item) : Prop :=
  Exists (fun item =>
            match item with
            | Regex.Rep cls (S _) _ _ =>
                all_chars (fun c => negb (cls c)) s = true
            | _ => False
            end) items.

(** * Properties *)

(** ** Arithmetic of [pyfloat] *)

Lemma Qc_zero_iff (a : Qc) : Qc_is_zero a = true <-> a = 0%Qc.
Proof.
  unfold Qc_is_zero. rewrite Qeq_bool_iff. split.
  - intro H. apply Qc_is_canon. exact H.
  - intro H. rewrite H. reflexivity.
Qed.

Lemma Qc_not_pos_not_neg (a : Qc) :
  Qc_is_pos a = false -> Qc_is_neg a = false -> a = 0%Qc.
Proof.
  unfold Qc_is_pos, Qc_is_neg. intros Hp Hn.
  apply negb_false_iff in Hp. apply negb_false_iff in Hn.
  apply Qle_bool_iff in Hp. apply Qle_bool_iff in Hn.
  apply Qc_is_canon. apply Qle_antisym; assumption.
Qed.

Lemma fzero_is_zero : fzero = Fin 0%Qc.
Proof. reflexivity. Qed.

Lemma padd_comm (x y : pyfloat) : padd x y = padd y x.
Proof.
  destruct x as [a|s|], y as [b|t|]; simpl; try reflexivity.
  - f_equal. ring.
  - destruct s, t; reflexivity.
Qed.

Lemma padd_assoc (x y z : pyfloat) : padd x (padd y z) = padd (padd x y) z.
Proof.
  destruct x as [a|s|], y as [b|t|], z as [c|u|]; simpl; try reflexivity;
    try (f_equal; ring);
    try (destruct s; destruct t; try destruct u; reflexivity);
    try (destruct t; destruct u; reflexivity);
    try (destruct s; destruct u; reflexivity).
Qed.

Lemma padd_0_l (x : pyfloat) : padd fzero x = x.
Proof.
  rewrite fzero_is_zero. destruct x; simpl; try reflexivity. f_equal. ring.
Qed.

Lemma padd_0_r (x : pyfloat) : padd x fzero = x.
Proof. rewrite padd_comm. apply padd_0_l. Qed.

Lemma pneg_padd (x y : pyfloat) : pneg (padd x y) = padd (pneg x) (pneg y).
Proof.
  destruct x as [a|s|], y as [b|t|]; simpl; try reflexivity.
  - f_equal. ring.
  - destruct s, t; reflexivity.
Qed.

Lemma pneg_fzero : pneg fzero = fzero.
Proof. apply (f_equal Fin). apply Qc_is_canon. reflexivity. Qed.

Lemma pmul_fzero_l (c : Qc) : pmul fzero (Fin c) = fzero.
Proof. rewrite fzero_is_zero. simpl. f_equal. ring. Qed.

(** Multiplication by a finite, nonzero constant distributes over sums. *)
Lemma pmul_padd_distr (x y : pyfloat) (c : Qc) :
  Qc_is_zero c = false ->
  pmul (padd x y) (Fin c) = padd (pmul x (Fin c)) (pmul y (Fin c)).
Proof.
  intro Hc.
  destruct x as [a|[|]|], y as [b|[|]|]; simpl; rewrite ?Hc; simpl;
    try reflexivity;
    try (f_equal; ring);
    destruct (Qc_is_neg c); reflexivity.
Qed.

Lemma psub_padd (a b c d : pyfloat) :
  psub (padd a b) (padd c d) = padd (psub a c) (psub b d).
Proof.
  unfold psub. rewrite pneg_padd.
  rewrite <- (padd_assoc a b). rewrite (padd_assoc b).
  rewrite (padd_comm b (pneg c)). rewrite <- (padd_assoc (pneg c)).
  rewrite (padd_assoc a). reflexivity.
Qed.

Lemma peq0_fzero : peq0 fzero = true.
Proof. reflexivity. Qed.

Lemma peq0_pabs (x : pyfloat) : peq0 (pabs x) = peq0 x.
Proof.
  destruct x as [a| |]; simpl; try reflexivity.
  destruct (Qc_is_zero a) eqn:Ha.
  - apply Qc_zero_iff in Ha. subst a. reflexivity.
  - destruct (Qc_is_zero (Qcabs a)) eqn:Hb; [|reflexivity].
    apply Qc_zero_iff in Hb. apply Qcabs_null in Hb.
    apply Qc_zero_iff in Hb. congruence.
Qed.

Lemma peq0_pneg (x : pyfloat) : peq0 (pneg x) = peq0 x.
Proof.
  destruct x as [a| |]; simpl; try reflexivity.
  destruct (Qc_is_zero a) eqn:Ha.
  - apply Qc_zero_iff in Ha. subst a. reflexivity.
  - destruct (Qc_is_zero (- a)) eqn:Hb; [|reflexivity].
    apply Qc_zero_iff in Hb.
    assert (a = 0%Qc) as Hz by (rewrite <- (Qcopp_involutive a), Hb; ring).
    apply Qc_zero_iff in Hz. congruence.
Qed.

(** ** Sums over breakdowns *)

Lemma total_app (l1 l2 : list pyfloat) :
  total (l1 ++ l2) = padd (total l1) (total l2).
Proof.
  induction l1 as [|a l1 IH]; simpl.
  - symmetry. apply padd_0_l.
  - rewrite IH. apply padd_assoc.
Qed.

Lemma fold_left_padd (l : list pyfloat) (a : pyfloat) :
  fold_left padd l a = padd a (total l).
Proof.
  revert a. induction l as [|b l IH]; intro a; simpl.
  - symmetry. apply padd_0_r.
  - rewrite IH. symmetry. apply padd_assoc.
Qed.

Lemma sum_values_total (d : dict) : sum_values d = total (map snd d).
Proof. unfold sum_values. rewrite fold_left_padd. apply padd_0_l. Qed.

Lemma sum_values_cons (k : string) (v : pyfloat) (d : dict) :
  sum_values ((k, v) :: d) = padd v (sum_values d).
Proof. rewrite !sum_values_total. reflexivity. Qed.

(** Adding [a] under a key adds [a] to the sum of the values, whether the
    key was there or not. *)
Lemma sum_values_add (d : dict) (k : string) (a : pyfloat) :
  sum_values (dict_set d k (padd (dict_get d k fzero) a))
  = padd (sum_values d) a.
Proof.
  induction d as [|[k' v'] d IH]; cbn [dict_set dict_get].
  - rewrite sum_values_cons. change (sum_values []) with fzero.
    rewrite padd_0_r. reflexivity.
  - destruct (String.eqb k' k).
    + rewrite !sum_values_cons.
      rewrite <- padd_assoc. rewrite (padd_comm a). apply padd_assoc.
    + rewrite !sum_values_cons. rewrite IH. apply padd_assoc.
Qed.

Lemma sum_positive_app (a b : list transaction) :
  sum_positive (a ++ b) = padd (sum_positive a) (sum_positive b).
Proof. unfold sum_positive. rewrite filter_app, map_app. apply total_app. Qed.

Lemma sum_abs_not_positive_app (a b : list transaction) :
  sum_abs_not_positive (a ++ b)
  = padd (sum_abs_not_positive a) (sum_abs_not_positive b).
Proof.
  unfold sum_abs_not_positive. rewrite filter_app, map_app. apply total_app.
Qed.

(** One turn of the loop adds the amount to one of the two sums. *)
Lemma accumulate_sums (inc exp : dict) (t : transaction) :
  sum_values (fst (accumulate (inc, exp) t))
    = padd (sum_values inc) (sum_positive [t])
  /\ sum_values (snd (accumulate (inc, exp) t))
    = padd (sum_values exp) (sum_abs_not_positive [t]).
Proof.
  unfold accumulate, sum_positive, sum_abs_not_positive. cbn [filter].
  destruct (pgt0 (t_amount t)); cbn [negb map total fold_right fst snd].
  - rewrite sum_values_add, !padd_0_r. split; reflexivity.
  - rewrite sum_values_add, !padd_0_r. split; reflexivity.
Qed.

(** What the loop of [generate_reports] leaves in its two accumulators. *)
Lemma fold_accumulate (txs : list transaction) (inc exp : dict) :
  sum_values (fst (fold_left accumulate txs (inc, exp)))
    = padd (sum_values inc) (sum_positive txs)
  /\ sum_values (snd (fold_left accumulate txs (inc, exp)))
    = padd (sum_values exp) (sum_abs_not_positive txs).
Proof.
  revert inc exp. induction txs as [|t txs IH]; intros inc exp.
  - cbn [fold_left fst snd].
    change (sum_positive []) with fzero.
    change (sum_abs_not_positive []) with fzero.
    rewrite !padd_0_r. split; reflexivity.
  - cbn [fold_left].
    destruct (accumulate_sums inc exp t) as [Hi He].
    destruct (accumulate (inc, exp) t) as [inc' exp']. cbn [fst snd] in Hi, He.
    destruct (IH inc' exp') as [Hi' He'].
    rewrite Hi', He', Hi, He.
    change (t :: txs) with ([t] ++ txs).
    rewrite sum_positive_app, sum_abs_not_positive_app.
    rewrite !padd_assoc. split; reflexivity.
Qed.

Lemma fold_accumulate_empty (txs : list transaction) (acc : dict * dict) :
  acc = ([], []) ->
  sum_values (fst (fold_left accumulate txs acc)) = sum_positive txs
  /\ sum_values (snd (fold_left accumulate txs acc)) = sum_abs_not_positive txs.
Proof.
  intros ->. destruct (fold_accumulate txs [] []) as [Hi He].
  split; (etransitivity; [eassumption|]); apply padd_0_l.
Qed.

Ltac open_reports :=
  unfold generate_reports;
  match goal with
  | |- context [fold_left accumulate ?txs ?acc] =>
      let Hi := fresh "Hi" in
      let He := fresh "He" in
      destruct (fold_accumulate_empty txs acc eq_refl) as [Hi He];
      destruct (fold_left accumulate txs acc) as [? ?];
      cbn [fst snd] in Hi, He;
      cbn [r_income_statement r_balance_sheet r_cash_flow r_transactions
           total_income total_expenses net_income breakdown
           total_assets total_liabilities total_equity
           operating_activities investing_activities financing_activities
           net_cash_flow];
      rewrite ?Hi, ?He
  end.

Lemma generate_reports_income (txs : list transaction) :
  total_income (r_income_statement (generate_reports txs)) = sum_positive txs.
Proof. open_reports. reflexivity. Qed.

Lemma generate_reports_expenses (txs : list transaction) :
  total_expenses (r_income_statement (generate_reports txs))
  = sum_abs_not_positive txs.
Proof. open_reports. reflexivity. Qed.

Lemma Qc_pos_not_neg (a : Qc) : Qc_is_pos a = true -> Qc_is_neg a = false.
Proof.
  unfold Qc_is_pos, Qc_is_neg. intro Hp.
  apply negb_true_iff in Hp. apply negb_false_iff. apply Qle_bool_iff.
  destruct (Qlt_le_dec 0 a) as [Hlt|Hge].
  - apply Qlt_le_weak. exact Hlt.
  - apply Qle_bool_iff in Hge. congruence.
Qed.

(** Apart from NaN, an amount that is not positive is negative or zero, and
    the absolute value of zero is zero. *)
Lemma abs_not_positive (x : pyfloat) :
  is_nan x = false ->
  (if negb (pgt0 x) then pabs x else fzero)
  = (if plt0 x then pabs x else fzero).
Proof.
  destruct x as [a|[|]|]; cbn [is_nan pgt0 plt0 negb]; try reflexivity;
    try discriminate.
  intros _. destruct (Qc_is_pos a) eqn:Hp; cbn [negb].
  - rewrite (Qc_pos_not_neg a Hp). reflexivity.
  - destruct (Qc_is_neg a) eqn:Hn; [reflexivity|].
    rewrite (Qc_not_pos_not_neg a Hp Hn).
    apply (f_equal Fin). apply Qc_is_canon. reflexivity.
Qed.

Lemma total_filter_map (f : transaction -> bool) (g : transaction -> pyfloat)
    (txs : list transaction) :
  total (map g (filter f txs))
  = total (map (fun t => if f t then g t else fzero) txs).
Proof.
  induction txs as [|t txs IH]; cbn [filter map total fold_right].
  - reflexivity.
  - fold (total (map (fun t => if f t then g t else fzero) txs)).
    destruct (f t); cbn [map total fold_right].
    + fold (total (map g (filter f txs))). rewrite IH. reflexivity.
    + rewrite padd_0_l. exact IH.
Qed.

(** Zero amounts add nothing, so without NaN the expense side is the sum
    over the negative amounts. *)
Lemma sum_abs_not_positive_negative (txs : list transaction) :
  Forall (fun t => is_nan (t_amount t) = false) txs ->
  sum_abs_not_positive txs = sum_abs_negative txs.
Proof.
  unfold sum_abs_not_positive, sum_abs_negative. intro Hnan.
  rewrite !total_filter_map.
  induction Hnan as [|t txs Ht _ IH]; cbn [map total fold_right].
  - reflexivity.
  - rewrite (abs_not_positive _ Ht). f_equal. exact IH.
Qed.

(** ** The reports as functions of the two sums *)

Lemma generate_reports_totals (txs : list transaction) :
  totals (generate_reports txs)
  = totals_of (sum_positive txs) (sum_abs_not_positive txs).
Proof. unfold totals. open_reports. reflexivity. Qed.

Lemma generate_reports_transactions (txs : list transaction) :
  r_transactions (generate_reports txs) = txs.
Proof.
  unfold generate_reports.
  destruct (fold_left accumulate txs ([], [])). reflexivity.
Qed.

Lemma padd_shuffle (a b c d : pyfloat) :
  padd (padd a b) (padd c d) = padd (padd a c) (padd b d).
Proof.
  rewrite <- (padd_assoc a b). rewrite (padd_assoc b).
  rewrite (padd_comm b c). rewrite <- (padd_assoc c).
  rewrite (padd_assoc a). reflexivity.
Qed.

Lemma totals_of_add (i1 e1 i2 e2 : pyfloat) :
  totals_of (padd i1 i2) (padd e1 e2)
  = add_totals (totals_of i1 e1) (totals_of i2 e2).
Proof.
  unfold totals_of, add_totals, f0_7, f0_3, f0_1, decimal.
  rewrite !pmul_padd_distr by reflexivity.
  rewrite !psub_padd.
  rewrite (padd_shuffle (psub i1 e1) (psub i2 e2)).
  rewrite (padd_shuffle (padd (psub i1 e1) _)).
  reflexivity.
Qed.

Lemma generate_reports_empty : totals (generate_reports []) = repeat fzero 10.
Proof.
  rewrite generate_reports_totals. unfold totals_of, repeat.
  repeat (apply f_equal2;
          [apply (f_equal Fin); apply Qc_is_canon; reflexivity|]).
  reflexivity.
Qed.

Lemma generate_reports_same : App.generate_reports = Processor.generate_reports.
Proof. reflexivity. Qed.

(** C8: for every transaction list the balance sheet and the cash flow are
    the stated multiples and sums of the income statement's totals:
    total_assets = total_income * 0.7, total_liabilities = total_expenses * 0.3,
    total_equity = total_assets - total_liabilities, operating_activities =
    net_income, investing_activities = total_income * 0.1,
    financing_activities = total_expenses * 0.1, net_cash_flow = the sum of
    the three; total_income is the sum of the positive amounts, and, the
    amounts being real numbers (none is NaN), total_expenses is the sum of
    the absolute values of the negative amounts. *)
Theorem C8_report_formulas (txs : list transaction) :
  let r := Processor.generate_reports txs in
  let income := total_income (r_income_statement r) in
  let expenses := total_expenses (r_income_statement r) in
  total_assets (r_balance_sheet r) = pmul income f0_7
  /\ total_liabilities (r_balance_sheet r) = pmul expenses f0_3
  /\ total_equity (r_balance_sheet r)
     = psub (total_assets (r_balance_sheet r))
         (total_liabilities (r_balance_sheet r))
  /\ net_income (r_income_statement r) = psub income expenses
  /\ operating_activities (r_cash_flow r) = net_income (r_income_statement r)
  /\ investing_activities (r_cash_flow r) = pmul income f0_1
  /\ financing_activities (r_cash_flow r) = pmul expenses f0_1
  /\ net_cash_flow (r_cash_flow r)
     = padd (padd (operating_activities (r_cash_flow r))
               (investing_activities (r_cash_flow r)))
         (financing_activities (r_cash_flow r))
  /\ income = sum_positive txs
  /\ (Forall (fun t => is_nan (t_amount t) = false) txs ->
      expenses = sum_abs_negative txs).
Proof.
  intros r income expenses.
  pose proof (generate_reports_totals txs) as H.
  unfold totals, totals_of in H.
  change (generate_reports txs) with r in H.
  injection H as Hi He Hn Ha Hl Hq Ho Hv Hf Hc.
  fold income in Hi. fold expenses in He.
  rewrite Ha, Hl, Hq, Hn, Ho, Hv, Hf, Hc, Hi, He.
  repeat split. intro Hnan. apply sum_abs_not_positive_negative. exact Hnan.
Qed.

(** C9 as stated fails on machine numbers: of an income of 0.1 followed by
    incomes of 0.2 and 0.3 in the same category the total income is
    0.6000000000000001, the sum (0.1 + 0.2) + 0.3 the loop forms, while the
    total incomes of the two parts add up to 0.1 + (0.2 + 0.3), which is
    0.6. *)
Lemma C9_binary64_totals_differ :
  Binary64.total_income
    (Binary64.r_income_statement
       (Binary64.generate_reports
          (Binary64.first_part ++ Binary64.second_part)))
  = Binary64.float_0_6_above
  /\ PrimFloat.add
       (Binary64.total_income
          (Binary64.r_income_statement
             (Binary64.generate_reports Binary64.first_part)))
       (Binary64.total_income
          (Binary64.r_income_statement
             (Binary64.generate_reports Binary64.second_part)))
     = Binary64.float_0_6
  /\ PrimFloat.eqb
       (Binary64.total_income
          (Binary64.r_income_statement
             (Binary64.generate_reports
                (Binary64.first_part ++ Binary64.second_part))))
       (PrimFloat.add
          (Binary64.total_income
             (Binary64.r_income_statement
                (Binary64.generate_reports Binary64.first_part)))
          (Binary64.total_income
             (Binary64.r_income_statement
                (Binary64.generate_reports Binary64.second_part))))
     = false.
Proof.
  split; [vm_compute; reflexivity|]. split; vm_compute; reflexivity.
Qed.

(** C9, as amended: [generate_reports] of the empty list has every total 0
    and an empty breakdown, on machine numbers as on exact ones; over a
    concatenation its loop goes on, through the second part, from the
    breakdowns the first part left; and with amounts that are exact
    numbers, whose additions do not round, the totals of a concatenation
    are the sums of the totals of its two parts. *)
Theorem C9_aggregate_additive :
  (totals (App.generate_reports []) = repeat fzero 10
   /\ breakdown (r_income_statement (App.generate_reports [])) = [])
  /\ (Binary64.totals (Binary64.generate_reports []) = repeat Binary64.float_0 10
      /\ Binary64.breakdown
           (Binary64.r_income_statement (Binary64.generate_reports [])) = [])
  /\ (forall a b : list Binary64.transaction,
        fold_left Binary64.accumulate (a ++ b) ([], [])
        = fold_left Binary64.accumulate b
            (fold_left Binary64.accumulate a ([], [])))
  /\ (forall a b : list transaction,
        fold_left accumulate (a ++ b) ([], [])
        = fold_left accumulate b (fold_left accumulate a ([], [])))
  /\ forall a b : list transaction,
       totals (App.generate_reports (a ++ b))
       = add_totals (totals (App.generate_reports a))
           (totals (App.generate_reports b)).
Proof.
  split; [|split; [|split; [|split]]].
  - split.
    + apply generate_reports_empty.
    + reflexivity.
  - split; vm_compute; reflexivity.
  - intros a b. apply fold_left_app.
  - intros a b. apply fold_left_app.
  - intros a b. unfold App.generate_reports.
    rewrite !generate_reports_totals.
    rewrite sum_positive_app, sum_abs_not_positive_app.
    apply totals_of_add.
Qed.

Lemma C8_report_formulas_witness :
  total_expenses (r_income_statement (Processor.generate_reports sample_transactions))
  = sum_abs_negative sample_transactions.
Proof.
  destruct (C8_report_formulas sample_transactions)
    as (_ & _ & _ & _ & _ & _ & _ & _ & _ & H).
  apply H. repeat constructor.
Defined.

(** ** The categorizer *)

Lemma categorize_in_find (main_cat : string)
    (sub_cats : list (string * list string)) (desc_lower : string) :
  categorize_in main_cat sub_cats desc_lower
  = option_map fst
      (find (fun lk => PyStr.any_in (snd lk) desc_lower)
         (map (fun sub => ((main_cat ++ "_" ++ fst sub)%string, snd sub)) sub_cats)).
Proof.
  induction sub_cats as [|[sub_cat keywords] rest IH]; cbn [categorize_in map find].
  - reflexivity.
  - cbn [fst snd]. destruct (PyStr.any_in keywords desc_lower).
    + reflexivity.
    + exact IH.
Qed.

Lemma find_app {A : Type} (f : A -> bool) (l1 l2 : list A) :
  find f (l1 ++ l2)
  = match find f l1 with Some x => Some x | None => find f l2 end.
Proof.
  induction l1 as [|a l1 IH]; cbn [app find].
  - reflexivity.
  - destruct (f a); [reflexivity | exact IH].
Qed.

Lemma categorize_from_first_label (chart : taxonomy) (desc_lower : string) :
  categorize_from chart desc_lower = first_label chart desc_lower.
Proof.
  unfold first_label.
  induction chart as [|[main_cat sub_cats] rest IH];
    cbn [categorize_from labels flat_map].
  - reflexivity.
  - rewrite find_app. cbn [fst snd]. rewrite categorize_in_find.
    destruct (find _ (map _ sub_cats)) as [lk|]; cbn [option_map].
    + reflexivity.
    + exact IH.
Qed.

(** C7: [categorize_transaction] lowercases the description and returns the
    first label [main_sub], in declaration order (income before expenses,
    then sub-category order), one of whose keywords is a substring of the
    lowercased description, and [uncategorized] when none is; the two
    examples of the specification come out as stated. *)
Theorem C7_categorize_first_match :
  (forall description : string,
     App.categorize_transaction description
       = first_label App.CHART_OF_ACCOUNTS (PyStr.lower description)
     /\ Processor.categorize_transaction description
       = first_label Processor.chart_of_accounts (PyStr.lower description))
  /\ map fst (labels App.CHART_OF_ACCOUNTS)
     = [ "income_salary"; "income_business"; "income_investment";
         "income_other_income"; "expenses_housing"; "expenses_utilities";
         "expenses_food"; "expenses_transport"; "expenses_healthcare";
         "expenses_entertainment"; "expenses_shopping" ]
  /\ labels Processor.chart_of_accounts = labels App.CHART_OF_ACCOUNTS
  /\ App.categorize_transaction "Monthly Salary Payment" = "income_salary"
  /\ App.categorize_transaction "Random text xyz" = "uncategorized"
  /\ Processor.categorize_transaction "Monthly Salary Payment" = "income_salary"
  /\ Processor.categorize_transaction "Random text xyz" = "uncategorized".
Proof.
  split.
  - intro description. split; apply categorize_from_first_label.
  - repeat split; reflexivity.
Qed.

(** Lowercasing beyond ASCII: the dotted capital I and the Kelvin sign give
    ASCII letters, which the keywords emi and flipkart then match. *)
Lemma categorize_beyond_ascii :
  App.categorize_transaction "EMİ" = "expenses_housing"
  /\ App.categorize_transaction "FLIPKART" = "expenses_shopping"
  /\ App.categorize_transaction "ÉMI" = "uncategorized".
Proof. repeat split. Qed.

(** ** The amount scan *)

(** A name that is null or empty is in no class. *)
Lemma falsy_key_no_class (key : pykey) :
  truthy_key key = false -> classify (name_of key) = None.
Proof.
  destruct key as [|s]; cbn [truthy_key].
  - reflexivity.
  - intro H. apply negb_false_iff in H. apply String.eqb_eq in H. subst s.
    reflexivity.
Qed.

Lemma is_None_false (value : pyval) : value <> VNone -> is_None value = false.
Proof. destruct value; [congruence | reflexivity ..]. Qed.

Section Scan.

Variable parse_amount : pyval -> result pyfloat.

Lemma find_amount_skip (kv : pykey * pyval) (rest : row) :
  passed_over kv ->
  find_amount parse_amount (kv :: rest) = find_amount parse_amount rest.
Proof.
  destruct kv as [key value]. unfold passed_over. cbn [fst snd find_amount].
  intros [Hv | Hc].
  - subst value. rewrite andb_false_r. reflexivity.
  - destruct (truthy_key key && negb (is_None value)); [|reflexivity].
    unfold classify, name_of in Hc.
    destruct (PyStr.any_in ["amount"; "amt"; "value"] _); [discriminate|].
    destruct (PyStr.any_in ["debit"; "withdrawal"; "dr"] _); [discriminate|].
    destruct (PyStr.any_in ["credit"; "deposit"; "cr"] _); [discriminate|].
    reflexivity.
Qed.

Lemma find_amount_hit (key : pykey) (value : pyval) (rest : row)
    (c : amount_class) :
  value <> VNone ->
  classify (name_of key) = Some c ->
  find_amount parse_amount ((key, value) :: rest)
  = (a <- parse_amount value ;; Ok (signed c a)).
Proof.
  intros Hv Hc. cbn [find_amount].
  destruct (truthy_key key) eqn:Hk.
  - rewrite (is_None_false value Hv). cbn [negb andb].
    unfold classify, name_of in Hc.
    destruct (PyStr.any_in ["amount"; "amt"; "value"] _).
    + injection Hc as <-. cbn [signed]. destruct (parse_amount value); reflexivity.
    + destruct (PyStr.any_in ["debit"; "withdrawal"; "dr"] _).
      * injection Hc as <-. reflexivity.
      * destruct (PyStr.any_in ["credit"; "deposit"; "cr"] _).
        -- injection Hc as <-. reflexivity.
        -- discriminate.
  - rewrite (falsy_key_no_class key Hk) in Hc. discriminate.
Qed.

(** The scan stops at the first field that is not passed over. *)
Lemma find_amount_first (pre post : row) (key : pykey) (value : pyval)
    (c : amount_class) :
  Forall passed_over pre ->
  value <> VNone ->
  classify (name_of key) = Some c ->
  find_amount parse_amount (pre ++ (key, value) :: post)
  = (a <- parse_amount value ;; Ok (signed c a)).
Proof.
  intros Hpre Hv Hc. induction Hpre as [|kv pre Hkv _ IH].
  - apply find_amount_hit; assumption.
  - cbn [app]. rewrite find_amount_skip by exact Hkv. exact IH.
Qed.

(** With every field passed over the amount stays [0]. *)
Lemma find_amount_none (r : row) :
  Forall passed_over r -> find_amount parse_amount r = Ok fzero.
Proof.
  induction 1 as [|kv r Hkv _ IH].
  - reflexivity.
  - rewrite find_amount_skip by exact Hkv. exact IH.
Qed.

(** Fields with a null or empty name do not take part in the scan. *)
Lemma find_amount_filter (r : row) :
  find_amount parse_amount (filter (fun kv => truthy_key (fst kv)) r)
  = find_amount parse_amount r.
Proof.
  induction r as [|[key value] r IH]; cbn [filter fst].
  - reflexivity.
  - destruct (truthy_key key) eqn:Hk.
    + cbn [find_amount]. rewrite Hk, IH. reflexivity.
    + rewrite IH. cbn [find_amount]. rewrite Hk. reflexivity.
Qed.

End Scan.

Section Next.

Variable float_repr : pyfloat -> string.

(** Nor do they take part in the searches for the description and the date. *)
Lemma next_str_filter (cond : string -> bool) (r : row) (default : string) :
  next_str float_repr cond (filter (fun kv => truthy_key (fst kv)) r) default
  = next_str float_repr cond r default.
Proof.
  induction r as [|[key value] r IH]; cbn [filter fst].
  - reflexivity.
  - destruct (truthy_key key) eqn:Hk.
    + cbn [next_str]. rewrite Hk, IH. reflexivity.
    + rewrite IH. cbn [next_str]. rewrite Hk. reflexivity.
Qed.

End Next.

Section Extract.

Variable parse_amount : pyval -> result pyfloat.
Variable categorize_transaction : string -> string.
Variable placeholder : string.
Variable float_repr : pyfloat -> string.

Let extract :=
  extract_transaction_with parse_amount categorize_transaction placeholder
    float_repr.

Lemma extract_filter (r : row) :
  extract (filter (fun kv => truthy_key (fst kv)) r) = extract r.
Proof.
  unfold extract, extract_transaction_with.
  rewrite find_amount_filter, !next_str_filter. reflexivity.
Qed.

(** A produced transaction carries the amount the scan found, which is not
    zero, and its type follows the sign. *)
Lemma extract_some (r : row) (t : transaction) :
  extract r = Ok (Some t) ->
  find_amount parse_amount r = Ok (t_amount t)
  /\ peq0 (t_amount t) = false
  /\ t_type t = (if pgt0 (t_amount t) then "income" else "expense").
Proof.
  unfold extract, extract_transaction_with.
  destruct (find_amount parse_amount r) as [amount|e]; cbn [bind];
    [|discriminate].
  destruct (peq0 amount) eqn:Hz; [discriminate|].
  intro H. injection H as <-. cbn [t_amount t_type]. auto.
Qed.

(** A scan that ends on a nonzero amount gives a transaction of that
    amount. *)
Lemma extract_of_amount (r : row) (amount : pyfloat) :
  find_amount parse_amount r = Ok amount ->
  peq0 amount = false ->
  exists t, extract r = Ok (Some t) /\ t_amount t = amount.
Proof.
  intros Hf Hz. unfold extract, extract_transaction_with.
  rewrite Hf. cbn [bind]. rewrite Hz. eexists. split; reflexivity.
Qed.


(** A zero amount rejects the record. *)
Lemma extract_zero (r : row) (amount : pyfloat) :
  find_amount parse_amount r = Ok amount ->
  peq0 amount = true ->
  extract r = Ok None.
Proof.
  intros Hf Hz. unfold extract, extract_transaction_with.
  rewrite Hf. cbn [bind]. rewrite Hz. reflexivity.
Qed.

End Extract.

(** ** [parse_amount] *)

(** [float] of a text fails with a [ValueError] only. *)
Lemma float_of_text_error (s : string) (e : exn) :
  PyFloatText.float_of_text s = Raise e -> e = PyFloatText.invalid.
Proof.
  unfold PyFloatText.float_of_text. intro H.
  repeat match type of H with
         | context [let '(_, _) := ?x in _] => destruct x
         | context [if ?b then _ else _] => destruct b
         | context [match ?x with _ => _ end] => destruct x
         end; congruence.
Qed.

Lemma try_except_float_of_text (s : string) (handler : pyfloat) :
  exists a, try_except (PyFloatText.float_of_text s) handler = Ok a.
Proof.
  destruct (PyFloatText.float_of_text s) as [a|e] eqn:H.
  - exists a. reflexivity.
  - rewrite (float_of_text_error s e H). exists handler. reflexivity.
Qed.

(** app.py's [parse_amount] returns on every value but an integer beyond
    the range of [float]. *)
Lemma app_parse_amount_total (value : pyval) :
  in_float_range value = true -> exists a, App.parse_amount value = Ok a.
Proof.
  unfold App.parse_amount.
  destruct value as [|s|z|f]; cbn [in_float_range is_None eq_empty orb float_of];
    intro Hr.
  - eexists. reflexivity.
  - destruct (String.eqb s ""); [eexists; reflexivity|].
    unfold App.float_or_zero. destruct (String.eqb (App.clean s) "").
    + eexists. reflexivity.
    + apply try_except_float_of_text.
  - rewrite Hr. eexists. reflexivity.
  - eexists. reflexivity.
Qed.

(** processor.py's [parse_amount] returns on the same values. *)
Lemma processor_parse_amount_total (value : pyval) :
  in_float_range value = true -> exists a, Processor.parse_amount value = Ok a.
Proof.
  unfold Processor.parse_amount.
  destruct value as [|s|z|f]; cbn [in_float_range pd_isna is_None orb float_of];
    intro Hr.
  - eexists. reflexivity.
  - unfold Processor.float_or_zero. destruct (String.eqb (Processor.clean s) "").
    + eexists. reflexivity.
    + apply try_except_float_of_text.
  - rewrite Hr. eexists. reflexivity.
  - destruct f; eexists; reflexivity.
Qed.

(** On an integer beyond the range, [float] raises [OverflowError], which
    the [except (ValueError, TypeError)] of [parse_amount] lets through. *)
Lemma parse_amount_overflow (value : pyval) :
  in_float_range value = false ->
  App.parse_amount value = Raise int_too_large
  /\ Processor.parse_amount value = Raise int_too_large.
Proof.
  destruct value as [|s|z|f]; cbn [in_float_range]; intro Hr;
    try discriminate Hr.
  unfold App.parse_amount, Processor.parse_amount.
  cbn [is_None eq_empty pd_isna orb float_of]. rewrite Hr. split; reflexivity.
Qed.

(** What either [parse_amount] raises is that [OverflowError]. *)
Lemma parse_amount_raises (value : pyval) (e : exn) :
  App.parse_amount value = Raise e \/ Processor.parse_amount value = Raise e ->
  in_float_range value = false /\ e = int_too_large.
Proof.
  intro H. destruct (in_float_range value) eqn:Hr.
  - destruct (app_parse_amount_total value Hr) as [a Ha].
    destruct (processor_parse_amount_total value Hr) as [b Hb].
    destruct H as [H | H]; congruence.
  - destruct (parse_amount_overflow value Hr) as [Ha Hb].
    split; [reflexivity|]. destruct H as [H | H]; congruence.
Qed.

(** What app.py's [parse_amount] does case by case: null and the empty text
    give 0, a number is itself, a text is cleaned of commas, the three
    currency signs and surrounding whitespace and then parsed, and a text
    that is empty after cleaning or does not parse gives 0. *)
Lemma app_parse_amount_cases :
  App.parse_amount VNone = Ok fzero
  /\ App.parse_amount (VStr "") = Ok fzero
  /\ (forall z, (Z.abs z < float_limit)%Z -> App.parse_amount (VInt z) = Ok (Fz z))
  /\ (forall f, App.parse_amount (VFloat f) = Ok f)
  /\ (forall s,
        App.parse_amount (VStr s)
        = Ok (match PyFloatText.float_of_text
                      (PyStr.strip
                         (PyStr.remove "€"
                            (PyStr.remove "$"
                               (PyStr.remove "₹" (PyStr.remove "," s))))) with
              | Ok a => a
              | Raise _ => fzero
              end)).
Proof.
  split; [reflexivity|]. split; [reflexivity|]. split; [|split].
  - intros z Hz. apply Z.ltb_lt in Hz. unfold App.parse_amount.
    cbn [is_None eq_empty orb float_of]. rewrite Hz. reflexivity.
  - intro f. reflexivity.
  - intro s. unfold App.parse_amount. cbn [is_None eq_empty orb].
    destruct (String.eqb s "") eqn:Hs.
    + apply String.eqb_eq in Hs. subst s. reflexivity.
    + unfold App.float_or_zero. fold (App.clean s).
      destruct (String.eqb (App.clean s) "") eqn:Hc.
      * apply String.eqb_eq in Hc. rewrite Hc. reflexivity.
      * destruct (PyFloatText.float_of_text (App.clean s)) as [a|e] eqn:Hf;
          [reflexivity|].
        rewrite (float_of_text_error _ e Hf). reflexivity.
Qed.

Ltac fin_eq := apply (f_equal Fin); apply Qc_is_canon; reflexivity.

(** The two examples of the specification, on app.py. *)
Lemma app_parse_amount_examples :
  App.parse_amount (VStr "1,234.50") = Ok (decimal 123450 (-2))
  /\ App.parse_amount (VStr "₹500") = Ok (Fz 500).
Proof.
  split.
  - apply (f_equal Ok). vm_compute. fin_eq.
  - apply (f_equal Ok). vm_compute. fin_eq.
Qed.

(** C4: processor.py's [parse_amount] does not strip the rupee sign nor the
    euro sign: the text does not parse and the amount is 0, where app.py
    returns 500 and 5. *)
Theorem C4_processor_keeps_currency_sign :
  Processor.parse_amount (VStr "₹500") = Ok fzero
  /\ Processor.parse_amount (VStr "€5") = Ok fzero
  /\ App.parse_amount (VStr "₹500") = Ok (Fz 500)
  /\ App.parse_amount (VStr "€5") = Ok (Fz 5).
Proof.
  repeat split; apply (f_equal Ok); vm_compute; fin_eq.
Qed.

(** ** The extractors *)





(** C10: in both sources a field whose name is null or empty takes no part
    in the extraction: the record without those fields gives the same
    result, so such a field supplies neither amount, description nor date;
    and a record in which every field with a proper name is passed over by
    the amount scan gives no transaction. *)
Theorem C10_nameless_fields_ignored :
  (forall (float_repr : pyfloat -> string) (r : row),
     App.extract_transaction float_repr
       (filter (fun kv => truthy_key (fst kv)) r)
     = App.extract_transaction float_repr r
     /\ Processor.extract_transaction float_repr
          (filter (fun kv => truthy_key (fst kv)) r)
        = Processor.extract_transaction float_repr r)
  /\ (forall (float_repr : pyfloat -> string) (r : row),
        Forall (fun kv => truthy_key (fst kv) = true -> passed_over kv) r ->
        App.extract_transaction float_repr r = Ok None
        /\ Processor.extract_transaction float_repr r = Ok None).
Proof.
  split.
  - intros float_repr r. split; apply extract_filter.
  - intros float_repr r Hr.
    assert (Forall passed_over r) as Hall.
    { induction Hr as [|kv r Hkv _ IH]; constructor; [|exact IH].
      destruct (truthy_key (fst kv)) eqn:Hk.
      - apply Hkv. reflexivity.
      - right. apply falsy_key_no_class. exact Hk. }
    split.
    + apply (extract_zero _ _ _ _ r fzero);
        [apply find_amount_none; exact Hall | reflexivity].
    + apply (extract_zero _ _ _ _ r fzero);
        [apply find_amount_none; exact Hall | reflexivity].
Qed.

Lemma C10_nameless_fields_ignored_witness :
  App.extract_transaction (fun _ => "")
    [(KStr "", VStr "100.00"); (KStr "Narration", VStr "Electricity Bill")]
  = Ok None
  /\ Processor.extract_transaction (fun _ => "")
       [(KStr "", VStr "100.00"); (KStr "Narration", VStr "Electricity Bill")]
     = Ok None.
Proof.
  apply (proj2 C10_nameless_fields_ignored).
  constructor; [intro H; discriminate H|].
  constructor; [intros _; right; reflexivity|]. constructor.
Defined.

(** A transaction that either extractor makes of a record has an amount
    that is not zero. *)
Lemma extractor_amount_nonzero (float_repr : pyfloat -> string) (r : row)
    (t : transaction) :
  App.extract_transaction float_repr r = Ok (Some t)
  \/ Processor.extract_transaction float_repr r = Ok (Some t) ->
  peq0 (t_amount t) = false.
Proof.
  intros [H | H]; apply (extract_some _ _ _ _ r t) in H; apply H.
Qed.

(** C3: the line parser has no test for zero.  The line
    01-02-2024 Fee 0.00 matches the second pattern and gives a transaction
    with the description Fee, amount 0 and type expense, where the
    specification has a line whose amount is exactly 0 rejected; the
    extractors of both sources do reject the record whose Amount is the
    integer 0. *)
Theorem C3_line_parser_keeps_zero :
  (exists t,
     Processor.parse_pdf_line "01-02-2024 Fee 0.00" = Ok (Some t)
     /\ t_date t = "01-02-2024"
     /\ t_description t = "Fee"
     /\ t_amount t = fzero
     /\ peq0 (t_amount t) = true
     /\ t_type t = "expense")
  /\ (forall float_repr : pyfloat -> string,
        App.extract_transaction float_repr [(KStr "Amount", VInt 0)] = Ok None
        /\ Processor.extract_transaction float_repr [(KStr "Amount", VInt 0)]
           = Ok None).
Proof.
  split.
  - eexists. split; [vm_compute; reflexivity|].
    cbn [t_date t_description t_amount t_type]. repeat split.
  - intro float_repr. split; reflexivity.
Qed.

(** C1: on the two records of the specification the name Description is
    itself credit-like (it contains cr), so the scan stops there, the text
    of the description parses to 0 and both records are rejected: the
    extraction gives no transaction where two were expected, and every
    total of the reports is 0. *)
Theorem C1_end_to_end_yields_nothing :
  classify (name_of (KStr "Description")) = Some CreditLike
  /\ App.parse_amount (VStr "Salary") = Ok fzero
  /\ App.parse_amount (VStr "Rent payment") = Ok fzero
  /\ forall float_repr : pyfloat -> string,
       App.extract_transaction float_repr salary_row = Ok None
       /\ App.extract_transaction float_repr rent_row = Ok None
       /\ collect (App.extract_transaction float_repr) [salary_row; rent_row]
          = Ok []
       /\ totals (App.generate_reports []) = repeat fzero 10.
Proof.
  split; [reflexivity|]. split; [reflexivity|]. split; [reflexivity|].
  intro float_repr. repeat split; try reflexivity.
  apply generate_reports_empty.
Qed.

(** With the amount column ahead of the description the same two records
    give the two transactions and the figures the specification expects. *)
Lemma end_to_end_amount_first (float_repr : pyfloat -> string) :
  exists t1 t2,
    collect (App.extract_transaction float_repr)
      [ [ (KStr "Date", VStr "01/01/2024"); (KStr "Credit", VStr "50000");
          (KStr "Description", VStr "Salary") ];
        [ (KStr "Date", VStr "02/01/2024"); (KStr "Debit", VStr "15000");
          (KStr "Description", VStr "Rent payment") ] ]
    = Ok [t1; t2]
    /\ t_category t1 = "income_salary" /\ t_amount t1 = Fz 50000
    /\ t_category t2 = "expenses_housing" /\ t_amount t2 = Fz (-15000)
    /\ firstn 3 (totals (App.generate_reports [t1; t2]))
       = [Fz 50000; Fz 15000; Fz 35000]
    /\ total_assets (r_balance_sheet (App.generate_reports [t1; t2])) = Fz 35000
    /\ operating_activities (r_cash_flow (App.generate_reports [t1; t2]))
       = Fz 35000.
Proof.
  eexists. eexists. split; [vm_compute; reflexivity|].
  cbn [t_category t_amount]. repeat split; try fin_eq.
Qed.

(** ** The two implementations side by side *)

(** Removing a pattern whose first character does not occur changes
    nothing. *)
Lemma remove_absent (c0 : ascii) (old' s : string) :
  all_chars (fun c => negb (Ascii.eqb c0 c)) s = true ->
  PyStr.remove (String c0 old') s = s.
Proof.
  unfold PyStr.remove. induction s as [|c s IH]; intro H.
  - reflexivity.
  - cbn [all_chars] in H. apply andb_true_iff in H as [Hc Hs].
    apply negb_true_iff in Hc.
    cbn [PyStr.remove_from PyStr.startswith]. rewrite Hc. cbn [andb].
    rewrite IH by exact Hs. reflexivity.
Qed.

(** Removing a pattern that does not occur changes nothing. *)
Lemma remove_not_contained (old s : string) :
  PyStr.contains old s = false -> PyStr.remove old s = s.
Proof.
  unfold PyStr.remove. induction s as [|c s IH]; intro H.
  - reflexivity.
  - cbn [PyStr.contains] in H. apply orb_false_iff in H as [Hstart Hrest].
    cbn [PyStr.remove_from]. rewrite Hstart, (IH Hrest). reflexivity.
Qed.

(** Where no sign occurs that only one of the sources removes, both clean
    the same way. *)
Lemma clean_agree (s : string) :
  no_other_currency s = true -> App.clean s = Processor.clean s.
Proof.
  unfold no_other_currency. cbv zeta. intro H.
  apply andb_true_iff in H as [H Heuro].
  apply andb_true_iff in H as [Hrupee Hseq].
  apply negb_true_iff in Heuro, Hrupee, Hseq.
  unfold App.clean, Processor.clean.
  rewrite (remove_not_contained _ _ Hrupee).
  rewrite (remove_not_contained _ _ Hseq).
  rewrite (remove_not_contained _ _ Heuro). reflexivity.
Qed.

Lemma parse_amount_agree (value : pyval) :
  plain value = true -> App.parse_amount value = Processor.parse_amount value.
Proof.
  destruct value as [|s|z|f]; cbn [plain]; intro H.
  - reflexivity.
  - unfold App.parse_amount, Processor.parse_amount.
    cbn [is_None eq_empty pd_isna orb].
    rewrite <- (clean_agree s H).
    destruct (String.eqb s "") eqn:Hs; [|reflexivity].
    apply String.eqb_eq in Hs. subst s. reflexivity.
  - reflexivity.
  - destruct f; [reflexivity | reflexivity | discriminate].
Qed.

Lemma find_amount_agree (r : row) :
  amounts_plain r = true ->
  find_amount App.parse_amount r = find_amount Processor.parse_amount r.
Proof.
  unfold amounts_plain.
  induction r as [|[key value] r IH]; cbn [forallb fst snd find_amount]; intro H.
  - reflexivity.
  - apply andb_true_iff in H as [Hv Hr]. rewrite (IH Hr).
    unfold classify, name_of in Hv.
    destruct (truthy_key key && negb (is_None value)); [|reflexivity].
    destruct (PyStr.any_in ["amount"; "amt"; "value"]
                (PyStr.lower (str_of_key key)));
      [rewrite (parse_amount_agree value Hv); reflexivity|].
    destruct (PyStr.any_in ["debit"; "withdrawal"; "dr"]
                (PyStr.lower (str_of_key key)));
      [rewrite (parse_amount_agree value Hv); reflexivity|].
    destruct (PyStr.any_in ["credit"; "deposit"; "cr"]
                (PyStr.lower (str_of_key key)));
      [rewrite (parse_amount_agree value Hv); reflexivity|].
    reflexivity.
Qed.

(** A search that finds a field does not look at its default, and one that
    finds none returns it. *)
Lemma next_str_has_field (float_repr : pyfloat -> string) (cond : string -> bool)
    (r : row) :
  (has_field cond r = true ->
   forall d1 d2, next_str float_repr cond r d1 = next_str float_repr cond r d2)
  /\ (has_field cond r = false ->
      forall d, next_str float_repr cond r d = d).
Proof.
  unfold has_field, name_of.
  induction r as [|[key value] r [IHt IHf]]; cbn [existsb next_str fst].
  - split; [discriminate | reflexivity].
  - destruct (truthy_key key && cond (PyStr.lower (str_of_key key)));
      cbn [orb].
    + split; [reflexivity | discriminate].
    + split; assumption.
Qed.

Lemma categorize_agree (description : string) :
  App.categorize_transaction description
  = Processor.categorize_transaction description.
Proof. reflexivity. Qed.

(** With a description field the two extractors return the same. *)
Lemma extract_agree (float_repr : pyfloat -> string) (r : row) :
  amounts_plain r = true ->
  has_field (PyStr.any_in description_terms) r = true ->
  App.extract_transaction float_repr r
  = Processor.extract_transaction float_repr r.
Proof.
  intros H Hd. unfold App.extract_transaction, Processor.extract_transaction,
    extract_transaction_with.
  rewrite (find_amount_agree r H).
  rewrite (proj1 (next_str_has_field float_repr _ r) Hd
             "Unknown Transaction" "Unknown").
  reflexivity.
Qed.

(** Without one they differ in the placeholder only. *)
Lemma extract_differ (float_repr : pyfloat -> string) (r : row) :
  amounts_plain r = true ->
  has_field (PyStr.any_in description_terms) r = false ->
  differ_in_placeholder (App.extract_transaction float_repr r)
    (Processor.extract_transaction float_repr r).
Proof.
  intros H Hd. unfold App.extract_transaction, Processor.extract_transaction,
    extract_transaction_with.
  rewrite (find_amount_agree r H).
  rewrite !(proj2 (next_str_has_field float_repr _ r) Hd).
  destruct (find_amount Processor.parse_amount r) as [amount|e]; cbn [bind];
    [|reflexivity].
  destruct (peq0 amount); cbn [differ_in_placeholder]; [exact I|].
  cbn [t_date t_amount t_category t_type t_description]. repeat split.
Qed.

(** C5 as stated fails: a record without a description field gets the
    description Unknown Transaction from app.py and Unknown from
    processor.py; NaN is returned as it is by app.py's [parse_amount] and as
    0 by processor.py's; and of the text of 500 behind a rupee sign app.py
    makes 500 and processor.py 0, while of the same digits behind the
    sequence that processor.py removes app.py makes 0 and processor.py
    500. *)
Lemma C5_implementations_differ :
  t_description
    (match App.extract_transaction (fun _ => "") [(KStr "Amount", VInt 5)] with
     | Ok (Some t) => t
     | _ => mkTransaction "" "" NaN "" ""
     end) = "Unknown Transaction"
  /\ t_description
       (match Processor.extract_transaction (fun _ => "")
                [(KStr "Amount", VInt 5)] with
        | Ok (Some t) => t
        | _ => mkTransaction "" "" NaN "" ""
        end) = "Unknown"
  /\ App.parse_amount (VFloat NaN) = Ok NaN
  /\ Processor.parse_amount (VFloat NaN) = Ok fzero
  /\ App.parse_amount (VStr "₹500") = Ok (Fz 500)
  /\ Processor.parse_amount (VStr "₹500") = Ok fzero
  /\ App.parse_amount (VStr "â‚¹500") = Ok fzero
  /\ Processor.parse_amount (VStr "â‚¹500") = Ok (Fz 500)
  /\ ~ implementations_equivalent.
Proof.
  split; [reflexivity|]. split; [reflexivity|].
  split; [reflexivity|]. split; [reflexivity|].
  split; [apply (f_equal Ok); vm_compute; fin_eq|].
  split; [apply (f_equal Ok); vm_compute; fin_eq|].
  split; [apply (f_equal Ok); vm_compute; fin_eq|].
  split; [apply (f_equal Ok); vm_compute; fin_eq|].
  intros (H & _). specialize (H (VFloat NaN)). discriminate H.
Qed.

(** C5, as amended: [categorize_transaction] is the same in both sources;
    the two [parse_amount] return equal results on null, on integers, on
    real numbers other than NaN, and on every text that, its commas
    removed, holds neither the rupee sign nor the sequence processor.py
    removes in its place and, its dollar signs removed too, no euro sign;
    on NaN app.py returns NaN and processor.py 0; on a record whose
    amount-bearing fields have such values the two [extract_transaction]
    return equal results when the record has a description field, and when
    it has none they agree on whether there is a transaction and on its
    date, amount, category and type, and app.py's description is
    Unknown Transaction where processor.py's is Unknown. *)
Theorem C5_equivalent_on_plain_values :
  (forall description,
     App.categorize_transaction description
     = Processor.categorize_transaction description)
  /\ (forall value,
        plain value = true ->
        App.parse_amount value = Processor.parse_amount value)
  /\ (App.parse_amount (VFloat NaN) = Ok NaN
      /\ Processor.parse_amount (VFloat NaN) = Ok fzero)
  /\ (forall float_repr r,
        amounts_plain r = true ->
        (has_field (PyStr.any_in description_terms) r = true ->
         App.extract_transaction float_repr r
         = Processor.extract_transaction float_repr r)
        /\ (has_field (PyStr.any_in description_terms) r = false ->
            differ_in_placeholder (App.extract_transaction float_repr r)
              (Processor.extract_transaction float_repr r))).
Proof.
  split; [exact categorize_agree|].
  split; [exact parse_amount_agree|].
  split; [split; reflexivity|].
  intros float_repr r H. split.
  - apply extract_agree. exact H.
  - apply extract_differ. exact H.
Qed.

Lemma C5_equivalent_on_plain_values_witness :
  App.parse_amount (VStr "$1,234.50")
  = Processor.parse_amount (VStr "$1,234.50")
  /\ App.parse_amount (VStr "£1,234.50 ₨")
     = Processor.parse_amount (VStr "£1,234.50 ₨")
  /\ App.extract_transaction (fun _ => "")
       [(KStr "Narration", VStr "₹ bill"); (KStr "Amount", VStr "$5")]
     = Processor.extract_transaction (fun _ => "")
         [(KStr "Narration", VStr "₹ bill"); (KStr "Amount", VStr "$5")]
  /\ differ_in_placeholder
       (App.extract_transaction (fun _ => "") [(KStr "Amount", VInt 5)])
       (Processor.extract_transaction (fun _ => "") [(KStr "Amount", VInt 5)]).
Proof.
  split; [|split; [|split]].
  - apply (proj1 (proj2 C5_equivalent_on_plain_values)). reflexivity.
  - apply (proj1 (proj2 C5_equivalent_on_plain_values)). reflexivity.
  - apply (proj2 (proj2 (proj2 C5_equivalent_on_plain_values))); reflexivity.
  - apply (proj2 (proj2 (proj2 C5_equivalent_on_plain_values))); reflexivity.
Defined.

(** ** The batch over several files *)

Section BatchProperties.

Variable float_repr : pyfloat -> string.
Variable read_csv : string -> result (list row).
Variable read_excel : string -> result (list row).

Let process_file := App.process_file float_repr read_csv read_excel.
Let process_files := App.process_files float_repr read_csv read_excel.
Let transactions_of := file_transactions float_repr read_csv read_excel.
Let report_of := file_report float_repr read_csv read_excel.

Lemma process_file_appends (all_transactions : list transaction)
    (statuses : list App.file_status) (file : App.upload) :
  process_file (all_transactions, statuses) file
  = (all_transactions ++ transactions_of file, statuses ++ report_of file).
Proof.
  unfold process_file, App.process_file, transactions_of, report_of,
    file_transactions, file_report.
  destruct (App.filename file) as [name|]; [|rewrite !app_nil_r; reflexivity].
  destruct (String.eqb name ""); [rewrite !app_nil_r; reflexivity|].
  destruct (App.attempt float_repr read_csv read_excel name file) as [[ts|]|e];
    rewrite ?app_nil_r; reflexivity.
Qed.

Lemma process_loop_appends (files : list App.upload)
    (all_transactions : list transaction) (statuses : list App.file_status) :
  fold_left process_file files (all_transactions, statuses)
  = (all_transactions ++ flat_map transactions_of files,
     statuses ++ flat_map report_of files).
Proof.
  revert all_transactions statuses.
  induction files as [|file files IH]; intros all_transactions statuses;
    cbn [fold_left flat_map].
  - rewrite !app_nil_r. reflexivity.
  - rewrite process_file_appends, IH, <- !app_assoc. reflexivity.
Qed.

Lemma process_files_cases (files : list App.upload) :
  match flat_map transactions_of files with
  | [] =>
      process_files files
      = Raise (HTTPException 400 "No valid transactions found in any file")
  | _ :: _ =>
      exists resp,
        process_files files = Ok resp
        /\ App.resp_processed_files resp = flat_map report_of files
        /\ r_transactions (App.resp_reports resp)
           = flat_map transactions_of files
  end.
Proof.
  unfold process_files, App.process_files.
  pose proof (process_loop_appends files [] []) as H. cbn [app] in H.
  unfold process_file in H. rewrite H.
  destruct (flat_map transactions_of files) as [|t ts].
  - reflexivity.
  - eexists. split; [reflexivity|]. cbn [App.resp_processed_files App.resp_reports].
    split; [reflexivity|]. apply generate_reports_transactions.
Qed.

End BatchProperties.

(** C6: in [process_files] every file adds its own transactions and its own
    status entry to what the files before it left, whatever happened to
    them; a file that cannot be read, or that [pd.read_csv] or
    [pd.read_excel] cannot decode, or a row of which makes the extraction
    raise, adds no transaction and the entry with its name and the error
    text; a file whose extension is not supported adds no transaction and
    the entry with its name and the text Unsupported file format; a file
    that decodes adds the transactions of its rows and the entry with their
    count; and the batch raises its error exactly when the files together
    gave no transaction, and otherwise answers with all the status entries
    and all the transactions. *)
Theorem C6_batch_isolates_failures
    (float_repr : pyfloat -> string)
    (read_csv read_excel : string -> result (list row)) :
  let attempt := App.attempt float_repr read_csv read_excel in
  let transactions_of := file_transactions float_repr read_csv read_excel in
  let report_of := file_report float_repr read_csv read_excel in
  let process_files := App.process_files float_repr read_csv read_excel in
  (forall files,
     fold_left (App.process_file float_repr read_csv read_excel) files ([], [])
     = (flat_map transactions_of files, flat_map report_of files))
  /\ (forall file name e,
        App.filename file = Some name -> name <> "" ->
        attempt name file = Raise e ->
        transactions_of file = []
        /\ report_of file = [App.Failure name (exn_str e)])
  /\ (forall file name content,
        App.filename file = Some name -> name <> "" ->
        App.read file = Ok content ->
        PyStr.endswith ".csv" (PyStr.lower name) = false ->
        PyStr.endswith ".xlsx" (PyStr.lower name) = false ->
        PyStr.endswith ".xls" (PyStr.lower name) = false ->
        transactions_of file = []
        /\ report_of file = [App.Failure name "Unsupported file format"])
  /\ (forall file name e,
        decoding_fails read_csv read_excel name file e ->
        attempt name file = Raise e
        /\ (App.filename file = Some name -> name <> "" ->
            transactions_of file = []
            /\ report_of file = [App.Failure name (exn_str e)]))
  /\ (forall file name rows,
        decodes_to read_csv read_excel name file rows ->
        attempt name file
        = (transactions <- collect (App.extract_transaction float_repr) rows ;;
           Ok (Some transactions))
        /\ (App.filename file = Some name -> name <> "" ->
            (forall transactions,
               collect (App.extract_transaction float_repr) rows
               = Ok transactions ->
               transactions_of file = transactions
               /\ report_of file
                  = [App.Success name (List.length transactions)])
            /\ (forall e,
                  collect (App.extract_transaction float_repr) rows = Raise e ->
                  transactions_of file = []
                  /\ report_of file = [App.Failure name (exn_str e)])))
  /\ (forall files,
        (exists e, process_files files = Raise e)
        <-> flat_map transactions_of files = [])
  /\ (forall files,
        flat_map transactions_of files <> [] ->
        exists resp,
          process_files files = Ok resp
          /\ App.resp_processed_files resp = flat_map report_of files
          /\ r_transactions (App.resp_reports resp)
             = flat_map transactions_of files).
Proof.
  intros attempt transactions_of report_of process_files.
  assert (forall file name e,
            App.filename file = Some name -> name <> "" ->
            attempt name file = Raise e ->
            transactions_of file = []
            /\ report_of file = [App.Failure name (exn_str e)]) as Hraise.
  { intros file name e Hn Hne He.
    unfold transactions_of, report_of, file_transactions, file_report.
    rewrite Hn. apply String.eqb_neq in Hne. rewrite Hne.
    fold attempt. rewrite He. split; reflexivity. }
  split; [|split; [|split; [|split; [|split; [|split]]]]].
  - intro files. apply (process_loop_appends _ _ _ files [] []).
  - exact Hraise.
  - intros file name content Hn Hne Hr Hcsv Hxlsx Hxls.
    unfold transactions_of, report_of, file_transactions, file_report.
    rewrite Hn. apply String.eqb_neq in Hne. rewrite Hne.
    unfold App.attempt. rewrite Hr. cbn [bind].
    rewrite Hcsv, Hxlsx, Hxls. split; reflexivity.
  - intros file name e Hfail.
    assert (attempt name file = Raise e) as He.
    { unfold attempt, App.attempt, App.process_csv, App.process_excel.
      destruct Hfail as [Hr | [(content & Hr & Hcsv & Hd)
                               | (content & Hr & Hcsv & Hxl & Hd)]].
      - rewrite Hr. reflexivity.
      - rewrite Hr. cbn [bind]. rewrite Hcsv, Hd. reflexivity.
      - rewrite Hr. cbn [bind]. rewrite Hcsv, Hxl, Hd. reflexivity. }
    split; [exact He|]. intros Hn Hne. exact (Hraise file name e Hn Hne He).
  - intros file name rows (content & Hr & Hd).
    assert (attempt name file
            = (transactions <- collect (App.extract_transaction float_repr) rows ;;
               Ok (Some transactions))) as Ha.
    { unfold attempt, App.attempt, App.process_csv, App.process_excel.
      rewrite Hr. cbn [bind].
      destruct Hd as [(Hcsv & Hd) | (Hcsv & Hxl & Hd)].
      - rewrite Hcsv, Hd. reflexivity.
      - rewrite Hcsv, Hxl, Hd. reflexivity. }
    split; [exact Ha|]. intros Hn Hne. split.
    + intros transactions Hc.
      unfold transactions_of, report_of, file_transactions, file_report.
      rewrite Hn. apply String.eqb_neq in Hne. rewrite Hne.
      fold attempt. rewrite Ha, Hc. split; reflexivity.
    + intros e Hc. apply (Hraise file name e Hn Hne).
      rewrite Ha, Hc. reflexivity.
  - intro files.
    pose proof (process_files_cases float_repr read_csv read_excel files) as H.
    fold transactions_of in H. fold process_files in H.
    destruct (flat_map transactions_of files) as [|t ts].
    + split; [reflexivity|]. intros _. eexists. exact H.
    + destruct H as (resp & H & _). split; [|discriminate].
      intros [e He]. rewrite H in He. discriminate He.
  - intros files Hne.
    pose proof (process_files_cases float_repr read_csv read_excel files) as H.
    fold transactions_of in H. fold process_files in H. fold report_of in H.
    destruct (flat_map transactions_of files) as [|t ts]; [congruence|].
    exact H.
Qed.

Lemma C6_batch_isolates_failures_witness :
  (exists resp,
     App.process_files (fun _ => "") sample_read_csv sample_read_csv sample_files
     = Ok resp
     /\ App.resp_processed_files resp
        = flat_map (file_report (fun _ => "") sample_read_csv sample_read_csv)
            sample_files
     /\ r_transactions (App.resp_reports resp)
        = flat_map (file_transactions (fun _ => "") sample_read_csv sample_read_csv)
            sample_files)
  /\ file_report (fun _ => "") sample_read_csv sample_read_csv
       (App.mkUpload (Some "book.XLSX") (Ok ""))
     = [App.Failure "book.XLSX" "No columns to parse from file"].
Proof.
  split.
  - apply (C6_batch_isolates_failures (fun _ => "") sample_read_csv
             sample_read_csv).
    vm_compute. discriminate.
  - refine (proj2 (proj2 (proj1 (proj2 (proj2 (proj2
              (C6_batch_isolates_failures (fun _ => "") sample_read_csv
                 sample_read_csv))))
              (App.mkUpload (Some "book.XLSX") (Ok "")) "book.XLSX"
              (OtherError "No columns to parse from file") _) _ _)).
    + right. right. exists "". repeat split.
    + reflexivity.
    + discriminate.
Defined.

(** What the batch answers on the sample: the two failures are listed with
    their names and texts, the file without a name is skipped, and the one
    good file gives its one transaction. *)
Lemma sample_files_statuses :
  flat_map (file_report (fun _ => "") sample_read_csv sample_read_csv)
    sample_files
  = [ App.Failure "notes.txt" "Unsupported file format";
      App.Failure "broken.CSV" "No columns to parse from file";
      App.Success "january.csv" 1 ].
Proof. reflexivity. Qed.

(** * Further properties *)

(** ** What raises below the readers *)

Section Raises.

Variable parse_amount : pyval -> result pyfloat.
Hypothesis parse_amount_raises :
  forall value e, parse_amount value = Raise e ->
                  in_float_range value = false /\ e = int_too_large.

(** What the scan raises is the [OverflowError] of an integer of the
    record. *)
Lemma find_amount_raises (r : row) (e : exn) :
  find_amount parse_amount r = Raise e ->
  row_in_float_range r = false /\ e = int_too_large.
Proof.
  unfold row_in_float_range.
  induction r as [|[key value] r IH]; cbn [find_amount forallb snd].
  - discriminate.
  - assert (forall m : result pyfloat,
              m = Raise e \/ find_amount parse_amount r = Raise e ->
              (m = parse_amount value
               \/ m = (a <- parse_amount value ;; Ok (pneg (pabs a)))
               \/ m = (a <- parse_amount value ;; Ok (pabs a))) ->
              in_float_range value
              && forallb (fun kv => in_float_range (snd kv)) r = false
              /\ e = int_too_large) as Hcase.
    { intros m [Hm | Hrest] Hshape.
      - assert (parse_amount value = Raise e) as Hp.
        { destruct Hshape as [-> | [-> | ->]]; [exact Hm | |];
            destruct (parse_amount value); cbn [bind] in Hm; congruence. }
        destruct (parse_amount_raises value e Hp) as [Hr He].
        rewrite Hr. split; [reflexivity | exact He].
      - destruct (IH Hrest) as [Hr He]. rewrite Hr, andb_false_r.
        split; [reflexivity | exact He]. }
    destruct (truthy_key key && negb (is_None value));
      [|intro H; exact (Hcase _ (or_intror H) (or_introl eq_refl))].
    destruct (PyStr.any_in ["amount"; "amt"; "value"] _);
      [intro H; exact (Hcase _ (or_introl H) (or_introl eq_refl))|].
    destruct (PyStr.any_in ["debit"; "withdrawal"; "dr"] _);
      [intro H; exact (Hcase _ (or_introl H) (or_intror (or_introl eq_refl)))|].
    destruct (PyStr.any_in ["credit"; "deposit"; "cr"] _);
      [intro H; exact (Hcase _ (or_introl H) (or_intror (or_intror eq_refl)))|].
    intro H. exact (Hcase _ (or_intror H) (or_introl eq_refl)).
Qed.

Lemma find_amount_total (r : row) :
  row_in_float_range r = true -> exists a, find_amount parse_amount r = Ok a.
Proof.
  intro Hr. destruct (find_amount parse_amount r) as [a|e] eqn:Hf.
  - exists a. reflexivity.
  - destruct (find_amount_raises r e Hf) as [H _]. congruence.
Qed.

Lemma extract_raises_overflow (categorize : string -> string)
    (placeholder : string) (float_repr : pyfloat -> string) (r : row) (e : exn) :
  extract_transaction_with parse_amount categorize placeholder float_repr r
  = Raise e ->
  row_in_float_range r = false /\ e = int_too_large.
Proof.
  unfold extract_transaction_with.
  destruct (find_amount parse_amount r) as [a|e'] eqn:Hf; cbn [bind].
  - destruct (peq0 a); discriminate.
  - intro H. injection H as <-. exact (find_amount_raises r e' Hf).
Qed.

Lemma extract_total (categorize : string -> string) (placeholder : string)
    (float_repr : pyfloat -> string) (r : row) :
  row_in_float_range r = true ->
  exists o,
    extract_transaction_with parse_amount categorize placeholder float_repr r
    = Ok o.
Proof.
  intro Hr.
  destruct (extract_transaction_with parse_amount categorize placeholder
              float_repr r) as [o|e] eqn:He.
  - exists o. reflexivity.
  - destruct (extract_raises_overflow _ _ _ r e He) as [H _]. congruence.
Qed.

End Raises.

Lemma app_parse_amount_raises (value : pyval) (e : exn) :
  App.parse_amount value = Raise e ->
  in_float_range value = false /\ e = int_too_large.
Proof. intro H. apply parse_amount_raises. left. exact H. Qed.

Lemma processor_parse_amount_raises (value : pyval) (e : exn) :
  Processor.parse_amount value = Raise e ->
  in_float_range value = false /\ e = int_too_large.
Proof. intro H. apply parse_amount_raises. right. exact H. Qed.

(** The rows of a file none of whose integers is beyond the range of
    [float]. *)
Lemma collect_raises (extract : row -> result (option transaction))
    (rows : list row) (e : exn) :
  (forall r e', extract r = Raise e' ->
                row_in_float_range r = false /\ e' = int_too_large) ->
  collect extract rows = Raise e ->
  forallb row_in_float_range rows = false /\ e = int_too_large.
Proof.
  intro H. induction rows as [|r rows IH]; cbn [collect forallb].
  - discriminate.
  - destruct (extract r) as [o|e'] eqn:Hr; cbn [bind].
    + destruct (collect extract rows) as [ts|e''] eqn:Hc; cbn [bind];
        [discriminate|].
      intro He. injection He as <-. destruct (IH eq_refl) as [Hrows He].
      rewrite Hrows, andb_false_r. split; [reflexivity | exact He].
    + intro He. injection He as <-. destruct (H r e' Hr) as [Hrow He].
      rewrite Hrow. split; [reflexivity | exact He].
Qed.

Lemma collect_total (extract : row -> result (option transaction))
    (rows : list row) :
  (forall r e', extract r = Raise e' ->
                row_in_float_range r = false /\ e' = int_too_large) ->
  forallb row_in_float_range rows = true ->
  exists ts, collect extract rows = Ok ts.
Proof.
  intros H Hrows. destruct (collect extract rows) as [ts|e] eqn:Hc.
  - exists ts. reflexivity.
  - destruct (collect_raises extract rows e H Hc) as [Hf _]. congruence.
Qed.

Lemma parse_pdf_line_with_total (patterns : list (list Regex.item))
    (line : string) :
  exists o, Processor.parse_pdf_line_with patterns line = Ok o.
Proof.
  induction patterns as [|pattern rest IH]; cbn [Processor.parse_pdf_line_with].
  - eexists. reflexivity.
  - destruct (Regex.search pattern line) as [m|]; [|exact IH].
    destruct (PyFloatText.float_of_text _) as [amount|e] eqn:Hf.
    + eexists. reflexivity.
    + rewrite (float_of_text_error _ e Hf). exact IH.
Qed.

(** X1: in either source [parse_amount] and [extract_transaction] raise
    nothing but the [OverflowError] of [float] on an integer of absolute
    value [2^1024 - 2^970] or more, which the
    [except (ValueError, TypeError)] lets through: [parse_amount] returns on
    every other value and raises on such an integer, and
    [extract_transaction] returns on every record that holds no such
    integer and raises nothing else on the others. *)
Theorem X1_only_overflow_raises :
  (forall value,
     in_float_range value = true ->
     (exists a, App.parse_amount value = Ok a)
     /\ (exists a, Processor.parse_amount value = Ok a))
  /\ (forall value,
        in_float_range value = false ->
        App.parse_amount value = Raise int_too_large
        /\ Processor.parse_amount value = Raise int_too_large)
  /\ (forall float_repr r,
        row_in_float_range r = true ->
        (exists o, App.extract_transaction float_repr r = Ok o)
        /\ (exists o, Processor.extract_transaction float_repr r = Ok o))
  /\ (forall float_repr r e,
        App.extract_transaction float_repr r = Raise e
        \/ Processor.extract_transaction float_repr r = Raise e ->
        row_in_float_range r = false /\ e = int_too_large).
Proof.
  split; [|split; [|split]].
  - intros value Hr. split.
    + apply app_parse_amount_total. exact Hr.
    + apply processor_parse_amount_total. exact Hr.
  - exact parse_amount_overflow.
  - intros float_repr r Hr. split.
    + apply (extract_total _ app_parse_amount_raises). exact Hr.
    + apply (extract_total _ processor_parse_amount_raises). exact Hr.
  - intros float_repr r e [H | H].
    + exact (extract_raises_overflow _ app_parse_amount_raises _ _ _ r e H).
    + exact (extract_raises_overflow _ processor_parse_amount_raises _ _ _ r e H).
Qed.

Lemma X1_only_overflow_raises_witness :
  ((exists a, App.parse_amount (VStr "12 apples") = Ok a)
   /\ (exists a, Processor.parse_amount (VStr "12 apples") = Ok a))
  /\ (App.parse_amount (VInt (- 10 ^ 400)) = Raise int_too_large
      /\ Processor.parse_amount (VInt (- 10 ^ 400)) = Raise int_too_large)
  /\ ((exists o, App.extract_transaction (fun _ => "") debit_example = Ok o)
      /\ (exists o,
            Processor.extract_transaction (fun _ => "") debit_example = Ok o)).
Proof.
  split; [|split].
  - apply (proj1 X1_only_overflow_raises). reflexivity.
  - apply (proj1 (proj2 X1_only_overflow_raises)). reflexivity.
  - apply (proj1 (proj2 (proj2 X1_only_overflow_raises))). reflexivity.
Defined.

(** ** The type of a transaction *)

Lemma parse_pdf_line_with_type (patterns : list (list Regex.item))
    (line : string) (t : transaction) :
  Processor.parse_pdf_line_with patterns line = Ok (Some t) ->
  t_type t = (if pgt0 (t_amount t) then "income" else "expense").
Proof.
  induction patterns as [|pattern rest IH]; cbn [Processor.parse_pdf_line_with].
  - discriminate.
  - destruct (Regex.search pattern line) as [m|]; [|exact IH].
    destruct (PyFloatText.float_of_text _) as [amount|e] eqn:Hf.
    + intro H. injection H as <-. reflexivity.
    + rewrite (float_of_text_error _ e Hf). exact IH.
Qed.

(** X2: every transaction that [extract_transaction] of either source or
    [parse_pdf_line] produces has the type income exactly when its amount
    is greater than 0, and the type expense otherwise (a zero or NaN amount
    included). *)
Theorem X2_type_follows_sign (float_repr : pyfloat -> string) (r : row)
    (line : string) (t : transaction) :
  App.extract_transaction float_repr r = Ok (Some t)
  \/ Processor.extract_transaction float_repr r = Ok (Some t)
  \/ Processor.parse_pdf_line line = Ok (Some t) ->
  (t_type t = "income" <-> pgt0 (t_amount t) = true)
  /\ (t_type t = "expense" <-> pgt0 (t_amount t) = false).
Proof.
  intro H.
  assert (t_type t = (if pgt0 (t_amount t) then "income" else "expense")) as Ht.
  { destruct H as [H | [H | H]].
    - apply (extract_some _ _ _ _ r t) in H. apply H.
    - apply (extract_some _ _ _ _ r t) in H. apply H.
    - apply (parse_pdf_line_with_type _ line t H). }
  rewrite Ht. destruct (pgt0 (t_amount t)); split; split;
    solve [reflexivity | discriminate].
Qed.

Lemma X2_type_follows_sign_witness :
  exists t,
    Processor.parse_pdf_line "01-02-2024 Fee 0.00" = Ok (Some t)
    /\ (t_type t = "expense" <-> pgt0 (t_amount t) = false).
Proof.
  eexists. split.
  - vm_compute. reflexivity.
  - apply (X2_type_follows_sign (fun _ => "") [] "01-02-2024 Fee 0.00").
    right. right. vm_compute. reflexivity.
Defined.

(** ** The category of a transaction *)

Lemma first_label_in (chart : taxonomy) (desc_lower : string) :
  In (first_label chart desc_lower) ("uncategorized" :: map fst (labels chart)).
Proof.
  unfold first_label.
  destruct (find _ (labels chart)) as [lk|] eqn:Hf.
  - right. apply find_some in Hf. apply in_map. apply Hf.
  - left. reflexivity.
Qed.

Section Category.

Variable parse_amount : pyval -> result pyfloat.
Variable categorize_transaction : string -> string.
Variable placeholder : string.
Variable float_repr : pyfloat -> string.

(** The category of an extracted transaction is that of its description,
    and its description and date are what the two searches found. *)
Lemma extract_fields (r : row) (t : transaction) :
  extract_transaction_with parse_amount categorize_transaction placeholder
    float_repr r = Ok (Some t) ->
  t_category t = categorize_transaction (t_description t)
  /\ t_description t
     = next_str float_repr (PyStr.any_in description_terms) r placeholder
  /\ t_date t = next_str float_repr (PyStr.contains "date") r "".
Proof.
  unfold extract_transaction_with.
  destruct (find_amount parse_amount r) as [amount|e]; cbn [bind];
    [|discriminate].
  destruct (peq0 amount); [discriminate|].
  intro H. injection H as <-. repeat split.
Qed.

End Category.

Lemma parse_pdf_line_with_category (patterns : list (list Regex.item))
    (line : string) (t : transaction) :
  Processor.parse_pdf_line_with patterns line = Ok (Some t) ->
  t_category t = Processor.categorize_transaction (t_description t).
Proof.
  induction patterns as [|pattern rest IH]; cbn [Processor.parse_pdf_line_with].
  - discriminate.
  - destruct (Regex.search pattern line) as [m|]; [|exact IH].
    destruct (PyFloatText.float_of_text _) as [amount|e] eqn:Hf.
    + intro H. injection H as <-. reflexivity.
    + rewrite (float_of_text_error _ e Hf). exact IH.
Qed.

(** X3: the category of every transaction that [extract_transaction] of
    either source or [parse_pdf_line] produces is [uncategorized] or one of
    the eleven labels of the taxonomy. *)
Theorem X3_category_in_taxonomy (float_repr : pyfloat -> string) (r : row)
    (line : string) (t : transaction) :
  App.extract_transaction float_repr r = Ok (Some t)
  \/ Processor.extract_transaction float_repr r = Ok (Some t)
  \/ Processor.parse_pdf_line line = Ok (Some t) ->
  In (t_category t)
    [ "uncategorized";
      "income_salary"; "income_business"; "income_investment";
      "income_other_income"; "expenses_housing"; "expenses_utilities";
      "expenses_food"; "expenses_transport"; "expenses_healthcare";
      "expenses_entertainment"; "expenses_shopping" ].
Proof.
  intro H.
  assert (t_category t = App.categorize_transaction (t_description t)) as Hc.
  { destruct H as [H | [H | H]].
    - apply (extract_fields _ _ _ _ r t) in H. apply H.
    - apply (extract_fields _ _ _ _ r t) in H. apply H.
    - apply (parse_pdf_line_with_category _ line t H). }
  rewrite Hc. unfold App.categorize_transaction.
  rewrite categorize_from_first_label.
  exact (first_label_in App.CHART_OF_ACCOUNTS _).
Qed.

Lemma X3_category_in_taxonomy_witness :
  exists t,
    App.extract_transaction (fun _ => "") debit_example = Ok (Some t)
    /\ In (t_category t)
         [ "uncategorized";
           "income_salary"; "income_business"; "income_investment";
           "income_other_income"; "expenses_housing"; "expenses_utilities";
           "expenses_food"; "expenses_transport"; "expenses_healthcare";
           "expenses_entertainment"; "expenses_shopping" ].
Proof.
  eexists. split.
  - vm_compute. reflexivity.
  - apply (X3_category_in_taxonomy (fun _ => "") debit_example "").
    left. vm_compute. reflexivity.
Defined.

Lemma any_in_app (k1 k2 : list string) (s : string) :
  PyStr.any_in (k1 ++ k2) s = PyStr.any_in k1 s || PyStr.any_in k2 s.
Proof. unfold PyStr.any_in. apply existsb_app. Qed.

(** The inner loop finds a label exactly when some keyword of the main
    category occurs, and the label then begins with the main category. *)
Lemma categorize_in_keywords (main_cat : string)
    (sub_cats : list (string * list string)) (desc_lower : string) :
  match categorize_in main_cat sub_cats desc_lower with
  | Some label =>
      PyStr.any_in (flat_map snd sub_cats) desc_lower = true
      /\ exists sub_cat, label = (main_cat ++ "_" ++ sub_cat)%string
  | None => PyStr.any_in (flat_map snd sub_cats) desc_lower = false
  end.
Proof.
  induction sub_cats as [|[sub_cat keywords] rest IH];
    cbn [categorize_in flat_map snd].
  - reflexivity.
  - rewrite any_in_app. destruct (PyStr.any_in keywords desc_lower); cbn [orb].
    + split; [reflexivity|]. exists sub_cat. reflexivity.
    + exact IH.
Qed.

(** X4: income keywords come first: the category of a description begins
    with [income_] exactly when one of the income keywords (salary, payroll,
    wages, freelance, consulting, client, project, dividend, interest,
    return, yield, refund, reimbursement, gift) occurs in the lowercased
    description, whether or not expense keywords occur in it as well. *)
Theorem X4_income_keywords_take_precedence (description : string) :
  (PyStr.startswith "income_" (App.categorize_transaction description) = true
   <-> PyStr.any_in income_keywords (PyStr.lower description) = true)
  /\ (PyStr.startswith "income_" (Processor.categorize_transaction description)
      = true
      <-> PyStr.any_in income_keywords (PyStr.lower description) = true).
Proof.
  assert (PyStr.startswith "income_" (App.categorize_transaction description)
          = true
          <-> PyStr.any_in income_keywords (PyStr.lower description) = true)
    as H.
  { unfold App.categorize_transaction, App.CHART_OF_ACCOUNTS, income_keywords,
      income_sub_cats, App.CHART_OF_ACCOUNTS.
    cbn [categorize_from snd].
    match goal with
    | |- context [categorize_in "income" ?subs ?dl] =>
        pose proof (categorize_in_keywords "income" subs dl) as Hi;
        destruct (categorize_in "income" subs dl) as [label|]
    end.
    - destruct Hi as [Hk [sub_cat ->]]. rewrite Hk. split; reflexivity.
    - rewrite Hi.
      match goal with
      | |- context [categorize_in "expenses" ?subs ?dl] =>
          pose proof (categorize_in_keywords "expenses" subs dl) as He;
          destruct (categorize_in "expenses" subs dl) as [label|]
      end.
      + destruct He as [_ [sub_cat ->]]. split; discriminate.
      + split; discriminate. }
  split; [exact H|]. exact H.
Qed.

(** ** The description and the date *)

Section Searches.

Variable float_repr : pyfloat -> string.

(** Without a field of the kind the search returns its default. *)
Lemma next_str_absent (cond : string -> bool) (r : row) (default : string) :
  has_field cond r = false -> next_str float_repr cond r default = default.
Proof.
  unfold has_field, name_of.
  induction r as [|[key value] r IH]; cbn [existsb next_str fst]; intro H.
  - reflexivity.
  - apply orb_false_iff in H as [Hk Hr]. rewrite Hk. apply IH. exact Hr.
Qed.

(** The search stops at the first field of the kind, whatever its value. *)
Lemma next_str_first (cond : string -> bool) (pre post : row) (key : pykey)
    (value : pyval) (default : string) :
  has_field cond pre = false ->
  truthy_key key = true ->
  cond (name_of key) = true ->
  next_str float_repr cond (pre ++ (key, value) :: post) default
  = str_of float_repr value.
Proof.
  unfold has_field, name_of. intros Hpre Hk Hc.
  induction pre as [|[key' value'] pre IH]; cbn [app next_str].
  - rewrite Hk, Hc. reflexivity.
  - cbn [existsb fst] in Hpre. apply orb_false_iff in Hpre as [Hk' Hpre].
    rewrite Hk'. apply IH. exact Hpre.
Qed.

End Searches.

(** X5: a record without a description field (no properly named field whose
    lowercased name contains description, desc, particulars, narration or
    details) gives a transaction whose description is the placeholder,
    Unknown Transaction in app.py and Unknown in processor.py, and whose
    category is uncategorized; and a record without a field whose name
    contains date gives a transaction whose date is the empty text. *)
Theorem X5_missing_description_and_date (float_repr : pyfloat -> string)
    (r : row) (t : transaction) :
  (has_field (PyStr.any_in description_terms) r = false ->
   (App.extract_transaction float_repr r = Ok (Some t) ->
    t_description t = "Unknown Transaction" /\ t_category t = "uncategorized")
   /\ (Processor.extract_transaction float_repr r = Ok (Some t) ->
       t_description t = "Unknown" /\ t_category t = "uncategorized"))
  /\ (has_field (PyStr.contains "date") r = false ->
      App.extract_transaction float_repr r = Ok (Some t)
      \/ Processor.extract_transaction float_repr r = Ok (Some t) ->
      t_date t = "").
Proof.
  split.
  - intro Hd. split; intro H;
      apply (extract_fields _ _ _ _ r t) in H; destruct H as (Hc & Hdesc & _);
      rewrite (next_str_absent _ _ r _ Hd) in Hdesc;
      rewrite Hc, Hdesc; split; reflexivity.
  - intros Hd [H | H];
      apply (extract_fields _ _ _ _ r t) in H; destruct H as (_ & _ & Hdate);
      rewrite Hdate; apply next_str_absent; exact Hd.
Qed.

Lemma X5_missing_description_and_date_witness :
  exists t,
    Processor.extract_transaction (fun _ => "") [(KStr "Amount", VInt 5)]
    = Ok (Some t)
    /\ (t_description t = "Unknown" /\ t_category t = "uncategorized")
    /\ t_date t = "".
Proof.
  eexists. split; [vm_compute; reflexivity|]. split.
  - apply (proj1 (X5_missing_description_and_date (fun _ => "")
                    [(KStr "Amount", VInt 5)] _)).
    + reflexivity.
    + vm_compute. reflexivity.
  - apply (proj2 (X5_missing_description_and_date (fun _ => "")
                    [(KStr "Amount", VInt 5)] _)).
    + reflexivity.
    + right. vm_compute. reflexivity.
Defined.

(** X6: unlike the amount scan, the searches for the description and the
    date do not pass over a null value: when the first description field
    of a record holds null, the description of the transaction is the text
    None (and its category uncategorized) even if a later description field
    holds a text, and when the first date field holds null the date is the
    text None. *)
Theorem X6_null_description_is_text_None (float_repr : pyfloat -> string)
    (pre post : row) (key : pykey) (t : transaction) :
  truthy_key key = true ->
  App.extract_transaction float_repr (pre ++ (key, VNone) :: post) = Ok (Some t)
  \/ Processor.extract_transaction float_repr (pre ++ (key, VNone) :: post)
     = Ok (Some t) ->
  (has_field (PyStr.any_in description_terms) pre = false ->
   PyStr.any_in description_terms (name_of key) = true ->
   t_description t = "None" /\ t_category t = "uncategorized")
  /\ (has_field (PyStr.contains "date") pre = false ->
      PyStr.contains "date" (name_of key) = true ->
      t_date t = "None").
Proof.
  intros Hk H.
  assert (t_category t = App.categorize_transaction (t_description t)
          /\ (exists placeholder,
                t_description t
                = next_str float_repr (PyStr.any_in description_terms)
                    (pre ++ (key, VNone) :: post) placeholder)
          /\ t_date t
             = next_str float_repr (PyStr.contains "date")
                 (pre ++ (key, VNone) :: post) "") as (Hc & [ph Hd] & Hdate).
  { destruct H as [H | H];
      apply (extract_fields _ _ _ _ _ t) in H; destruct H as (Hc & Hd & Hdate);
      (split; [exact Hc|]); (split; [eexists; exact Hd | exact Hdate]). }
  split.
  - intros Hpre Hcond.
    rewrite (next_str_first _ _ pre post key VNone _ Hpre Hk Hcond) in Hd.
    rewrite Hc, Hd. split; reflexivity.
  - intros Hpre Hcond.
    rewrite (next_str_first _ _ pre post key VNone _ Hpre Hk Hcond) in Hdate.
    exact Hdate.
Qed.

Lemma X6_null_description_is_text_None_witness :
  exists t,
    App.extract_transaction (fun _ => "")
      ([(KStr "Amount", VInt 5)]
       ++ (KStr "Description", VNone) :: [(KStr "Narration", VStr "Rent")])
    = Ok (Some t)
    /\ t_description t = "None" /\ t_category t = "uncategorized".
Proof.
  eexists. split; [vm_compute; reflexivity|].
  match goal with
  | |- t_description ?t = _ /\ _ =>
      refine (proj1 (X6_null_description_is_text_None (fun _ => "")
                       [(KStr "Amount", VInt 5)]
                       [(KStr "Narration", VStr "Rent")]
                       (KStr "Description") t eq_refl (or_introl _))
                eq_refl eq_refl)
  end.
  vm_compute. reflexivity.
Defined.

(** ** Signs *)

Lemma pgt0_pneg_pabs (x : pyfloat) : pgt0 (pneg (pabs x)) = false.
Proof.
  destruct x as [a| |]; cbn [pabs pneg pgt0 negb]; try reflexivity.
  unfold Qc_is_pos. apply negb_false_iff. apply Qle_bool_iff.
  change (- Qcabs a <= 0)%Qc.
  assert (0 <= Qcabs a)%Qc as H by apply Qcabs_nonneg.
  apply Qcopp_le_compat in H. exact H.
Qed.

Lemma plt0_pabs (x : pyfloat) : plt0 (pabs x) = false.
Proof.
  destruct x as [a| |]; cbn [pabs plt0]; try reflexivity.
  unfold Qc_is_neg. apply negb_false_iff. apply Qle_bool_iff.
  apply (Qcabs_nonneg a).
Qed.

Lemma pgt0_pabs (x : pyfloat) :
  peq0 (pabs x) = false -> is_nan (pabs x) = false -> pgt0 (pabs x) = true.
Proof.
  destruct x as [a| |]; cbn [pabs peq0 is_nan pgt0 negb]; try reflexivity;
    try discriminate.
  intros Hz _. unfold Qc_is_pos. apply negb_true_iff.
  destruct (Qle_bool (Qcabs a) 0) eqn:Hle; [|reflexivity].
  apply Qle_bool_iff in Hle.
  assert (Qcabs a = 0%Qc) as H0.
  { apply Qc_is_canon. apply Qle_antisym; [exact Hle|].
    apply (Qcabs_nonneg a). }
  apply Qc_zero_iff in H0. unfold Qc_is_zero in *. congruence.
Qed.

Section Signs.

Variable parse_amount : pyval -> result pyfloat.
Variable categorize_transaction : string -> string.
Variable placeholder : string.
Variable float_repr : pyfloat -> string.

(** The amount of a transaction made of a record whose scan stops at a
    field of class [c]. *)
Lemma extract_signed (pre post : row) (key : pykey) (value : pyval)
    (c : amount_class) (t : transaction) :
  Forall passed_over pre ->
  value <> VNone ->
  classify (name_of key) = Some c ->
  extract_transaction_with parse_amount categorize_transaction placeholder
    float_repr (pre ++ (key, value) :: post) = Ok (Some t) ->
  exists a, parse_amount value = Ok a /\ t_amount t = signed c a
            /\ peq0 (t_amount t) = false
            /\ t_type t = (if pgt0 (t_amount t) then "income" else "expense").
Proof.
  intros Hpre Hv Hc H.
  apply (extract_some _ _ _ _ _ t) in H. destruct H as (Hf & Hz & Ht).
  rewrite (find_amount_first _ pre post key value c Hpre Hv Hc) in Hf.
  destruct (parse_amount value) as [a|e]; cbn [bind] in Hf; [|discriminate].
  injection Hf as Hf. exists a. repeat split; auto.
Qed.

Lemma extract_debit_credit (pre post : row) (key : pykey) (value : pyval)
    (c : amount_class) (t : transaction) :
  Forall passed_over pre ->
  value <> VNone ->
  classify (name_of key) = Some c ->
  extract_transaction_with parse_amount categorize_transaction placeholder
    float_repr (pre ++ (key, value) :: post) = Ok (Some t) ->
  (c = DebitLike -> pgt0 (t_amount t) = false /\ t_type t = "expense")
  /\ (c = CreditLike ->
      plt0 (t_amount t) = false
      /\ (is_nan (t_amount t) = false ->
          pgt0 (t_amount t) = true /\ t_type t = "income")).
Proof.
  intros Hpre Hv Hc H.
  destruct (extract_signed pre post key value c t Hpre Hv Hc H)
    as (a & _ & Ha & Hz & Ht).
  split; intros ->; cbn [signed] in Ha.
  - rewrite Ht, Ha, pgt0_pneg_pabs. split; reflexivity.
  - split.
    + rewrite Ha. apply plt0_pabs.
    + intro Hn. rewrite Ht. rewrite Ha in Hz, Hn |- *.
      rewrite (pgt0_pabs a Hz Hn). split; reflexivity.
Qed.

End Signs.

(** X7: in both sources, when the amount scan stops at a debit-like field
    the transaction, if there is one, is never an income: its amount is not
    greater than 0 and its type is expense, whatever the sign of the
    value; when it stops at a credit-like field the amount is never
    negative, and the type is income unless the value parsed to NaN. *)
Theorem X7_debit_is_expense_credit_is_income (float_repr : pyfloat -> string)
    (pre post : row) (key : pykey) (value : pyval) (c : amount_class)
    (t : transaction) :
  Forall passed_over pre ->
  value <> VNone ->
  classify (name_of key) = Some c ->
  App.extract_transaction float_repr (pre ++ (key, value) :: post)
  = Ok (Some t)
  \/ Processor.extract_transaction float_repr (pre ++ (key, value) :: post)
     = Ok (Some t) ->
  (c = DebitLike -> pgt0 (t_amount t) = false /\ t_type t = "expense")
  /\ (c = CreditLike ->
      plt0 (t_amount t) = false
      /\ (is_nan (t_amount t) = false ->
          pgt0 (t_amount t) = true /\ t_type t = "income")).
Proof.
  intros Hpre Hv Hc [H | H];
    exact (extract_debit_credit _ _ _ _ pre post key value c t Hpre Hv Hc H).
Qed.

Lemma X7_debit_is_expense_credit_is_income_witness :
  exists t,
    App.extract_transaction (fun _ => "")
      ([(KStr "Date", VStr "01/01/2024")]
       ++ (KStr "Withdrawal", VStr "250.00") :: [(KStr "Credit", VStr "9")])
    = Ok (Some t)
    /\ pgt0 (t_amount t) = false /\ t_type t = "expense".
Proof.
  eexists. split; [vm_compute; reflexivity|].
  match goal with
  | |- pgt0 (t_amount ?t) = _ /\ _ =>
      refine (proj1 (X7_debit_is_expense_credit_is_income (fun _ => "")
                       [(KStr "Date", VStr "01/01/2024")]
                       [(KStr "Credit", VStr "9")]
                       (KStr "Withdrawal") (VStr "250.00") DebitLike t
                       _ _ eq_refl (or_introl _)) eq_refl)
  end.
  - constructor; [right; reflexivity | constructor].
  - discriminate.
  - vm_compute. reflexivity.
Defined.

(** ** A description column ahead of the amount *)

Lemma startswith_app (p s : string) :
  PyStr.startswith p s = true <-> exists v, s = (p ++ v)%string.
Proof.
  revert s. induction p as [|a p IH]; intro s; cbn [PyStr.startswith].
  - split; [intros _; exists s; reflexivity | reflexivity].
  - destruct s as [|b s].
    + split; [discriminate | intros [v Hv]; discriminate Hv].
    + rewrite andb_true_iff, Ascii.eqb_eq, IH. split.
      * intros [-> [v ->]]. exists v. reflexivity.
      * intros [v Hv]. cbn [String.append] in Hv. injection Hv as -> ->.
        split; [reflexivity | exists v; reflexivity].
Qed.

Lemma append_assoc (u v w : string) :
  ((u ++ v) ++ w = u ++ (v ++ w))%string.
Proof.
  induction u as [|c u IH]; cbn [String.append];
    [reflexivity | rewrite IH; reflexivity].
Qed.

(** [p in s] holds exactly when [s] is some text, then [p], then some text. *)
Lemma contains_app (p s : string) :
  PyStr.contains p s = true <-> exists u v, s = (u ++ p ++ v)%string.
Proof.
  split.
  - induction s as [|c s IH]; cbn [PyStr.contains]; intro H;
      apply orb_true_iff in H as [H | H].
    + apply startswith_app in H as [v Hv]. exists EmptyString, v. exact Hv.
    + discriminate.
    + apply startswith_app in H as [v Hv]. exists EmptyString, v. exact Hv.
    + destruct (IH H) as (u & v & ->). exists (String c u), v. reflexivity.
  - intros (u & v & ->). induction u as [|c u IH].
    + cbn [String.append].
      assert (PyStr.startswith p (p ++ v) = true) as Hs
        by (apply startswith_app; exists v; reflexivity).
      destruct (p ++ v)%string; cbn [PyStr.contains]; rewrite Hs; reflexivity.
    + cbn [String.append PyStr.contains]. rewrite IH. apply orb_true_r.
Qed.

Lemma contains_trans (p s t : string) :
  PyStr.contains p s = true -> PyStr.contains s t = true ->
  PyStr.contains p t = true.
Proof.
  intros Hps Hst.
  apply contains_app in Hps as (u & v & ->).
  apply contains_app in Hst as (u' & v' & ->).
  apply contains_app. exists (u' ++ u)%string, (v ++ v')%string.
  rewrite !append_assoc. reflexivity.
Qed.

(** A name that contains [description] contains [cr], so it is in a class. *)
Lemma description_name_classified (name_lower : string) :
  PyStr.contains "description" name_lower = true ->
  exists c, classify name_lower = Some c.
Proof.
  intro H.
  assert (PyStr.contains "cr" name_lower = true) as Hcr
    by (apply (contains_trans "cr" "description"); [reflexivity | exact H]).
  unfold classify.
  destruct (PyStr.any_in ["amount"; "amt"; "value"] name_lower);
    [eexists; reflexivity|].
  destruct (PyStr.any_in ["debit"; "withdrawal"; "dr"] name_lower);
    [eexists; reflexivity|].
  assert (PyStr.any_in ["credit"; "deposit"; "cr"] name_lower = true) as Hc.
  { unfold PyStr.any_in. cbn [existsb]. rewrite Hcr, !orb_true_r. reflexivity. }
  rewrite Hc. eexists. reflexivity.
Qed.

Lemma peq0_signed (c : amount_class) (a : pyfloat) :
  peq0 (signed c a) = peq0 a.
Proof.
  destruct c; cbn [signed];
    [reflexivity | rewrite peq0_pneg; apply peq0_pabs | apply peq0_pabs].
Qed.

Section DescriptionFirst.

Variable parse_amount : pyval -> result pyfloat.
Variable categorize_transaction : string -> string.
Variable placeholder : string.
Variable float_repr : pyfloat -> string.

Lemma description_first_rejected (pre post : row) (key : pykey)
    (value : pyval) (a : pyfloat) :
  Forall passed_over pre ->
  PyStr.contains "description" (name_of key) = true ->
  value <> VNone ->
  parse_amount value = Ok a ->
  peq0 a = true ->
  extract_transaction_with parse_amount categorize_transaction placeholder
    float_repr (pre ++ (key, value) :: post) = Ok None.
Proof.
  intros Hpre Hd Hv Ha Hz.
  destruct (description_name_classified _ Hd) as [c Hc].
  apply (extract_zero _ _ _ _ _ (signed c a)).
  - rewrite (find_amount_first _ pre post key value c Hpre Hv Hc).
    rewrite Ha. reflexivity.
  - rewrite peq0_signed. exact Hz.
Qed.

End DescriptionFirst.

(** X8: in both sources a field whose lowercased name contains description
    is itself amount-bearing, since description contains cr: when such a
    field comes before every other amount-bearing field of the record
    and its value is not null and parses to 0, as a text that is no number
    does, the record yields no transaction, whatever amount fields follow
    it. *)
Theorem X8_description_ahead_of_amount_rejects (float_repr : pyfloat -> string)
    (pre post : row) (key : pykey) (value : pyval) :
  Forall passed_over pre ->
  PyStr.contains "description" (name_of key) = true ->
  value <> VNone ->
  (forall a, App.parse_amount value = Ok a -> peq0 a = true ->
     App.extract_transaction float_repr (pre ++ (key, value) :: post) = Ok None)
  /\ (forall a, Processor.parse_amount value = Ok a -> peq0 a = true ->
        Processor.extract_transaction float_repr (pre ++ (key, value) :: post)
        = Ok None).
Proof.
  intros Hpre Hd Hv. split; intros a Ha Hz;
    exact (description_first_rejected _ _ _ _ pre post key value a
             Hpre Hd Hv Ha Hz).
Qed.

Lemma X8_description_ahead_of_amount_rejects_witness :
  Processor.extract_transaction (fun _ => "")
    ([(KStr "Date", VStr "05/03/2024")]
     ++ (KStr "Transaction Description", VStr "Grocery store")
     :: [(KStr "Debit", VStr "42.10"); (KStr "Credit", VNone)])
  = Ok None.
Proof.
  refine (proj2 (X8_description_ahead_of_amount_rejects (fun _ => "")
                   [(KStr "Date", VStr "05/03/2024")]
                   [(KStr "Debit", VStr "42.10"); (KStr "Credit", VNone)]
                   (KStr "Transaction Description") (VStr "Grocery store")
                   _ eq_refl _) fzero eq_refl eq_refl).
  - constructor; [right; reflexivity | constructor].
  - discriminate.
Defined.

(** ** Commas *)

Lemma remove_char_gone (c0 : ascii) (s : string) :
  all_chars (fun c => negb (Ascii.eqb c0 c))
    (PyStr.remove (String c0 EmptyString) s) = true.
Proof.
  unfold PyStr.remove. induction s as [|c s IH].
  - reflexivity.
  - cbn [PyStr.remove_from PyStr.startswith String.length Nat.sub].
    destruct (Ascii.eqb c0 c) eqn:Hc; cbn [andb].
    + destruct s; exact IH.
    + cbn [all_chars]. rewrite Hc. exact IH.
Qed.

Lemma remove_char_twice (c0 : ascii) (s : string) :
  PyStr.remove (String c0 EmptyString)
    (PyStr.remove (String c0 EmptyString) s)
  = PyStr.remove (String c0 EmptyString) s.
Proof. apply remove_absent. apply remove_char_gone. Qed.

(** X9: both [parse_amount] drop commas wherever they stand in a text, not
    only between groups of three digits: the amount of a text is the amount
    of the text without its commas, so that a decimal comma is read as if
    it were not there. *)
Theorem X9_commas_are_dropped_anywhere (s : string) :
  App.parse_amount (VStr s) = App.parse_amount (VStr (PyStr.remove "," s))
  /\ Processor.parse_amount (VStr s)
     = Processor.parse_amount (VStr (PyStr.remove "," s)).
Proof.
  split.
  - unfold App.parse_amount. cbn [is_None eq_empty orb].
    assert (App.clean (PyStr.remove "," s) = App.clean s) as Hc
      by (unfold App.clean; rewrite remove_char_twice; reflexivity).
    rewrite Hc.
    destruct (String.eqb s "") eqn:Hs.
    + apply String.eqb_eq in Hs. subst s. reflexivity.
    + destruct (String.eqb (PyStr.remove "," s) "") eqn:Hr; [|reflexivity].
      apply String.eqb_eq in Hr. unfold App.clean. rewrite Hr. reflexivity.
  - unfold Processor.parse_amount. cbn [pd_isna is_None orb].
    unfold Processor.clean. rewrite remove_char_twice. reflexivity.
Qed.

(** ** The totals of the reports *)

Lemma nonnegative_padd (x y : pyfloat) :
  nonnegative x = true -> nonnegative y = true -> nonnegative (padd x y) = true.
Proof.
  destruct x as [a|[|]|], y as [b|[|]|]; cbn [nonnegative padd negb Bool.eqb];
    try reflexivity; try discriminate.
  intros Ha Hb. apply Qle_bool_iff in Ha. apply Qle_bool_iff in Hb.
  apply Qle_bool_iff. change (0 <= a + b)%Qc.
  replace 0%Qc with (0 + 0)%Qc by ring.
  apply Qcplus_le_compat; assumption.
Qed.

Lemma nonnegative_total (l : list pyfloat) :
  Forall (fun x => nonnegative x = true) l -> nonnegative (total l) = true.
Proof.
  induction 1 as [|x l Hx _ IH]; cbn [total fold_right].
  - reflexivity.
  - apply nonnegative_padd; assumption.
Qed.

Lemma nonnegative_positive (x : pyfloat) :
  pgt0 x = true -> nonnegative x = true.
Proof.
  destruct x as [a|[|]|]; cbn [pgt0 nonnegative negb]; try reflexivity;
    try discriminate.
  unfold Qc_is_pos. intro H. apply negb_true_iff in H. apply Qle_bool_iff.
  destruct (Qlt_le_dec 0 a) as [Hlt|Hle].
  - apply Qlt_le_weak. exact Hlt.
  - apply Qle_bool_iff in Hle. congruence.
Qed.

Lemma nonnegative_pabs (x : pyfloat) :
  is_nan x = false -> nonnegative (pabs x) = true.
Proof.
  destruct x as [a| |]; cbn [is_nan pabs nonnegative negb]; try reflexivity;
    try discriminate.
  intros _. apply Qle_bool_iff. apply (Qcabs_nonneg a).
Qed.

Lemma nonnegative_pmul (x : pyfloat) (c : Qc) :
  Qc_is_pos c = true -> nonnegative x = true ->
  nonnegative (pmul x (Fin c)) = true.
Proof.
  intros Hc.
  assert (Qc_is_neg c = false) as Hn by (apply Qc_pos_not_neg; exact Hc).
  assert (Qc_is_zero c = false) as Hz.
  { destruct (Qc_is_zero c) eqn:Hz; [|reflexivity].
    apply Qc_zero_iff in Hz. subst c. discriminate Hc. }
  destruct x as [a|[|]|]; cbn [nonnegative pmul negb]; try discriminate.
  - intro Ha. apply Qle_bool_iff in Ha. apply Qle_bool_iff.
    change (0 <= a * c)%Qc. replace 0%Qc with (0 * c)%Qc by ring.
    apply Qcmult_le_compat_r; [exact Ha|].
    apply Qle_bool_iff. apply nonnegative_positive with (x := Fin c). exact Hc.
  - intros _. rewrite Hz, Hn. reflexivity.
Qed.

Lemma sum_positive_nonnegative (txs : list transaction) :
  nonnegative (sum_positive txs) = true.
Proof.
  unfold sum_positive. apply nonnegative_total.
  apply Forall_forall. intros x Hx.
  apply in_map_iff in Hx as (t & <- & Ht).
  apply filter_In in Ht as [_ Ht]. apply nonnegative_positive. exact Ht.
Qed.

Lemma sum_abs_not_positive_nonnegative (txs : list transaction) :
  Forall (fun t => is_nan (t_amount t) = false) txs ->
  nonnegative (sum_abs_not_positive txs) = true.
Proof.
  intro Hnan. unfold sum_abs_not_positive. apply nonnegative_total.
  apply Forall_forall. intros x Hx.
  apply in_map_iff in Hx as (t & <- & Ht).
  apply filter_In in Ht as [Ht _]. apply nonnegative_pabs.
  rewrite Forall_forall in Hnan. apply Hnan. exact Ht.
Qed.

(** X11: [total_income] is never negative and never NaN, whatever the
    amounts, and so is [total_assets]; when no amount is NaN the same holds
    of [total_expenses] and [total_liabilities]. *)
Theorem X11_totals_are_nonnegative (txs : list transaction) :
  let r := App.generate_reports txs in
  (nonnegative (total_income (r_income_statement r)) = true
   /\ nonnegative (total_assets (r_balance_sheet r)) = true)
  /\ (Forall (fun t => is_nan (t_amount t) = false) txs ->
      nonnegative (total_expenses (r_income_statement r)) = true
      /\ nonnegative (total_liabilities (r_balance_sheet r)) = true).
Proof.
  intro r.
  pose proof (generate_reports_totals txs) as H.
  unfold totals, totals_of in H.
  change (generate_reports txs) with r in H.
  injection H as Hi He _ Ha Hl _ _ _ _ _.
  rewrite Hi, He, Ha, Hl. split.
  - split; [apply sum_positive_nonnegative|].
    apply nonnegative_pmul; [reflexivity | apply sum_positive_nonnegative].
  - intro Hnan. split; [apply sum_abs_not_positive_nonnegative; exact Hnan|].
    apply nonnegative_pmul;
      [reflexivity | apply sum_abs_not_positive_nonnegative; exact Hnan].
Qed.

Lemma X11_totals_are_nonnegative_witness :
  nonnegative
    (total_expenses (r_income_statement (App.generate_reports sample_transactions)))
  = true
  /\ nonnegative
       (total_liabilities (r_balance_sheet (App.generate_reports sample_transactions)))
     = true.
Proof.
  apply (X11_totals_are_nonnegative sample_transactions).
  repeat constructor.
Defined.

(** ** The breakdown *)

Lemma dict_get_set_same (d : dict) (k : string) (v default : pyfloat) :
  dict_get (dict_set d k v) k default = v.
Proof.
  induction d as [|[k' v'] d IH]; cbn [dict_set dict_get].
  - rewrite String.eqb_refl. reflexivity.
  - destruct (String.eqb k' k) eqn:Hk; cbn [dict_get]; rewrite Hk;
      [reflexivity | exact IH].
Qed.

Lemma dict_get_set_other (d : dict) (k k2 : string) (v default : pyfloat) :
  k <> k2 -> dict_get (dict_set d k v) k2 default = dict_get d k2 default.
Proof.
  intro Hne. induction d as [|[k' v'] d IH]; cbn [dict_set dict_get].
  - apply String.eqb_neq in Hne. rewrite Hne. reflexivity.
  - destruct (String.eqb k' k) eqn:Hk; cbn [dict_get].
    + apply String.eqb_eq in Hk. subst k'.
      apply String.eqb_neq in Hne. rewrite Hne. reflexivity.
    + destruct (String.eqb k' k2); [reflexivity | exact IH].
Qed.

Lemma dict_get_absent (d : dict) (k : string) (default : pyfloat) :
  ~ In k (map fst d) -> dict_get d k default = default.
Proof.
  induction d as [|[k' v'] d IH]; cbn [dict_get map fst In]; intro H.
  - reflexivity.
  - destruct (String.eqb k' k) eqn:Hk.
    + apply String.eqb_eq in Hk. exfalso. apply H. left. exact Hk.
    + apply IH. intro Hin. apply H. right. exact Hin.
Qed.

Lemma dict_set_present (d : dict) (k : string) (v : pyfloat) :
  In k (map fst d) -> map fst (dict_set d k v) = map fst d.
Proof.
  induction d as [|[k' v'] d IH]; cbn [dict_set map fst In]; intro H.
  - contradiction.
  - destruct (String.eqb k' k) eqn:Hk; cbn [map fst].
    + reflexivity.
    + f_equal. apply IH. destruct H as [H | H]; [|exact H].
      apply String.eqb_neq in Hk. contradiction.
Qed.

Lemma dict_set_fresh (d : dict) (k : string) (v : pyfloat) :
  ~ In k (map fst d) -> dict_set d k v = d ++ [(k, v)].
Proof.
  induction d as [|[k' v'] d IH]; cbn [dict_set map fst In app]; intro H.
  - reflexivity.
  - destruct (String.eqb k' k) eqn:Hk.
    + apply String.eqb_eq in Hk. exfalso. apply H. left. exact Hk.
    + f_equal. apply IH. intro Hin. apply H. right. exact Hin.
Qed.

Lemma dict_set_keys_in (d : dict) (k x : string) (v : pyfloat) :
  In x (map fst (dict_set d k v)) <-> In x (map fst d) \/ x = k.
Proof.
  destruct (in_dec string_dec k (map fst d)) as [Hin | Hnin].
  - rewrite (dict_set_present d k v Hin). split; [auto|].
    intros [H | ->]; assumption.
  - rewrite (dict_set_fresh d k v Hnin), map_app, in_app_iff. cbn [map fst In].
    split.
    + intros [H | [<- | []]]; [left; exact H | right; reflexivity].
    + intros [H | ->]; [left; exact H | right; left; reflexivity].
Qed.

Lemma dict_set_nodup (d : dict) (k : string) (v : pyfloat) :
  NoDup (map fst d) -> NoDup (map fst (dict_set d k v)).
Proof.
  intro H. destruct (in_dec string_dec k (map fst d)) as [Hin | Hnin].
  - rewrite (dict_set_present d k v Hin). exact H.
  - rewrite (dict_set_fresh d k v Hnin), map_app. cbn [map fst].
    apply (Permutation_NoDup (Permutation_cons_append (map fst d) k)).
    constructor; assumption.
Qed.

Lemma sum_values_fresh (d : dict) (k : string) (v : pyfloat) :
  ~ In k (map fst d) -> sum_values (dict_set d k v) = padd (sum_values d) v.
Proof.
  intro H. rewrite (dict_set_fresh d k v H), !sum_values_total, map_app.
  rewrite total_app. cbn [map snd total fold_right]. rewrite padd_0_r.
  reflexivity.
Qed.

Lemma append_inj (p a b : string) : (p ++ a = p ++ b)%string -> a = b.
Proof.
  induction p as [|c p IH]; cbn [String.append]; intro H.
  - exact H.
  - injection H as H. apply IH. exact H.
Qed.

Lemma startswith_append (p a : string) : PyStr.startswith p (p ++ a) = true.
Proof. apply startswith_app. exists a. reflexivity. Qed.

(** The keys and the values the loop leaves in its two accumulators. *)
Lemma fold_accumulate_dicts (txs : list transaction) (inc exp : dict) :
  let acc := fold_left accumulate txs (inc, exp) in
  (NoDup (map fst inc) -> NoDup (map fst (fst acc)))
  /\ (NoDup (map fst exp) -> NoDup (map fst (snd acc)))
  /\ (forall k, In k (map fst (fst acc)) ->
        In k (map fst inc) \/ In k (map t_category txs))
  /\ (forall c, dict_get (fst acc) c fzero
                = padd (dict_get inc c fzero) (category_income c txs))
  /\ (forall c, dict_get (snd acc) c fzero
                = padd (dict_get exp c fzero) (category_expense c txs)).
Proof.
  revert inc exp. induction txs as [|t txs IH]; intros inc exp acc.
  - subst acc. cbn [fold_left fst snd map In].
    unfold category_income, category_expense. cbn [filter map total fold_right].
    repeat split; auto; intro c; rewrite padd_0_r; reflexivity.
  - subst acc. cbn [fold_left]. unfold accumulate at 2 4 6 8 10.
    assert (forall c,
              category_income c (t :: txs)
              = padd (if pgt0 (t_amount t) && String.eqb (t_category t) c
                      then t_amount t else fzero)
                  (category_income c txs)) as Hci.
    { intro c. unfold category_income. rewrite !total_filter_map. reflexivity. }
    assert (forall c,
              category_expense c (t :: txs)
              = padd (if negb (pgt0 (t_amount t)) && String.eqb (t_category t) c
                      then pabs (t_amount t) else fzero)
                  (category_expense c txs)) as Hce.
    { intro c. unfold category_expense. rewrite !total_filter_map. reflexivity. }
    destruct (pgt0 (t_amount t)) eqn:Hpos.
    + specialize (IH (dict_set inc (t_category t)
                        (padd (dict_get inc (t_category t) fzero) (t_amount t)))
                     exp).
      cbn zeta in IH. destruct IH as (Hn1 & Hn2 & Hk & Hi & He).
      split; [intro H; apply Hn1; apply dict_set_nodup; exact H|].
      split; [exact Hn2|].
      split.
      { intros k Hin. destruct (Hk k Hin) as [H | H].
        - apply dict_set_keys_in in H as [H | ->]; [left; exact H|].
          right. left. reflexivity.
        - right. right. exact H. }
      split.
      { intro c. rewrite Hi, Hci. cbn [andb negb].
        destruct (String.eqb (t_category t) c) eqn:Hc.
        - apply String.eqb_eq in Hc. subst c.
          rewrite dict_get_set_same. symmetry. apply padd_assoc.
        - apply String.eqb_neq in Hc.
          rewrite (dict_get_set_other _ _ c _ _ Hc), padd_0_l. reflexivity. }
      { intro c. rewrite He, Hce. cbn [andb negb]. rewrite padd_0_l.
        reflexivity. }
    + specialize (IH inc
                     (dict_set exp (t_category t)
                        (padd (dict_get exp (t_category t) fzero)
                           (pabs (t_amount t))))).
      cbn zeta in IH. destruct IH as (Hn1 & Hn2 & Hk & Hi & He).
      split; [exact Hn1|].
      split; [intro H; apply Hn2; apply dict_set_nodup; exact H|].
      split.
      { intros k Hin. destruct (Hk k Hin) as [H | H];
          [left; exact H | right; right; exact H]. }
      split.
      { intro c. rewrite Hi, Hci. cbn [andb negb]. rewrite padd_0_l.
        reflexivity. }
      { intro c. rewrite He, Hce. cbn [andb negb].
        destruct (String.eqb (t_category t) c) eqn:Hc.
        - apply String.eqb_eq in Hc. subst c.
          rewrite dict_get_set_same. symmetry. apply padd_assoc.
        - apply String.eqb_neq in Hc.
          rewrite (dict_get_set_other _ _ c _ _ Hc), padd_0_l. reflexivity. }
Qed.

Lemma merge_breakdown_cons (d : dict) (k : string) (v : pyfloat) (exp : dict) :
  merge_breakdown d ((k, v) :: exp)
  = merge_breakdown (dict_set d ("expense_" ++ k)%string (pneg v)) exp.
Proof. reflexivity. Qed.

(** The merge leaves alone every key that is not an expense key of it. *)
Lemma merge_breakdown_untouched (exp d : dict) (key : string)
    (default : pyfloat) :
  (forall k, In k (map fst exp) -> ("expense_" ++ k)%string <> key) ->
  dict_get (merge_breakdown d exp) key default = dict_get d key default.
Proof.
  revert d. induction exp as [|[k v] exp IH]; intros d H.
  - reflexivity.
  - rewrite merge_breakdown_cons, IH.
    + apply dict_get_set_other. apply H. left. reflexivity.
    + intros k' Hk'. apply H. right. exact Hk'.
Qed.

Lemma merge_breakdown_expense (exp d : dict) (c : string) :
  NoDup (map fst exp) ->
  ~ In ("expense_" ++ c)%string (map fst d) ->
  dict_get (merge_breakdown d exp) ("expense_" ++ c)%string fzero
  = pneg (dict_get exp c fzero).
Proof.
  revert d. induction exp as [|[k v] exp IH]; intros d Hnd Hfresh.
  - cbn [merge_breakdown fold_left dict_get].
    rewrite (dict_get_absent d _ fzero Hfresh), pneg_fzero. reflexivity.
  - cbn [map fst] in Hnd. apply NoDup_cons_iff in Hnd as [Hk Hnd].
    rewrite merge_breakdown_cons. cbn [dict_get].
    destruct (String.eqb k c) eqn:Hkc.
    + apply String.eqb_eq in Hkc. subst c.
      rewrite merge_breakdown_untouched.
      * apply dict_get_set_same.
      * intros k' Hk' Heq. apply append_inj in Heq. subst k'. contradiction.
    + apply String.eqb_neq in Hkc. apply IH; [exact Hnd|].
      intro Hin. apply dict_set_keys_in in Hin as [Hin | Heq].
      * contradiction.
      * apply append_inj in Heq. congruence.
Qed.

(** The breakdown of the reports in terms of the two accumulators. *)
Lemma generate_reports_breakdown (txs : list transaction) :
  breakdown (r_income_statement (generate_reports txs))
  = merge_breakdown (fst (fold_left accumulate txs ([], [])))
      (snd (fold_left accumulate txs ([], [])))
  /\ net_income (r_income_statement (generate_reports txs))
     = psub (sum_values (fst (fold_left accumulate txs ([], []))))
         (sum_values (snd (fold_left accumulate txs ([], [])))).
Proof.
  unfold generate_reports.
  destruct (fold_left accumulate txs ([], [])) as [inc exp]. split; reflexivity.
Qed.

Lemma no_expense_prefix_keys (txs : list transaction) (key : string) :
  no_expense_prefix txs = true ->
  In key (map t_category txs) ->
  PyStr.startswith "expense_" key = false.
Proof.
  unfold no_expense_prefix. intros H Hin.
  apply in_map_iff in Hin as (t & <- & Ht).
  rewrite forallb_forall in H. apply negb_true_iff. apply H. exact Ht.
Qed.

Section Breakdown.

Variable txs : list transaction.
Hypothesis plain_categories : no_expense_prefix txs = true.

Let inc := fst (fold_left accumulate txs ([], [])).
Let exp := snd (fold_left accumulate txs ([], [])).

Lemma income_keys_plain (key : string) :
  In key (map fst inc) -> PyStr.startswith "expense_" key = false.
Proof.
  intro Hin. destruct (fold_accumulate_dicts txs [] []) as (_ & _ & Hk & _).
  destruct (Hk key Hin) as [[] | H].
  apply (no_expense_prefix_keys txs key plain_categories H).
Qed.

Lemma expense_key_fresh (c : string) :
  ~ In ("expense_" ++ c)%string (map fst inc).
Proof.
  intro Hin. apply income_keys_plain in Hin.
  rewrite startswith_append in Hin. discriminate.
Qed.

Lemma breakdown_lookup (c : string) :
  (PyStr.startswith "expense_" c = false ->
   dict_get (breakdown (r_income_statement (generate_reports txs))) c fzero
   = category_income c txs)
  /\ dict_get (breakdown (r_income_statement (generate_reports txs)))
       ("expense_" ++ c)%string fzero
     = pneg (category_expense c txs).
Proof.
  destruct (generate_reports_breakdown txs) as [-> _].
  destruct (fold_accumulate_dicts txs [] []) as (_ & Hnd & _ & Hi & He).
  split.
  - intro Hc. rewrite merge_breakdown_untouched.
    + rewrite Hi. apply padd_0_l.
    + intros k _ Heq. subst c. rewrite startswith_append in Hc. discriminate.
  - rewrite merge_breakdown_expense.
    + rewrite He, padd_0_l. reflexivity.
    + apply Hnd. constructor.
    + apply expense_key_fresh.
Qed.

End Breakdown.

(** X13: when no category begins with [expense_], the merged breakdown
    holds, under each category, the sum of the positive amounts of that
    category, and under [expense_] followed by the category, minus the sum
    of the absolute values of its other amounts; a key that is not there
    reads as 0. *)
Theorem X13_breakdown_entries (txs : list transaction) (c : string) :
  no_expense_prefix txs = true ->
  (PyStr.startswith "expense_" c = false ->
   dict_get (breakdown (r_income_statement (App.generate_reports txs))) c fzero
   = category_income c txs)
  /\ dict_get (breakdown (r_income_statement (App.generate_reports txs)))
       ("expense_" ++ c)%string fzero
     = pneg (category_expense c txs).
Proof.
  intro H. exact (breakdown_lookup txs H c).
Qed.

Lemma X13_breakdown_entries_witness :
  dict_get
    (breakdown (r_income_statement (App.generate_reports sample_transactions)))
    "expense_expenses_housing" fzero
  = pneg (category_expense "expenses_housing" sample_transactions).
Proof.
  apply (X13_breakdown_entries sample_transactions "expenses_housing").
  reflexivity.
Defined.

(** A category that begins with [expense_] can lose its income entry to the
    expense entry of another category. *)
Lemma breakdown_collision :
  breakdown
    (r_income_statement
       (generate_reports
          [ mkTransaction "" "" (Fz 5) "expense_x" "income";
            mkTransaction "" "" (Fz (-3)) "x" "expense" ]))
  = [("expense_x", pneg (padd fzero (pabs (Fz (-3)))))].
Proof. reflexivity. Qed.

(** ** Rows and readers *)

Lemma collect_rows (extract : row -> result (option transaction))
    (rows : list row) (ts : list transaction) :
  collect extract rows = Ok ts ->
  ts = flat_map (row_transactions extract) rows.
Proof.
  revert ts. induction rows as [|r rows IH]; cbn [collect flat_map]; intros ts H.
  - injection H as <-. reflexivity.
  - unfold row_transactions at 1.
    destruct (extract r) as [o|e]; cbn [bind] in H; [|discriminate].
    destruct (collect extract rows) as [ts'|e]; cbn [bind] in H; [|discriminate].
    injection H as <-. rewrite <- (IH ts' eq_refl). destruct o; reflexivity.
Qed.

(** The rows of a file in which no integer is beyond the range of [float]
    give their transactions. *)
Lemma collect_in_range (extract : row -> result (option transaction))
    (rows : list row) :
  (forall r e', extract r = Raise e' ->
                row_in_float_range r = false /\ e' = int_too_large) ->
  forallb row_in_float_range rows = true ->
  collect extract rows = Ok (flat_map (row_transactions extract) rows).
Proof.
  intros H Hrows. destruct (collect_total extract rows H Hrows) as [ts Hts].
  rewrite Hts. rewrite (collect_rows extract rows ts Hts). reflexivity.
Qed.

Lemma app_extract_raises (float_repr : pyfloat -> string) (r : row) (e : exn) :
  App.extract_transaction float_repr r = Raise e ->
  row_in_float_range r = false /\ e = int_too_large.
Proof. apply (extract_raises_overflow _ app_parse_amount_raises). Qed.

Lemma processor_extract_raises (float_repr : pyfloat -> string) (r : row)
    (e : exn) :
  Processor.extract_transaction float_repr r = Raise e ->
  row_in_float_range r = false /\ e = int_too_large.
Proof. apply (extract_raises_overflow _ processor_parse_amount_raises). Qed.

Lemma row_transactions_length (extract : row -> result (option transaction))
    (rows : list row) :
  (List.length (flat_map (row_transactions extract) rows) <= List.length rows)%nat.
Proof.
  induction rows as [|r rows IH]; cbn [flat_map List.length].
  - apply le_n.
  - rewrite length_app. unfold row_transactions at 1.
    destruct (extract r) as [[t|]|e]; cbn [List.length]; lia.
Qed.

(** X14: [process_csv] and [process_excel], in both sources, raise what the
    reader raises, and after the reader nothing but the [OverflowError] of
    an integer beyond the range of [float] in a row; on rows without such
    an integer they return, in the order of the rows, the transaction of
    each row that has one, so never more transactions than rows. *)
Theorem X14_tabular_files (float_repr : pyfloat -> string)
    (reader : string -> result (list row)) (file_content : string) :
  (forall e,
     reader file_content = Raise e ->
     App.process_csv float_repr reader file_content = Raise e
     /\ App.process_excel float_repr reader file_content = Raise e
     /\ Processor.process_csv float_repr reader file_content = Raise e
     /\ Processor.process_excel float_repr reader file_content = Raise e)
  /\ (forall rows,
        reader file_content = Ok rows ->
        forallb row_in_float_range rows = true ->
        let app_result :=
          flat_map (row_transactions (App.extract_transaction float_repr)) rows in
        let processor_result :=
          flat_map (row_transactions (Processor.extract_transaction float_repr))
            rows in
        App.process_csv float_repr reader file_content = Ok app_result
        /\ App.process_excel float_repr reader file_content = Ok app_result
        /\ Processor.process_csv float_repr reader file_content
           = Ok processor_result
        /\ Processor.process_excel float_repr reader file_content
           = Ok processor_result
        /\ (List.length app_result <= List.length rows)%nat
        /\ (List.length processor_result <= List.length rows)%nat)
  /\ (forall rows e,
        reader file_content = Ok rows ->
        App.process_csv float_repr reader file_content = Raise e
        \/ App.process_excel float_repr reader file_content = Raise e
        \/ Processor.process_csv float_repr reader file_content = Raise e
        \/ Processor.process_excel float_repr reader file_content = Raise e ->
        forallb row_in_float_range rows = false /\ e = int_too_large).
Proof.
  split; [|split].
  - intros e He.
    unfold App.process_csv, App.process_excel, Processor.process_csv,
      Processor.process_excel.
    rewrite He. repeat split.
  - intros rows Hr Hrows app_result processor_result.
    unfold App.process_csv, App.process_excel, Processor.process_csv,
      Processor.process_excel.
    rewrite Hr. cbn [bind].
    assert (collect (App.extract_transaction float_repr) rows = Ok app_result)
      as Ha
      by (apply collect_in_range; [apply app_extract_raises | exact Hrows]).
    assert (collect (Processor.extract_transaction float_repr) rows
            = Ok processor_result) as Hp
      by (apply collect_in_range; [apply processor_extract_raises | exact Hrows]).
    rewrite Ha, Hp. repeat split; apply row_transactions_length.
  - intros rows e Hr.
    unfold App.process_csv, App.process_excel, Processor.process_csv,
      Processor.process_excel.
    rewrite Hr. cbn [bind].
    intros [H | [H | [H | H]]].
    + exact (collect_raises _ rows e (app_extract_raises float_repr) H).
    + exact (collect_raises _ rows e (app_extract_raises float_repr) H).
    + exact (collect_raises _ rows e (processor_extract_raises float_repr) H).
    + exact (collect_raises _ rows e (processor_extract_raises float_repr) H).
Qed.

Lemma X14_tabular_files_witness :
  App.process_csv (fun _ => "") sample_read_csv "Debit,Narration"
  = Ok (flat_map (row_transactions (App.extract_transaction (fun _ => "")))
          [debit_example; [(KStr "Amount", VInt 0)]]).
Proof.
  apply (proj1 (proj2 (X14_tabular_files (fun _ => "") sample_read_csv
                         "Debit,Narration"))); reflexivity.
Defined.

(** ** The summary of a batch *)

Section BatchSummary.

Variable float_repr : pyfloat -> string.
Variable read_csv : string -> result (list row).
Variable read_excel : string -> result (list row).

Let transactions_of := file_transactions float_repr read_csv read_excel.
Let report_of := file_report float_repr read_csv read_excel.

Lemma success_count_app (l1 l2 : list App.file_status) :
  success_count (l1 ++ l2) = (success_count l1 + success_count l2)%nat.
Proof.
  induction l1 as [|[name n|name error] l1 IH]; cbn [app success_count];
    [reflexivity | rewrite IH; lia | exact IH].
Qed.

Lemma file_report_counts (file : App.upload) :
  success_count (report_of file) = List.length (transactions_of file)
  /\ List.length (report_of file) = (if named file then 1 else 0)%nat.
Proof.
  unfold report_of, transactions_of, file_report, file_transactions, named.
  destruct (App.filename file) as [name|]; [|split; reflexivity].
  destruct (String.eqb name ""); [split; reflexivity|].
  destruct (App.attempt float_repr read_csv read_excel name file)
    as [[ts|]|e]; cbn [success_count List.length negb]; split;
    solve [reflexivity | lia].
Qed.

Lemma batch_counts (files : list App.upload) :
  success_count (flat_map report_of files)
  = List.length (flat_map transactions_of files)
  /\ List.length (flat_map report_of files)
     = List.length (filter named files).
Proof.
  induction files as [|file files [IH1 IH2]]; cbn [flat_map filter].
  - split; reflexivity.
  - destruct (file_report_counts file) as [H1 H2].
    rewrite success_count_app, !length_app, IH1, IH2, H1, H2.
    destruct (named file); cbn [List.length]; split; reflexivity.
Qed.

Lemma process_files_answer (files : list App.upload) (resp : App.response) :
  App.process_files float_repr read_csv read_excel files = Ok resp ->
  App.resp_processed_files resp = flat_map report_of files
  /\ App.s_total_transactions (App.resp_summary resp)
     = List.length (flat_map transactions_of files)
  /\ App.resp_reports resp = generate_reports (flat_map transactions_of files).
Proof.
  unfold App.process_files.
  pose proof (process_loop_appends float_repr read_csv read_excel files [] [])
    as H.
  cbn [app] in H. rewrite H.
  fold transactions_of report_of.
  destruct (flat_map transactions_of files) as [|t ts]; [discriminate|].
  intro Hr. injection Hr as <-. repeat split.
Qed.

End BatchSummary.

(** X15: when [process_files] answers, the number of transactions in its
    summary is the sum of the counts of the success entries of the status
    list, the status list has one entry for each file with a name that is
    not empty (a file without a name leaves no trace), and the three
    amounts of the summary are those of the income statement of the
    reports. *)
Theorem X15_batch_summary_is_consistent (float_repr : pyfloat -> string)
    (read_csv read_excel : string -> result (list row))
    (files : list App.upload) (resp : App.response) :
  App.process_files float_repr read_csv read_excel files = Ok resp ->
  App.s_total_transactions (App.resp_summary resp)
  = success_count (App.resp_processed_files resp)
  /\ App.s_total_transactions (App.resp_summary resp)
     = List.length (r_transactions (App.resp_reports resp))
  /\ List.length (App.resp_processed_files resp)
     = List.length (filter named files)
  /\ App.s_total_income (App.resp_summary resp)
     = total_income (r_income_statement (App.resp_reports resp))
  /\ App.s_total_expenses (App.resp_summary resp)
     = total_expenses (r_income_statement (App.resp_reports resp))
  /\ App.s_net_income (App.resp_summary resp)
     = net_income (r_income_statement (App.resp_reports resp)).
Proof.
  intro H.
  destruct (process_files_answer _ _ _ files resp H) as (Hs & Hn & Hr).
  destruct (batch_counts float_repr read_csv read_excel files) as [Hc Hl].
  rewrite Hs, Hn, Hr, generate_reports_transactions, Hc, Hl.
  repeat split; try reflexivity.
  all: revert H; unfold App.process_files;
    destruct (fold_left _ files ([], [])) as [[|t ts] statuses];
    [discriminate | intro H; injection H as <-; rewrite <- Hr; reflexivity].
Qed.

Lemma X15_batch_summary_is_consistent_witness :
  exists resp,
    App.process_files (fun _ => "") sample_read_csv sample_read_csv sample_files
    = Ok resp
    /\ App.s_total_transactions (App.resp_summary resp)
       = success_count (App.resp_processed_files resp).
Proof.
  eexists. split; [vm_compute; reflexivity|].
  match goal with
  | |- App.s_total_transactions (App.resp_summary ?resp) = _ =>
      refine (proj1 (X15_batch_summary_is_consistent (fun _ => "")
                       sample_read_csv sample_read_csv sample_files resp _))
  end.
  vm_compute. reflexivity.
Defined.

(** X16: in [process_files] the file is read before its extension is looked
    at: a file whose read fails is reported with the text of that error,
    and adds no transaction, even when its extension is not supported. *)
Theorem X16_read_error_comes_first (float_repr : pyfloat -> string)
    (read_csv read_excel : string -> result (list row))
    (file : App.upload) (name : string) (e : exn) :
  App.filename file = Some name ->
  name <> "" ->
  App.read file = Raise e ->
  file_report float_repr read_csv read_excel file
  = [App.Failure name (exn_str e)]
  /\ file_transactions float_repr read_csv read_excel file = []
  /\ forall all_transactions statuses,
       App.process_file float_repr read_csv read_excel
         (all_transactions, statuses) file
       = (all_transactions, statuses ++ [App.Failure name (exn_str e)]).
Proof.
  intros Hn Hne Hr. apply String.eqb_neq in Hne.
  unfold file_report, file_transactions, App.process_file, App.attempt.
  rewrite Hn, Hne, Hr. cbn [bind]. repeat split.
Qed.

Lemma X16_read_error_comes_first_witness :
  file_report (fun _ => "") sample_read_csv sample_read_csv
    (App.mkUpload (Some "scan.pdf") (Raise (OtherError "connection reset")))
  = [App.Failure "scan.pdf" "connection reset"].
Proof.
  apply (X16_read_error_comes_first (fun _ => "") sample_read_csv sample_read_csv
           (App.mkUpload (Some "scan.pdf") (Raise (OtherError "connection reset")))
           "scan.pdf" (OtherError "connection reset") eq_refl).
  - discriminate.
  - reflexivity.
Defined.

(** ** The files of processor.py *)

Lemma gather_lines (lines : list string) :
  Processor.gather Processor.parse_pdf_line lines
  = Ok (flat_map line_transactions lines).
Proof.
  induction lines as [|line lines IH]; cbn [Processor.gather flat_map].
  - reflexivity.
  - unfold line_transactions at 1.
    destruct (parse_pdf_line_with_total Processor.patterns line) as [o Ho].
    unfold Processor.parse_pdf_line in *. rewrite Ho, IH. cbn [bind].
    destruct o; reflexivity.
Qed.

Lemma process_pages_flat_map (pages : list (option string)) :
  Processor.process_pages pages = Ok (flat_map page_transactions pages).
Proof.
  induction pages as [|page pages IH]; cbn [Processor.process_pages flat_map].
  - reflexivity.
  - rewrite IH. generalize (flat_map page_transactions pages). intro rest.
    unfold page_transactions.
    destruct page as [text|]; [|reflexivity].
    destruct (String.eqb text ""); [reflexivity|].
    rewrite gather_lines. reflexivity.
Qed.

Section JsonItems.

Variable float_repr : pyfloat -> string.

Lemma extract_item_object (r : row) :
  row_in_float_range r = true ->
  exists o,
    Processor.extract_item float_repr (Processor.JObject r) = Ok o
    /\ row_transactions (Processor.extract_transaction float_repr) r
       = match o with Some t => [t] | None => [] end.
Proof.
  intro Hr.
  destruct (extract_total _ processor_parse_amount_raises
              Processor.categorize_transaction "Unknown" float_repr r Hr)
    as [o Ho].
  change (Processor.extract_transaction float_repr r = Ok o) in Ho.
  exists o. unfold row_transactions. cbn [Processor.extract_item].
  rewrite Ho. split; reflexivity.
Qed.

Lemma gather_objects (items : list Processor.json_item) :
  all_objects items = true ->
  items_in_float_range items = true ->
  Processor.gather (Processor.extract_item float_repr) items
  = Ok (flat_map (row_transactions (Processor.extract_transaction float_repr))
          (object_rows items)).
Proof.
  unfold items_in_float_range.
  induction items as [|[r|type_name] items IH]; intros H Hrange.
  - reflexivity.
  - change (all_objects items = true) in H.
    change (object_rows (Processor.JObject r :: items))
      with (r :: object_rows items) in *.
    cbn [forallb] in Hrange. apply andb_true_iff in Hrange as [Hr Hrange].
    cbn [Processor.gather flat_map].
    destruct (extract_item_object r Hr) as (o & Ho & Hrow).
    rewrite Ho, (IH H Hrange), Hrow. cbn [bind]. destruct o; reflexivity.
  - discriminate.
Qed.

Lemma gather_not_object (items : list Processor.json_item) :
  all_objects items = false ->
  items_in_float_range items = true ->
  exists type_name,
    In (Processor.JNotObject type_name) items
    /\ Processor.gather (Processor.extract_item float_repr) items
       = Raise (no_items type_name).
Proof.
  unfold items_in_float_range.
  induction items as [|[r|type_name] items IH]; intros H Hrange.
  - discriminate.
  - change (all_objects items = false) in H.
    change (object_rows (Processor.JObject r :: items))
      with (r :: object_rows items) in *.
    cbn [forallb] in Hrange. apply andb_true_iff in Hrange as [Hr Hrange].
    destruct (IH H Hrange) as (type_name & Hin & Hg).
    exists type_name. split; [right; exact Hin|].
    cbn [Processor.gather].
    destruct (extract_item_object r Hr) as (o & Ho & _).
    rewrite Ho, Hg. reflexivity.
  - exists type_name. split; [left; reflexivity | reflexivity].
Qed.

(** The first item that fails decides: an object fails on an integer beyond
    the range of [float], and what is no object on its [items]. *)
Lemma gather_raises (items : list Processor.json_item) (e : exn) :
  Processor.gather (Processor.extract_item float_repr) items = Raise e ->
  (e = int_too_large /\ items_in_float_range items = false)
  \/ (exists type_name,
        In (Processor.JNotObject type_name) items /\ e = no_items type_name).
Proof.
  unfold items_in_float_range.
  induction items as [|item items IH]; cbn [Processor.gather].
  - discriminate.
  - destruct (Processor.extract_item float_repr item) as [o|e'] eqn:Hi;
      cbn [bind].
    + destruct (Processor.gather (Processor.extract_item float_repr) items)
        as [ts|e''] eqn:Hg; cbn [bind]; [discriminate|].
      intro H. injection H as <-.
      destruct (IH eq_refl) as [[He Hrange] | (type_name & Hin & He)].
      * left. split; [exact He|].
        destruct item as [r|type_name]; [|exact Hrange].
        change (object_rows (Processor.JObject r :: items))
          with (r :: object_rows items).
        cbn [forallb]. rewrite Hrange. apply andb_false_r.
      * right. exists type_name. split; [right; exact Hin | exact He].
    + intro H. injection H as <-. destruct item as [r|type_name].
      * left. cbn [Processor.extract_item] in Hi.
        destruct (processor_extract_raises float_repr r e' Hi) as [Hr He].
        split; [exact He|].
        change (object_rows (Processor.JObject r :: items))
          with (r :: object_rows items).
        cbn [forallb]. rewrite Hr. reflexivity.
      * right. exists type_name. cbn [Processor.extract_item] in Hi.
        injection Hi as <-. split; [left; reflexivity | reflexivity].
Qed.

End JsonItems.

(** X17: [process_file_in_memory] raises only what the reader of the format
    raises, the [OverflowError] of an integer beyond the range of [float] in
    a row or object the reader gave, the error of a JSON list item that is
    no object, or, for a name with none of the extensions csv, xlsx, xls,
    pdf and json, the [ValueError] that names the file. *)
Theorem X17_file_errors_come_from_readers (float_repr : pyfloat -> string)
    (read_csv read_excel : string -> result (list row))
    (pdf_pages : string -> result (list (option string)))
    (json_loads : string -> result Processor.json_data)
    (file_content filename : string) (e : exn) :
  Processor.process_file_in_memory float_repr read_csv read_excel pdf_pages
    json_loads file_content filename = Raise e ->
  read_csv file_content = Raise e
  \/ read_excel file_content = Raise e
  \/ pdf_pages file_content = Raise e
  \/ json_loads file_content = Raise e
  \/ (e = int_too_large
      /\ exists rows,
           forallb row_in_float_range rows = false
           /\ (read_csv file_content = Ok rows
               \/ read_excel file_content = Ok rows
               \/ exists items,
                    json_loads file_content = Ok (Processor.JList items)
                    /\ rows = object_rows items))
  \/ (exists items type_name,
        json_loads file_content = Ok (Processor.JList items)
        /\ In (Processor.JNotObject type_name) items
        /\ e = no_items type_name)
  \/ (e = ValueError ("Unsupported file format: " ++ filename)%string
      /\ PyStr.endswith ".csv" (PyStr.lower filename) = false
      /\ PyStr.endswith ".xlsx" (PyStr.lower filename) = false
      /\ PyStr.endswith ".xls" (PyStr.lower filename) = false
      /\ PyStr.endswith ".pdf" (PyStr.lower filename) = false
      /\ PyStr.endswith ".json" (PyStr.lower filename) = false).
Proof.
  unfold Processor.process_file_in_memory.
  destruct (PyStr.endswith ".csv" (PyStr.lower filename)) eqn:Hcsv.
  { unfold Processor.process_csv.
    destruct (read_csv file_content) as [rows|e'] eqn:Hr; cbn [bind].
    - intro H.
      destruct (collect_raises _ rows e (processor_extract_raises float_repr) H)
        as [Hrange He].
      right. right. right. right. left. split; [exact He|].
      exists rows. split; [exact Hrange | left; reflexivity].
    - intro H. injection H as ->. left. reflexivity. }
  destruct (PyStr.endswith ".xlsx" (PyStr.lower filename)) eqn:Hxlsx;
    destruct (PyStr.endswith ".xls" (PyStr.lower filename)) eqn:Hxls;
    cbn [orb].
  1-3: unfold Processor.process_excel;
    destruct (read_excel file_content) as [rows|e'] eqn:Hr; cbn [bind];
    [ intro H;
      destruct (collect_raises _ rows e (processor_extract_raises float_repr) H)
        as [Hrange He];
      right; right; right; right; left; split; [exact He|];
      exists rows; split; [exact Hrange | right; left; reflexivity]
    | intro H; injection H as ->; right; left; reflexivity ].
  destruct (PyStr.endswith ".pdf" (PyStr.lower filename)) eqn:Hpdf.
  { unfold Processor.process_pdf.
    destruct (pdf_pages file_content) as [pages|e'] eqn:Hr; cbn [bind].
    - rewrite process_pages_flat_map. discriminate.
    - intro H. injection H as ->. right. right. left. reflexivity. }
  destruct (PyStr.endswith ".json" (PyStr.lower filename)) eqn:Hjson.
  { unfold Processor.process_json.
    destruct (json_loads file_content) as [[items|]|e'] eqn:Hr; cbn [bind].
    - intro H.
      destruct (gather_raises float_repr items e H)
        as [[He Hrange] | (type_name & Hin & He)].
      + right. right. right. right. left. split; [exact He|].
        exists (object_rows items). split; [exact Hrange|].
        right. right. exists items. split; reflexivity.
      + right. right. right. right. right. left.
        exists items, type_name. repeat split; assumption.
    - discriminate.
    - intro H. injection H as ->. right. right. right. left. reflexivity. }
  intro H. injection H as <-. repeat right. repeat split.
Qed.

Lemma X17_file_errors_come_from_readers_witness :
  sample_read_csv "" = Raise (OtherError "No columns to parse from file")
  \/ sample_read_csv "" = Raise (OtherError "No columns to parse from file")
  \/ (fun _ : string => Ok ([] : list (option string))) ""
     = Raise (OtherError "No columns to parse from file")
  \/ (fun _ : string => Ok Processor.JOther) ""
     = Raise (OtherError "No columns to parse from file")
  \/ (OtherError "No columns to parse from file" = int_too_large
      /\ exists rows,
           forallb row_in_float_range rows = false
           /\ (sample_read_csv "" = Ok rows
               \/ sample_read_csv "" = Ok rows
               \/ exists items,
                    (fun _ : string => Ok Processor.JOther) ""
                    = Ok (Processor.JList items)
                    /\ rows = object_rows items))
  \/ (exists items type_name,
        (fun _ : string => Ok Processor.JOther) ""
        = Ok (Processor.JList items)
        /\ In (Processor.JNotObject type_name) items
        /\ OtherError "No columns to parse from file" = no_items type_name)
  \/ (OtherError "No columns to parse from file"
      = ValueError ("Unsupported file format: " ++ "january.CSV")%string
      /\ PyStr.endswith ".csv" (PyStr.lower "january.CSV") = false
      /\ PyStr.endswith ".xlsx" (PyStr.lower "january.CSV") = false
      /\ PyStr.endswith ".xls" (PyStr.lower "january.CSV") = false
      /\ PyStr.endswith ".pdf" (PyStr.lower "january.CSV") = false
      /\ PyStr.endswith ".json" (PyStr.lower "january.CSV") = false).
Proof.
  apply (X17_file_errors_come_from_readers (fun _ => "")
           sample_read_csv sample_read_csv
           (fun _ => Ok []) (fun _ => Ok Processor.JOther)
           "" "january.CSV" (OtherError "No columns to parse from file")).
  reflexivity.
Defined.

(** X18: [process_json] returns no transaction and no error for a document
    that is not a list (a single object, say); for a list of objects none
    of whose integers is beyond the range of [float] it returns, in order,
    the transaction of each object that has one; a list with an item that
    is no object, and no such integer, fails as a whole with the error of
    that item, the transactions of the objects before it being lost; and a
    list fails with nothing but that error or the [OverflowError] of such
    an integer. *)
Theorem X18_json_documents (float_repr : pyfloat -> string)
    (json_loads : string -> result Processor.json_data)
    (file_content : string) :
  (json_loads file_content = Ok Processor.JOther ->
   Processor.process_json float_repr json_loads file_content = Ok [])
  /\ (forall items,
        json_loads file_content = Ok (Processor.JList items) ->
        (all_objects items = true ->
         items_in_float_range items = true ->
         Processor.process_json float_repr json_loads file_content
         = Ok (flat_map
                 (row_transactions (Processor.extract_transaction float_repr))
                 (object_rows items)))
        /\ (all_objects items = false ->
            items_in_float_range items = true ->
            exists type_name,
              In (Processor.JNotObject type_name) items
              /\ Processor.process_json float_repr json_loads file_content
                 = Raise (no_items type_name))
        /\ (forall e,
              Processor.process_json float_repr json_loads file_content
              = Raise e ->
              (e = int_too_large /\ items_in_float_range items = false)
              \/ (exists type_name,
                    In (Processor.JNotObject type_name) items
                    /\ e = no_items type_name))).
Proof.
  unfold Processor.process_json. split.
  - intros ->. reflexivity.
  - intros items ->. cbn [bind]. split; [|split].
    + apply gather_objects.
    + apply gather_not_object.
    + apply gather_raises.
Qed.

Lemma X18_json_documents_witness :
  Processor.process_json (fun _ => "")
    (fun _ => Ok (Processor.JList
                    [Processor.JObject debit_example;
                     Processor.JObject [(KStr "Amount", VInt 0)]]))
    "[]"
  = Ok (flat_map
          (row_transactions (Processor.extract_transaction (fun _ => "")))
          (object_rows [Processor.JObject debit_example;
                        Processor.JObject [(KStr "Amount", VInt 0)]])).
Proof.
  apply (proj1 (proj2 (X18_json_documents (fun _ => "")
                  (fun _ => Ok (Processor.JList
                                  [Processor.JObject debit_example;
                                   Processor.JObject [(KStr "Amount", VInt 0)]]))
                  "[]")
           _ eq_refl)); reflexivity.
Defined.

Lemma split_lines_nonempty (text : string) : Processor.split_lines text <> [].
Proof.
  destruct text as [|c text]; cbn [Processor.split_lines]; [discriminate|].
  destruct (Ascii.eqb c "010"); [discriminate|].
  destruct (Processor.split_lines text); discriminate.
Qed.

Lemma split_lines_app (t1 t2 : string) :
  Processor.split_lines (t1 ++ String "010" t2)%string
  = Processor.split_lines t1 ++ Processor.split_lines t2.
Proof.
  induction t1 as [|c t1 IH]; cbn [String.append Processor.split_lines].
  - reflexivity.
  - destruct (Ascii.eqb c "010").
    + rewrite IH. reflexivity.
    + rewrite IH. pose proof (split_lines_nonempty t1) as Hne.
      destruct (Processor.split_lines t1); [congruence | reflexivity].
Qed.

Lemma page_transactions_lines (text : string) :
  page_transactions (Some text)
  = flat_map line_transactions (Processor.split_lines text).
Proof.
  unfold page_transactions. destruct (String.eqb text "") eqn:H.
  - apply String.eqb_eq in H. subst text. reflexivity.
  - reflexivity.
Qed.

(** X19: [process_pdf] raises exactly what opening the document raises;
    otherwise it returns, page by page and line by line, the transaction of
    each line that has one, a page without text giving none; and a page
    break counts as a line break: two pages give what the one page made of
    their texts joined by a newline gives. *)
Theorem X19_pdf_pages_and_lines
    (pdf_pages : string -> result (list (option string)))
    (file_content : string) :
  (forall e,
     pdf_pages file_content = Raise e ->
     Processor.process_pdf pdf_pages file_content = Raise e)
  /\ (forall pages,
        pdf_pages file_content = Ok pages ->
        Processor.process_pdf pdf_pages file_content
        = Ok (flat_map page_transactions pages))
  /\ (forall text1 text2,
        page_transactions (Some (text1 ++ String "010" text2)%string)
        = page_transactions (Some text1) ++ page_transactions (Some text2)).
Proof.
  unfold Processor.process_pdf. split; [|split].
  - intros e ->. reflexivity.
  - intros pages ->. apply process_pages_flat_map.
  - intros text1 text2. rewrite !page_transactions_lines, split_lines_app.
    apply flat_map_app.
Qed.

Lemma X19_pdf_pages_and_lines_witness :
  Processor.process_pdf
    (fun _ => Ok [Some "Statement"; None; Some "01-02-2024 Fee 0.00"]) "%PDF"
  = Ok (flat_map page_transactions
          [Some "Statement"; None; Some "01-02-2024 Fee 0.00"]).
Proof.
  apply (proj1 (proj2 (X19_pdf_pages_and_lines
                         (fun _ => Ok [Some "Statement"; None;
                                       Some "01-02-2024 Fee 0.00"])
                         "%PDF"))).
  reflexivity.
Defined.

(** ** Lines that cannot match *)

Lemma match_here_rep (cls : ascii -> bool) (lo : nat) (hi : option nat)
    (greedy : bool) (rest : list Regex.item) (marks : list Regex.mark)
    (s : string) (pos : nat) :
  Regex.match_here (Regex.Rep cls lo hi greedy :: rest) s pos marks
  = rep_loop (fun s' pos' => Regex.match_here rest s' pos' marks)
      cls lo hi greedy s pos 0.
Proof.
  cbn [Regex.match_here]. generalize 0%nat. revert pos.
  induction s as [|c s IH]; intros pos n.
  - reflexivity.
  - cbn [rep_loop]. rewrite <- IH. reflexivity.
Qed.

(** A repetition of at least one character of a class fails on a text
    without a character of the class. *)
Lemma rep_loop_needs (k : string -> nat -> option (list Regex.mark))
    (cls : ascii -> bool) (lo : nat) (hi : option nat) (greedy : bool)
    (s : string) (pos : nat) :
  all_chars (fun c => negb (cls c)) s = true ->
  rep_loop k cls (S lo) hi greedy s pos 0 = None.
Proof.
  intro H. destruct s as [|c s]; cbn [rep_loop Nat.leb].
  - destruct greedy; reflexivity.
  - cbn [all_chars] in H. apply andb_true_iff in H as [Hc _].
    apply negb_true_iff in Hc. rewrite Hc. destruct greedy; reflexivity.
Qed.

(** A repetition fails when what follows it fails at every later place. *)
Lemma rep_loop_fails (P : string -> Prop)
    (k : string -> nat -> option (list Regex.mark))
    (cls : ascii -> bool) (lo : nat) (hi : option nat) (greedy : bool) :
  (forall c s, P (String c s) -> P s) ->
  (forall s pos, P s -> k s pos = None) ->
  forall s pos n, P s -> rep_loop k cls lo hi greedy s pos n = None.
Proof.
  intros Htail Hk. induction s as [|c s IH]; intros pos n Hs; cbn [rep_loop].
  - rewrite (Hk _ pos Hs). destruct greedy, (lo <=? n)%nat; reflexivity.
  - rewrite (Hk _ pos Hs), (IH (S pos) (S n) (Htail c s Hs)).
    destruct greedy, (lo <=? n)%nat, (cls c && Regex.below hi n); reflexivity.
Qed.

Lemma lacks_needed_tail (items : list Regex.item) (c : ascii) (s : string) :
  lacks_needed (String c s) items -> lacks_needed s items.
Proof.
  unfold lacks_needed. apply Exists_impl.
  intros [cls [|lo] hi greedy | g | g]; try contradiction.
  cbn [all_chars]. intro H. apply andb_true_iff in H. apply H.
Qed.

Lemma match_here_lacks (items : list Regex.item) :
  forall s pos marks,
    lacks_needed s items -> Regex.match_here items s pos marks = None.
Proof.
  induction items as [|item items IH]; intros s pos marks H.
  - inversion H.
  - destruct item as [cls lo hi greedy | g | g].
    + rewrite match_here_rep. apply Exists_cons in H as [H | H].
      * destruct lo as [|lo]; [contradiction|].
        apply rep_loop_needs. exact H.
      * apply (rep_loop_fails (fun s' => lacks_needed s' items)).
        -- intros c s'. apply lacks_needed_tail.
        -- intros s' pos' Hs'. apply IH. exact Hs'.
        -- exact H.
    + apply Exists_cons in H as [[] | H]. cbn [Regex.match_here].
      apply IH. exact H.
    + apply Exists_cons in H as [[] | H]. cbn [Regex.match_here].
      apply IH. exact H.
Qed.

Lemma search_lacks (items : list Regex.item) (line : string) :
  lacks_needed line items -> Regex.search items line = None.
Proof.
  unfold Regex.search. generalize 0%nat.
  induction line as [|c line IH]; intros pos H; cbn [Regex.search_from];
    rewrite (match_here_lacks items _ pos [] H).
  - reflexivity.
  - apply IH. apply (lacks_needed_tail items c line H).
Qed.

Lemma parse_pdf_line_lacks (line : string) :
  lacks_needed line Processor.pattern_slash ->
  lacks_needed line Processor.pattern_dash ->
  Processor.parse_pdf_line line = Ok None.
Proof.
  intros Hs Hd.
  unfold Processor.parse_pdf_line, Processor.patterns.
  cbn [Processor.parse_pdf_line_with].
  rewrite (search_lacks _ line Hs), (search_lacks _ line Hd). reflexivity.
Qed.

Ltac find_needed H :=
  unfold lacks_needed, Processor.pattern_slash, Processor.pattern_dash,
    Regex.chr;
  repeat first [ apply Exists_cons_hd; exact H | apply Exists_cons_tl ].

(** X20: [parse_pdf_line] gives no transaction for a line that has no full
    stop (an amount without decimals is not an amount), or neither a slash
    nor a dash (no date), or, the line being ASCII text, no digit or no
    whitespace. *)
Theorem X20_lines_that_cannot_match (line : string) :
  (ascii_text line = true
   /\ (no_digit line = true
       \/ all_chars (fun c => negb (PyStr.is_space c)) line = true))
  \/ all_chars (fun c => negb (Ascii.eqb "." c)) line = true
  \/ (all_chars (fun c => negb (Ascii.eqb "/" c)) line = true
      /\ all_chars (fun c => negb (Ascii.eqb "-" c)) line = true) ->
  Processor.parse_pdf_line line = Ok None.
Proof.
  intros [[_ [H | H]] | [H | [Hs Hd]]]; apply parse_pdf_line_lacks.
  - find_needed H.
  - find_needed H.
  - find_needed H.
  - find_needed H.
  - find_needed H.
  - find_needed H.
  - find_needed Hs.
  - find_needed Hd.
Qed.

Lemma X20_lines_that_cannot_match_witness :
  Processor.parse_pdf_line "01-02-2024 Card payment 100" = Ok None.
Proof.
  apply X20_lines_that_cannot_match. right. left. reflexivity.
Defined.

(** ** NaN amounts *)

Lemma padd_nan_r (x : pyfloat) : padd x NaN = NaN.
Proof. destruct x; reflexivity. Qed.

Lemma total_nan (l : list pyfloat) : In NaN l -> total l = NaN.
Proof.
  induction l as [|x l IH]; cbn [In total fold_right].
  - intros [].
  - fold (total l). intros [H | H].
    + subst x. reflexivity.
    + rewrite (IH H). apply padd_nan_r.
Qed.

Lemma sum_abs_not_positive_nan (txs : list transaction) :
  Exists (fun t => is_nan (t_amount t) = true) txs ->
  sum_abs_not_positive txs = NaN.
Proof.
  intro H. apply Exists_exists in H as (t & Hin & Hnan).
  unfold sum_abs_not_positive. apply total_nan.
  apply in_map_iff. exists t. split.
  - destruct (t_amount t); try discriminate. reflexivity.
  - apply filter_In. split; [exact Hin|].
    destruct (t_amount t); try discriminate. reflexivity.
Qed.

Lemma positive_not_nan (txs : list transaction) :
  filter (fun t => pgt0 (t_amount t))
    (filter (fun t => negb (is_nan (t_amount t))) txs)
  = filter (fun t => pgt0 (t_amount t)) txs.
Proof.
  induction txs as [|t txs IH]; [reflexivity|].
  cbn [filter]. destruct (is_nan (t_amount t)) eqn:Hn; cbn [negb filter].
  - destruct (t_amount t); try discriminate. cbn [pgt0]. exact IH.
  - rewrite IH. reflexivity.
Qed.

(** X22: one transaction whose amount is NaN makes [total_expenses] NaN, and
    with it [net_income], [total_liabilities], [total_equity],
    [operating_activities], [financing_activities] and [net_cash_flow];
    [total_income] does not see it. *)
Theorem X22_nan_amount_spoils_expense_totals (txs : list transaction) :
  Exists (fun t => is_nan (t_amount t) = true) txs ->
  let r := App.generate_reports txs in
  total_expenses (r_income_statement r) = NaN
  /\ net_income (r_income_statement r) = NaN
  /\ total_liabilities (r_balance_sheet r) = NaN
  /\ total_equity (r_balance_sheet r) = NaN
  /\ operating_activities (r_cash_flow r) = NaN
  /\ financing_activities (r_cash_flow r) = NaN
  /\ net_cash_flow (r_cash_flow r) = NaN
  /\ total_income (r_income_statement r)
     = sum_positive (filter (fun t => negb (is_nan (t_amount t))) txs).
Proof.
  intros H r.
  pose proof (generate_reports_totals txs) as Ht.
  unfold totals, totals_of in Ht.
  change (generate_reports txs) with r in Ht.
  injection Ht as Hi He Hn Ha Hl Hq Ho Hv Hf Hc.
  rewrite Hi, He, Hn, Hl, Hq, Ho, Hf, Hc.
  rewrite (sum_abs_not_positive_nan txs H).
  unfold psub. cbn [pneg pmul]. rewrite !padd_nan_r.
  repeat split.
  unfold sum_positive. rewrite positive_not_nan. reflexivity.
Qed.

Lemma X22_nan_amount_spoils_expense_totals_witness :
  net_income
    (r_income_statement
       (App.generate_reports
          (mkTransaction "" "Unknown Transaction" NaN "uncategorized" "expense"
           :: sample_transactions)))
  = NaN.
Proof.
  apply (X22_nan_amount_spoils_expense_totals
           (mkTransaction "" "Unknown Transaction" NaN "uncategorized" "expense"
            :: sample_transactions)).
  apply Exists_cons_hd. reflexivity.
Defined.

Lemma signed_nan (c : amount_class) : signed c NaN = NaN.
Proof. destruct c; reflexivity. Qed.

(** X23: a NaN in the field at which the amount scan stops, which is what
    pandas hands over for an empty cell, gives in app.py a transaction with
    the amount NaN and the type expense, and in processor.py no
    transaction; no later amount field is looked at in either. *)
Theorem X23_nan_cell (float_repr : pyfloat -> string) (pre post : row)
    (key : pykey) (c : amount_class) :
  Forall passed_over pre ->
  classify (name_of key) = Some c ->
  (exists t,
     App.extract_transaction float_repr (pre ++ (key, VFloat NaN) :: post)
     = Ok (Some t)
     /\ t_amount t = NaN /\ t_type t = "expense")
  /\ Processor.extract_transaction float_repr
       (pre ++ (key, VFloat NaN) :: post)
     = Ok None.
Proof.
  intros Hpre Hc.
  assert (VFloat NaN <> VNone) as Hv by discriminate.
  split.
  - assert (find_amount App.parse_amount (pre ++ (key, VFloat NaN) :: post)
            = Ok NaN) as Hf.
    { rewrite (find_amount_first _ pre post key _ c Hpre Hv Hc).
      cbn [App.parse_amount bind]. rewrite <- (signed_nan c) at 2.
      reflexivity. }
    destruct (extract_of_amount _ App.categorize_transaction
                "Unknown Transaction" float_repr _ NaN Hf eq_refl)
      as (t & Ht & Ha).
    exists t. split; [exact Ht|]. split; [exact Ha|].
    apply (extract_some _ _ _ _ _ t) in Ht. destruct Ht as (_ & _ & Hty).
    rewrite Hty, Ha. reflexivity.
  - apply (extract_zero _ _ _ _ _ (signed c fzero)).
    + rewrite (find_amount_first _ pre post key _ c Hpre Hv Hc). reflexivity.
    + rewrite peq0_signed. reflexivity.
Qed.

Lemma X23_nan_cell_witness :
  Processor.extract_transaction (fun _ => "")
    ([(KStr "Date", VStr "01/01/2024")]
     ++ (KStr "Debit", VFloat NaN) :: [(KStr "Credit", VInt 50000)])
  = Ok None.
Proof.
  refine (proj2 (X23_nan_cell (fun _ => "")
                   [(KStr "Date", VStr "01/01/2024")]
                   [(KStr "Credit", VInt 50000)] (KStr "Debit") DebitLike
                   _ eq_refl)).
  constructor; [right; reflexivity | constructor].
Defined.
